(** * Recipe Studio: the response-normalisation pipeline of [app.py]

    A shallow embedding of [app.py]: its pure part (JSON extraction,
    heuristic repair, prose extraction, field sanitisation, title registry)
    and the handlers of its page (the views, rendering, copy, reset, the
    overlay), together with the properties stated about them.

    Conventions of the model.
    - A Python [str] is a list of Unicode code points ([N]).
    - Character classes ([str.isspace], [str.splitlines], [\w], [\d],
      [str.isprintable]) and case mapping ([lower], [title], [capitalize],
      with the final-sigma rule) follow the tables of Unicode 14.0, the
      ones CPython 3.11 carries.
    - A [float] is a binary64 value: a literal is rounded to the nearest
      one (ties to even, overflow to infinity) and written back with the
      shortest digits that read as the same value.
    - A raised exception is [None] in an [option] result. *)

From Stdlib Require Import List NArith ZArith String Ascii Bool Lia DecimalString
  DecimalN.
From stdpp Require Import gmap.
Import ListNotations.

Local Open Scope N_scope.
Local Open Scope list_scope.

(** ** Characters and strings *)

Abbreviation char := N.
Abbreviation str := (list N).

(** [u "..."] reads an ASCII literal as a [str]. *)
Definition u (s : string) : str := List.map N_of_ascii (list_ascii_of_string s).

Definition ch_eqb (a b : char) : bool := N.eqb a b.

Fixpoint str_eqb (a b : str) : bool :=
  match a, b with
  | [], [] => true
  | x :: a', y :: b' => ch_eqb x y && str_eqb a' b'
  | _, _ => false
  end.

Definition in_range (lo hi c : char) : bool := (lo <=? c) && (c <=? hi).

Definition mem_ch (c : char) (cs : list char) : bool := existsb (ch_eqb c) cs.

(** [Py_UNICODE_ISSPACE]: shared by [str.isspace], [str.strip] and [\s]. *)
Definition is_space (c : char) : bool :=
  in_range 9 13 c || in_range 28 32 c || mem_ch c [133; 160; 5760]
  || in_range 8192 8202 c || mem_ch c [8232; 8233; 8239; 8287; 12288].

(** Line boundaries of [str.splitlines] other than [\r\n]. *)
Definition is_linebreak (c : char) : bool :=
  in_range 10 13 c || in_range 28 30 c || mem_ch c [133; 8232; 8233].

Definition is_digit (c : char) : bool := in_range 48 57 c.
Definition is_upper (c : char) : bool := in_range 65 90 c.
Definition is_lower (c : char) : bool := in_range 97 122 c.
Definition is_alpha (c : char) : bool := is_upper c || is_lower c.

(** *** Character tables

    Ranges are ascending and disjoint; a lookup stops at the first range
    that starts after the code point. *)

Fixpoint in_ranges (t : list (N * N)) (c : char) : bool :=
  match t with
  | [] => false
  | (lo, hi) :: t' =>
      if c <? lo then false else if c <=? hi then true else in_ranges t' c
  end.

(** [str.isalnum] *)
Definition alnum_ranges : list (N * N) :=
  [
    (48, 57); (65, 90); (97, 122); (170, 170); (178, 179); (181, 181);
    (185, 186); (188, 190); (192, 214); (216, 246); (248, 705); (710, 721);
    (736, 740); (748, 748); (750, 750); (880, 884); (886, 887); (890, 893);
    (895, 895); (902, 902); (904, 906); (908, 908); (910, 929); (931, 1013);
    (1015, 1153); (1162, 1327); (1329, 1366); (1369, 1369); (1376, 1416);
    (1488, 1514); (1519, 1522); (1568, 1610); (1632, 1641); (1646, 1647);
    (1649, 1747); (1749, 1749); (1765, 1766); (1774, 1788); (1791, 1791);
    (1808, 1808); (1810, 1839); (1869, 1957); (1969, 1969); (1984, 2026);
    (2036, 2037); (2042, 2042); (2048, 2069); (2074, 2074); (2084, 2084);
    (2088, 2088); (2112, 2136); (2144, 2154); (2160, 2183); (2185, 2190);
    (2208, 2249); (2308, 2361); (2365, 2365); (2384, 2384); (2392, 2401);
    (2406, 2415); (2417, 2432); (2437, 2444); (2447, 2448); (2451, 2472);
    (2474, 2480); (2482, 2482); (2486, 2489); (2493, 2493); (2510, 2510);
    (2524, 2525); (2527, 2529); (2534, 2545); (2548, 2553); (2556, 2556);
    (2565, 2570); (2575, 2576); (2579, 2600); (2602, 2608); (2610, 2611);
    (2613, 2614); (2616, 2617); (2649, 2652); (2654, 2654); (2662, 2671);
    (2674, 2676); (2693, 2701); (2703, 2705); (2707, 2728); (2730, 2736);
    (2738, 2739); (2741, 2745); (2749, 2749); (2768, 2768); (2784, 2785);
    (2790, 2799); (2809, 2809); (2821, 2828); (2831, 2832); (2835, 2856);
    (2858, 2864); (2866, 2867); (2869, 2873); (2877, 2877); (2908, 2909);
    (2911, 2913); (2918, 2927); (2929, 2935); (2947, 2947); (2949, 2954);
    (2958, 2960); (2962, 2965); (2969, 2970); (2972, 2972); (2974, 2975);
    (2979, 2980); (2984, 2986); (2990, 3001); (3024, 3024); (3046, 3058);
    (3077, 3084); (3086, 3088); (3090, 3112); (3114, 3129); (3133, 3133);
    (3160, 3162); (3165, 3165); (3168, 3169); (3174, 3183); (3192, 3198);
    (3200, 3200); (3205, 3212); (3214, 3216); (3218, 3240); (3242, 3251);
    (3253, 3257); (3261, 3261); (3293, 3294); (3296, 3297); (3302, 3311);
    (3313, 3314); (3332, 3340); (3342, 3344); (3346, 3386); (3389, 3389);
    (3406, 3406); (3412, 3414); (3416, 3425); (3430, 3448); (3450, 3455);
    (3461, 3478); (3482, 3505); (3507, 3515); (3517, 3517); (3520, 3526);
    (3558, 3567); (3585, 3632); (3634, 3635); (3648, 3654); (3664, 3673);
    (3713, 3714); (3716, 3716); (3718, 3722); (3724, 3747); (3749, 3749);
    (3751, 3760); (3762, 3763); (3773, 3773); (3776, 3780); (3782, 3782);
    (3792, 3801); (3804, 3807); (3840, 3840); (3872, 3891); (3904, 3911);
    (3913, 3948); (3976, 3980); (4096, 4138); (4159, 4169); (4176, 4181);
    (4186, 4189); (4193, 4193); (4197, 4198); (4206, 4208); (4213, 4225);
    (4238, 4238); (4240, 4249); (4256, 4293); (4295, 4295); (4301, 4301);
    (4304, 4346); (4348, 4680); (4682, 4685); (4688, 4694); (4696, 4696);
    (4698, 4701); (4704, 4744); (4746, 4749); (4752, 4784); (4786, 4789);
    (4792, 4798); (4800, 4800); (4802, 4805); (4808, 4822); (4824, 4880);
    (4882, 4885); (4888, 4954); (4969, 4988); (4992, 5007); (5024, 5109);
    (5112, 5117); (5121, 5740); (5743, 5759); (5761, 5786); (5792, 5866);
    (5870, 5880); (5888, 5905); (5919, 5937); (5952, 5969); (5984, 5996);
    (5998, 6000); (6016, 6067); (6103, 6103); (6108, 6108); (6112, 6121);
    (6128, 6137); (6160, 6169); (6176, 6264); (6272, 6276); (6279, 6312);
    (6314, 6314); (6320, 6389); (6400, 6430); (6470, 6509); (6512, 6516);
    (6528, 6571); (6576, 6601); (6608, 6618); (6656, 6678); (6688, 6740);
    (6784, 6793); (6800, 6809); (6823, 6823); (6917, 6963); (6981, 6988);
    (6992, 7001); (7043, 7072); (7086, 7141); (7168, 7203); (7232, 7241);
    (7245, 7293); (7296, 7304); (7312, 7354); (7357, 7359); (7401, 7404);
    (7406, 7411); (7413, 7414); (7418, 7418); (7424, 7615); (7680, 7957);
    (7960, 7965); (7968, 8005); (8008, 8013); (8016, 8023); (8025, 8025);
    (8027, 8027); (8029, 8029); (8031, 8061); (8064, 8116); (8118, 8124);
    (8126, 8126); (8130, 8132); (8134, 8140); (8144, 8147); (8150, 8155);
    (8160, 8172); (8178, 8180); (8182, 8188); (8304, 8305); (8308, 8313);
    (8319, 8329); (8336, 8348); (8450, 8450); (8455, 8455); (8458, 8467);
    (8469, 8469); (8473, 8477); (8484, 8484); (8486, 8486); (8488, 8488);
    (8490, 8493); (8495, 8505); (8508, 8511); (8517, 8521); (8526, 8526);
    (8528, 8585); (9312, 9371); (9450, 9471); (10102, 10131); (11264, 11492);
    (11499, 11502); (11506, 11507); (11517, 11517); (11520, 11557);
    (11559, 11559); (11565, 11565); (11568, 11623); (11631, 11631);
    (11648, 11670); (11680, 11686); (11688, 11694); (11696, 11702);
    (11704, 11710); (11712, 11718); (11720, 11726); (11728, 11734);
    (11736, 11742); (11823, 11823); (12293, 12295); (12321, 12329);
    (12337, 12341); (12344, 12348); (12353, 12438); (12445, 12447);
    (12449, 12538); (12540, 12543); (12549, 12591); (12593, 12686);
    (12690, 12693); (12704, 12735); (12784, 12799); (12832, 12841);
    (12872, 12879); (12881, 12895); (12928, 12937); (12977, 12991);
    (13312, 19903); (19968, 42124); (42192, 42237); (42240, 42508);
    (42512, 42539); (42560, 42606); (42623, 42653); (42656, 42735);
    (42775, 42783); (42786, 42888); (42891, 42954); (42960, 42961);
    (42963, 42963); (42965, 42969); (42994, 43009); (43011, 43013);
    (43015, 43018); (43020, 43042); (43056, 43061); (43072, 43123);
    (43138, 43187); (43216, 43225); (43250, 43255); (43259, 43259);
    (43261, 43262); (43264, 43301); (43312, 43334); (43360, 43388);
    (43396, 43442); (43471, 43481); (43488, 43492); (43494, 43518);
    (43520, 43560); (43584, 43586); (43588, 43595); (43600, 43609);
    (43616, 43638); (43642, 43642); (43646, 43695); (43697, 43697);
    (43701, 43702); (43705, 43709); (43712, 43712); (43714, 43714);
    (43739, 43741); (43744, 43754); (43762, 43764); (43777, 43782);
    (43785, 43790); (43793, 43798); (43808, 43814); (43816, 43822);
    (43824, 43866); (43868, 43881); (43888, 44002); (44016, 44025);
    (44032, 55203); (55216, 55238); (55243, 55291); (63744, 64109);
    (64112, 64217); (64256, 64262); (64275, 64279); (64285, 64285);
    (64287, 64296); (64298, 64310); (64312, 64316); (64318, 64318);
    (64320, 64321); (64323, 64324); (64326, 64433); (64467, 64829);
    (64848, 64911); (64914, 64967); (65008, 65019); (65136, 65140);
    (65142, 65276); (65296, 65305); (65313, 65338); (65345, 65370);
    (65382, 65470); (65474, 65479); (65482, 65487); (65490, 65495);
    (65498, 65500); (65536, 65547); (65549, 65574); (65576, 65594);
    (65596, 65597); (65599, 65613); (65616, 65629); (65664, 65786);
    (65799, 65843); (65856, 65912); (65930, 65931); (66176, 66204);
    (66208, 66256); (66273, 66299); (66304, 66339); (66349, 66378);
    (66384, 66421); (66432, 66461); (66464, 66499); (66504, 66511);
    (66513, 66517); (66560, 66717); (66720, 66729); (66736, 66771);
    (66776, 66811); (66816, 66855); (66864, 66915); (66928, 66938);
    (66940, 66954); (66956, 66962); (66964, 66965); (66967, 66977);
    (66979, 66993); (66995, 67001); (67003, 67004); (67072, 67382);
    (67392, 67413); (67424, 67431); (67456, 67461); (67463, 67504);
    (67506, 67514); (67584, 67589); (67592, 67592); (67594, 67637);
    (67639, 67640); (67644, 67644); (67647, 67669); (67672, 67702);
    (67705, 67742); (67751, 67759); (67808, 67826); (67828, 67829);
    (67835, 67867); (67872, 67897); (67968, 68023); (68028, 68047);
    (68050, 68096); (68112, 68115); (68117, 68119); (68121, 68149);
    (68160, 68168); (68192, 68222); (68224, 68255); (68288, 68295);
    (68297, 68324); (68331, 68335); (68352, 68405); (68416, 68437);
    (68440, 68466); (68472, 68497); (68521, 68527); (68608, 68680);
    (68736, 68786); (68800, 68850); (68858, 68899); (68912, 68921);
    (69216, 69246); (69248, 69289); (69296, 69297); (69376, 69415);
    (69424, 69445); (69457, 69460); (69488, 69505); (69552, 69579);
    (69600, 69622); (69635, 69687); (69714, 69743); (69745, 69746);
    (69749, 69749); (69763, 69807); (69840, 69864); (69872, 69881);
    (69891, 69926); (69942, 69951); (69956, 69956); (69959, 69959);
    (69968, 70002); (70006, 70006); (70019, 70066); (70081, 70084);
    (70096, 70106); (70108, 70108); (70113, 70132); (70144, 70161);
    (70163, 70187); (70272, 70278); (70280, 70280); (70282, 70285);
    (70287, 70301); (70303, 70312); (70320, 70366); (70384, 70393);
    (70405, 70412); (70415, 70416); (70419, 70440); (70442, 70448);
    (70450, 70451); (70453, 70457); (70461, 70461); (70480, 70480);
    (70493, 70497); (70656, 70708); (70727, 70730); (70736, 70745);
    (70751, 70753); (70784, 70831); (70852, 70853); (70855, 70855);
    (70864, 70873); (71040, 71086); (71128, 71131); (71168, 71215);
    (71236, 71236); (71248, 71257); (71296, 71338); (71352, 71352);
    (71360, 71369); (71424, 71450); (71472, 71483); (71488, 71494);
    (71680, 71723); (71840, 71922); (71935, 71942); (71945, 71945);
    (71948, 71955); (71957, 71958); (71960, 71983); (71999, 71999);
    (72001, 72001); (72016, 72025); (72096, 72103); (72106, 72144);
    (72161, 72161); (72163, 72163); (72192, 72192); (72203, 72242);
    (72250, 72250); (72272, 72272); (72284, 72329); (72349, 72349);
    (72368, 72440); (72704, 72712); (72714, 72750); (72768, 72768);
    (72784, 72812); (72818, 72847); (72960, 72966); (72968, 72969);
    (72971, 73008); (73030, 73030); (73040, 73049); (73056, 73061);
    (73063, 73064); (73066, 73097); (73112, 73112); (73120, 73129);
    (73440, 73458); (73648, 73648); (73664, 73684); (73728, 74649);
    (74752, 74862); (74880, 75075); (77712, 77808); (77824, 78894);
    (82944, 83526); (92160, 92728); (92736, 92766); (92768, 92777);
    (92784, 92862); (92864, 92873); (92880, 92909); (92928, 92975);
    (92992, 92995); (93008, 93017); (93019, 93025); (93027, 93047);
    (93053, 93071); (93760, 93846); (93952, 94026); (94032, 94032);
    (94099, 94111); (94176, 94177); (94179, 94179); (94208, 100343);
    (100352, 101589); (101632, 101640); (110576, 110579); (110581, 110587);
    (110589, 110590); (110592, 110882); (110928, 110930); (110948, 110951);
    (110960, 111355); (113664, 113770); (113776, 113788); (113792, 113800);
    (113808, 113817); (119520, 119539); (119648, 119672); (119808, 119892);
    (119894, 119964); (119966, 119967); (119970, 119970); (119973, 119974);
    (119977, 119980); (119982, 119993); (119995, 119995); (119997, 120003);
    (120005, 120069); (120071, 120074); (120077, 120084); (120086, 120092);
    (120094, 120121); (120123, 120126); (120128, 120132); (120134, 120134);
    (120138, 120144); (120146, 120485); (120488, 120512); (120514, 120538);
    (120540, 120570); (120572, 120596); (120598, 120628); (120630, 120654);
    (120656, 120686); (120688, 120712); (120714, 120744); (120746, 120770);
    (120772, 120779); (120782, 120831); (122624, 122654); (123136, 123180);
    (123191, 123197); (123200, 123209); (123214, 123214); (123536, 123565);
    (123584, 123627); (123632, 123641); (124896, 124902); (124904, 124907);
    (124909, 124910); (124912, 124926); (124928, 125124); (125127, 125135);
    (125184, 125251); (125259, 125259); (125264, 125273); (126065, 126123);
    (126125, 126127); (126129, 126132); (126209, 126253); (126255, 126269);
    (126464, 126467); (126469, 126495); (126497, 126498); (126500, 126500);
    (126503, 126503); (126505, 126514); (126516, 126519); (126521, 126521);
    (126523, 126523); (126530, 126530); (126535, 126535); (126537, 126537);
    (126539, 126539); (126541, 126543); (126545, 126546); (126548, 126548);
    (126551, 126551); (126553, 126553); (126555, 126555); (126557, 126557);
    (126559, 126559); (126561, 126562); (126564, 126564); (126567, 126570);
    (126572, 126578); (126580, 126583); (126585, 126588); (126590, 126590);
    (126592, 126601); (126603, 126619); (126625, 126627); (126629, 126633);
    (126635, 126651); (127232, 127244); (130032, 130041); (131072, 173791);
    (173824, 177976); (177984, 178205); (178208, 183969); (183984, 191456);
    (194560, 195101); (196608, 201546)
  ].

(** [str.isdecimal]: every range is a run of the ten digits of a script, in
    order. *)
Definition decimal_ranges : list (N * N) :=
  [
    (48, 57); (1632, 1641); (1776, 1785); (1984, 1993); (2406, 2415);
    (2534, 2543); (2662, 2671); (2790, 2799); (2918, 2927); (3046, 3055);
    (3174, 3183); (3302, 3311); (3430, 3439); (3558, 3567); (3664, 3673);
    (3792, 3801); (3872, 3881); (4160, 4169); (4240, 4249); (6112, 6121);
    (6160, 6169); (6470, 6479); (6608, 6617); (6784, 6793); (6800, 6809);
    (6992, 7001); (7088, 7097); (7232, 7241); (7248, 7257); (42528, 42537);
    (43216, 43225); (43264, 43273); (43472, 43481); (43504, 43513);
    (43600, 43609); (44016, 44025); (65296, 65305); (66720, 66729);
    (68912, 68921); (69734, 69743); (69872, 69881); (69942, 69951);
    (70096, 70105); (70384, 70393); (70736, 70745); (70864, 70873);
    (71248, 71257); (71360, 71369); (71472, 71481); (71904, 71913);
    (72016, 72025); (72784, 72793); (73040, 73049); (73120, 73129);
    (92768, 92777); (92864, 92873); (93008, 93017); (120782, 120831);
    (123200, 123209); (123632, 123641); (125264, 125273); (130032, 130041)
  ].

(** The code points that [str.isprintable] refuses. *)
Definition unprintable_ranges : list (N * N) :=
  [
    (0, 31); (127, 160); (173, 173); (888, 889); (896, 899); (907, 907);
    (909, 909); (930, 930); (1328, 1328); (1367, 1368); (1419, 1420);
    (1424, 1424); (1480, 1487); (1515, 1518); (1525, 1541); (1564, 1564);
    (1757, 1757); (1806, 1807); (1867, 1868); (1970, 1983); (2043, 2044);
    (2094, 2095); (2111, 2111); (2140, 2141); (2143, 2143); (2155, 2159);
    (2191, 2199); (2274, 2274); (2436, 2436); (2445, 2446); (2449, 2450);
    (2473, 2473); (2481, 2481); (2483, 2485); (2490, 2491); (2501, 2502);
    (2505, 2506); (2511, 2518); (2520, 2523); (2526, 2526); (2532, 2533);
    (2559, 2560); (2564, 2564); (2571, 2574); (2577, 2578); (2601, 2601);
    (2609, 2609); (2612, 2612); (2615, 2615); (2618, 2619); (2621, 2621);
    (2627, 2630); (2633, 2634); (2638, 2640); (2642, 2648); (2653, 2653);
    (2655, 2661); (2679, 2688); (2692, 2692); (2702, 2702); (2706, 2706);
    (2729, 2729); (2737, 2737); (2740, 2740); (2746, 2747); (2758, 2758);
    (2762, 2762); (2766, 2767); (2769, 2783); (2788, 2789); (2802, 2808);
    (2816, 2816); (2820, 2820); (2829, 2830); (2833, 2834); (2857, 2857);
    (2865, 2865); (2868, 2868); (2874, 2875); (2885, 2886); (2889, 2890);
    (2894, 2900); (2904, 2907); (2910, 2910); (2916, 2917); (2936, 2945);
    (2948, 2948); (2955, 2957); (2961, 2961); (2966, 2968); (2971, 2971);
    (2973, 2973); (2976, 2978); (2981, 2983); (2987, 2989); (3002, 3005);
    (3011, 3013); (3017, 3017); (3022, 3023); (3025, 3030); (3032, 3045);
    (3067, 3071); (3085, 3085); (3089, 3089); (3113, 3113); (3130, 3131);
    (3141, 3141); (3145, 3145); (3150, 3156); (3159, 3159); (3163, 3164);
    (3166, 3167); (3172, 3173); (3184, 3190); (3213, 3213); (3217, 3217);
    (3241, 3241); (3252, 3252); (3258, 3259); (3269, 3269); (3273, 3273);
    (3278, 3284); (3287, 3292); (3295, 3295); (3300, 3301); (3312, 3312);
    (3315, 3327); (3341, 3341); (3345, 3345); (3397, 3397); (3401, 3401);
    (3408, 3411); (3428, 3429); (3456, 3456); (3460, 3460); (3479, 3481);
    (3506, 3506); (3516, 3516); (3518, 3519); (3527, 3529); (3531, 3534);
    (3541, 3541); (3543, 3543); (3552, 3557); (3568, 3569); (3573, 3584);
    (3643, 3646); (3676, 3712); (3715, 3715); (3717, 3717); (3723, 3723);
    (3748, 3748); (3750, 3750); (3774, 3775); (3781, 3781); (3783, 3783);
    (3790, 3791); (3802, 3803); (3808, 3839); (3912, 3912); (3949, 3952);
    (3992, 3992); (4029, 4029); (4045, 4045); (4059, 4095); (4294, 4294);
    (4296, 4300); (4302, 4303); (4681, 4681); (4686, 4687); (4695, 4695);
    (4697, 4697); (4702, 4703); (4745, 4745); (4750, 4751); (4785, 4785);
    (4790, 4791); (4799, 4799); (4801, 4801); (4806, 4807); (4823, 4823);
    (4881, 4881); (4886, 4887); (4955, 4956); (4989, 4991); (5018, 5023);
    (5110, 5111); (5118, 5119); (5760, 5760); (5789, 5791); (5881, 5887);
    (5910, 5918); (5943, 5951); (5972, 5983); (5997, 5997); (6001, 6001);
    (6004, 6015); (6110, 6111); (6122, 6127); (6138, 6143); (6158, 6158);
    (6170, 6175); (6265, 6271); (6315, 6319); (6390, 6399); (6431, 6431);
    (6444, 6447); (6460, 6463); (6465, 6467); (6510, 6511); (6517, 6527);
    (6572, 6575); (6602, 6607); (6619, 6621); (6684, 6685); (6751, 6751);
    (6781, 6782); (6794, 6799); (6810, 6815); (6830, 6831); (6863, 6911);
    (6989, 6991); (7039, 7039); (7156, 7163); (7224, 7226); (7242, 7244);
    (7305, 7311); (7355, 7356); (7368, 7375); (7419, 7423); (7958, 7959);
    (7966, 7967); (8006, 8007); (8014, 8015); (8024, 8024); (8026, 8026);
    (8028, 8028); (8030, 8030); (8062, 8063); (8117, 8117); (8133, 8133);
    (8148, 8149); (8156, 8156); (8176, 8177); (8181, 8181); (8191, 8207);
    (8232, 8239); (8287, 8303); (8306, 8307); (8335, 8335); (8349, 8351);
    (8385, 8399); (8433, 8447); (8588, 8591); (9255, 9279); (9291, 9311);
    (11124, 11125); (11158, 11158); (11508, 11512); (11558, 11558);
    (11560, 11564); (11566, 11567); (11624, 11630); (11633, 11646);
    (11671, 11679); (11687, 11687); (11695, 11695); (11703, 11703);
    (11711, 11711); (11719, 11719); (11727, 11727); (11735, 11735);
    (11743, 11743); (11870, 11903); (11930, 11930); (12020, 12031);
    (12246, 12271); (12284, 12288); (12352, 12352); (12439, 12440);
    (12544, 12548); (12592, 12592); (12687, 12687); (12772, 12783);
    (12831, 12831); (42125, 42127); (42183, 42191); (42540, 42559);
    (42744, 42751); (42955, 42959); (42962, 42962); (42964, 42964);
    (42970, 42993); (43053, 43055); (43066, 43071); (43128, 43135);
    (43206, 43213); (43226, 43231); (43348, 43358); (43389, 43391);
    (43470, 43470); (43482, 43485); (43519, 43519); (43575, 43583);
    (43598, 43599); (43610, 43611); (43715, 43738); (43767, 43776);
    (43783, 43784); (43791, 43792); (43799, 43807); (43815, 43815);
    (43823, 43823); (43884, 43887); (44014, 44015); (44026, 44031);
    (55204, 55215); (55239, 55242); (55292, 63743); (64110, 64111);
    (64218, 64255); (64263, 64274); (64280, 64284); (64311, 64311);
    (64317, 64317); (64319, 64319); (64322, 64322); (64325, 64325);
    (64451, 64466); (64912, 64913); (64968, 64974); (64976, 65007);
    (65050, 65055); (65107, 65107); (65127, 65127); (65132, 65135);
    (65141, 65141); (65277, 65280); (65471, 65473); (65480, 65481);
    (65488, 65489); (65496, 65497); (65501, 65503); (65511, 65511);
    (65519, 65531); (65534, 65535); (65548, 65548); (65575, 65575);
    (65595, 65595); (65598, 65598); (65614, 65615); (65630, 65663);
    (65787, 65791); (65795, 65798); (65844, 65846); (65935, 65935);
    (65949, 65951); (65953, 65999); (66046, 66175); (66205, 66207);
    (66257, 66271); (66300, 66303); (66340, 66348); (66379, 66383);
    (66427, 66431); (66462, 66462); (66500, 66503); (66518, 66559);
    (66718, 66719); (66730, 66735); (66772, 66775); (66812, 66815);
    (66856, 66863); (66916, 66926); (66939, 66939); (66955, 66955);
    (66963, 66963); (66966, 66966); (66978, 66978); (66994, 66994);
    (67002, 67002); (67005, 67071); (67383, 67391); (67414, 67423);
    (67432, 67455); (67462, 67462); (67505, 67505); (67515, 67583);
    (67590, 67591); (67593, 67593); (67638, 67638); (67641, 67643);
    (67645, 67646); (67670, 67670); (67743, 67750); (67760, 67807);
    (67827, 67827); (67830, 67834); (67868, 67870); (67898, 67902);
    (67904, 67967); (68024, 68027); (68048, 68049); (68100, 68100);
    (68103, 68107); (68116, 68116); (68120, 68120); (68150, 68151);
    (68155, 68158); (68169, 68175); (68185, 68191); (68256, 68287);
    (68327, 68330); (68343, 68351); (68406, 68408); (68438, 68439);
    (68467, 68471); (68498, 68504); (68509, 68520); (68528, 68607);
    (68681, 68735); (68787, 68799); (68851, 68857); (68904, 68911);
    (68922, 69215); (69247, 69247); (69290, 69290); (69294, 69295);
    (69298, 69375); (69416, 69423); (69466, 69487); (69514, 69551);
    (69580, 69599); (69623, 69631); (69710, 69713); (69750, 69758);
    (69821, 69821); (69827, 69839); (69865, 69871); (69882, 69887);
    (69941, 69941); (69960, 69967); (70007, 70015); (70112, 70112);
    (70133, 70143); (70162, 70162); (70207, 70271); (70279, 70279);
    (70281, 70281); (70286, 70286); (70302, 70302); (70314, 70319);
    (70379, 70383); (70394, 70399); (70404, 70404); (70413, 70414);
    (70417, 70418); (70441, 70441); (70449, 70449); (70452, 70452);
    (70458, 70458); (70469, 70470); (70473, 70474); (70478, 70479);
    (70481, 70486); (70488, 70492); (70500, 70501); (70509, 70511);
    (70517, 70655); (70748, 70748); (70754, 70783); (70856, 70863);
    (70874, 71039); (71094, 71095); (71134, 71167); (71237, 71247);
    (71258, 71263); (71277, 71295); (71354, 71359); (71370, 71423);
    (71451, 71452); (71468, 71471); (71495, 71679); (71740, 71839);
    (71923, 71934); (71943, 71944); (71946, 71947); (71956, 71956);
    (71959, 71959); (71990, 71990); (71993, 71994); (72007, 72015);
    (72026, 72095); (72104, 72105); (72152, 72153); (72165, 72191);
    (72264, 72271); (72355, 72367); (72441, 72703); (72713, 72713);
    (72759, 72759); (72774, 72783); (72813, 72815); (72848, 72849);
    (72872, 72872); (72887, 72959); (72967, 72967); (72970, 72970);
    (73015, 73017); (73019, 73019); (73022, 73022); (73032, 73039);
    (73050, 73055); (73062, 73062); (73065, 73065); (73103, 73103);
    (73106, 73106); (73113, 73119); (73130, 73439); (73465, 73647);
    (73649, 73663); (73714, 73726); (74650, 74751); (74863, 74863);
    (74869, 74879); (75076, 77711); (77811, 77823); (78895, 82943);
    (83527, 92159); (92729, 92735); (92767, 92767); (92778, 92781);
    (92863, 92863); (92874, 92879); (92910, 92911); (92918, 92927);
    (92998, 93007); (93018, 93018); (93026, 93026); (93048, 93052);
    (93072, 93759); (93851, 93951); (94027, 94030); (94088, 94094);
    (94112, 94175); (94181, 94191); (94194, 94207); (100344, 100351);
    (101590, 101631); (101641, 110575); (110580, 110580); (110588, 110588);
    (110591, 110591); (110883, 110927); (110931, 110947); (110952, 110959);
    (111356, 113663); (113771, 113775); (113789, 113791); (113801, 113807);
    (113818, 113819); (113824, 118527); (118574, 118575); (118599, 118607);
    (118724, 118783); (119030, 119039); (119079, 119080); (119155, 119162);
    (119275, 119295); (119366, 119519); (119540, 119551); (119639, 119647);
    (119673, 119807); (119893, 119893); (119965, 119965); (119968, 119969);
    (119971, 119972); (119975, 119976); (119981, 119981); (119994, 119994);
    (119996, 119996); (120004, 120004); (120070, 120070); (120075, 120076);
    (120085, 120085); (120093, 120093); (120122, 120122); (120127, 120127);
    (120133, 120133); (120135, 120137); (120145, 120145); (120486, 120487);
    (120780, 120781); (121484, 121498); (121504, 121504); (121520, 122623);
    (122655, 122879); (122887, 122887); (122905, 122906); (122914, 122914);
    (122917, 122917); (122923, 123135); (123181, 123183); (123198, 123199);
    (123210, 123213); (123216, 123535); (123567, 123583); (123642, 123646);
    (123648, 124895); (124903, 124903); (124908, 124908); (124911, 124911);
    (124927, 124927); (125125, 125126); (125143, 125183); (125260, 125263);
    (125274, 125277); (125280, 126064); (126133, 126208); (126270, 126463);
    (126468, 126468); (126496, 126496); (126499, 126499); (126501, 126502);
    (126504, 126504); (126515, 126515); (126520, 126520); (126522, 126522);
    (126524, 126529); (126531, 126534); (126536, 126536); (126538, 126538);
    (126540, 126540); (126544, 126544); (126547, 126547); (126549, 126550);
    (126552, 126552); (126554, 126554); (126556, 126556); (126558, 126558);
    (126560, 126560); (126563, 126563); (126565, 126566); (126571, 126571);
    (126579, 126579); (126584, 126584); (126589, 126589); (126591, 126591);
    (126602, 126602); (126620, 126624); (126628, 126628); (126634, 126634);
    (126652, 126703); (126706, 126975); (127020, 127023); (127124, 127135);
    (127151, 127152); (127168, 127168); (127184, 127184); (127222, 127231);
    (127406, 127461); (127491, 127503); (127548, 127551); (127561, 127567);
    (127570, 127583); (127590, 127743); (128728, 128732); (128749, 128751);
    (128765, 128767); (128884, 128895); (128985, 128991); (129004, 129007);
    (129009, 129023); (129036, 129039); (129096, 129103); (129114, 129119);
    (129160, 129167); (129198, 129199); (129202, 129279); (129620, 129631);
    (129646, 129647); (129653, 129655); (129661, 129663); (129671, 129679);
    (129709, 129711); (129723, 129727); (129734, 129743); (129754, 129759);
    (129768, 129775); (129783, 129791); (129939, 129939); (129995, 130031);
    (130042, 131071); (173792, 173823); (177977, 177983); (178206, 178207);
    (183970, 183983); (191457, 194559); (195102, 196607); (201547, 917759);
    (918000, 1114111)
  ].

(** The property [Cased]. *)
Definition cased_ranges : list (N * N) :=
  [
    (65, 90); (97, 122); (170, 170); (181, 181); (186, 186); (192, 214);
    (216, 246); (248, 442); (444, 447); (452, 659); (661, 696); (704, 705);
    (736, 740); (837, 837); (880, 883); (886, 887); (890, 893); (895, 895);
    (902, 902); (904, 906); (908, 908); (910, 929); (931, 1013); (1015, 1153);
    (1162, 1327); (1329, 1366); (1376, 1416); (4256, 4293); (4295, 4295);
    (4301, 4301); (4304, 4346); (4349, 4351); (5024, 5109); (5112, 5117);
    (7296, 7304); (7312, 7354); (7357, 7359); (7424, 7615); (7680, 7957);
    (7960, 7965); (7968, 8005); (8008, 8013); (8016, 8023); (8025, 8025);
    (8027, 8027); (8029, 8029); (8031, 8061); (8064, 8116); (8118, 8124);
    (8126, 8126); (8130, 8132); (8134, 8140); (8144, 8147); (8150, 8155);
    (8160, 8172); (8178, 8180); (8182, 8188); (8305, 8305); (8319, 8319);
    (8336, 8348); (8450, 8450); (8455, 8455); (8458, 8467); (8469, 8469);
    (8473, 8477); (8484, 8484); (8486, 8486); (8488, 8488); (8490, 8493);
    (8495, 8500); (8505, 8505); (8508, 8511); (8517, 8521); (8526, 8526);
    (8544, 8575); (8579, 8580); (9398, 9449); (11264, 11492); (11499, 11502);
    (11506, 11507); (11520, 11557); (11559, 11559); (11565, 11565);
    (42560, 42605); (42624, 42653); (42786, 42887); (42891, 42894);
    (42896, 42954); (42960, 42961); (42963, 42963); (42965, 42969);
    (42997, 42998); (43000, 43002); (43824, 43866); (43868, 43880);
    (43888, 43967); (64256, 64262); (64275, 64279); (65313, 65338);
    (65345, 65370); (66560, 66639); (66736, 66771); (66776, 66811);
    (66928, 66938); (66940, 66954); (66956, 66962); (66964, 66965);
    (66967, 66977); (66979, 66993); (66995, 67001); (67003, 67004);
    (67456, 67456); (67459, 67461); (67463, 67504); (67506, 67514);
    (68736, 68786); (68800, 68850); (71840, 71903); (93760, 93823);
    (119808, 119892); (119894, 119964); (119966, 119967); (119970, 119970);
    (119973, 119974); (119977, 119980); (119982, 119993); (119995, 119995);
    (119997, 120003); (120005, 120069); (120071, 120074); (120077, 120084);
    (120086, 120092); (120094, 120121); (120123, 120126); (120128, 120132);
    (120134, 120134); (120138, 120144); (120146, 120485); (120488, 120512);
    (120514, 120538); (120540, 120570); (120572, 120596); (120598, 120628);
    (120630, 120654); (120656, 120686); (120688, 120712); (120714, 120744);
    (120746, 120770); (120772, 120779); (122624, 122633); (122635, 122654);
    (125184, 125251); (127280, 127305); (127312, 127337); (127344, 127369)
  ].

(** The property [Case_Ignorable]. *)
Definition case_ignorable_ranges : list (N * N) :=
  [
    (39, 39); (46, 46); (58, 58); (94, 94); (96, 96); (168, 168); (173, 173);
    (175, 175); (180, 180); (183, 184); (688, 879); (884, 885); (890, 890);
    (900, 901); (903, 903); (1155, 1161); (1369, 1369); (1375, 1375);
    (1425, 1469); (1471, 1471); (1473, 1474); (1476, 1477); (1479, 1479);
    (1524, 1524); (1536, 1541); (1552, 1562); (1564, 1564); (1600, 1600);
    (1611, 1631); (1648, 1648); (1750, 1757); (1759, 1768); (1770, 1773);
    (1807, 1807); (1809, 1809); (1840, 1866); (1958, 1968); (2027, 2037);
    (2042, 2042); (2045, 2045); (2070, 2093); (2137, 2139); (2184, 2184);
    (2192, 2193); (2200, 2207); (2249, 2306); (2362, 2362); (2364, 2364);
    (2369, 2376); (2381, 2381); (2385, 2391); (2402, 2403); (2417, 2417);
    (2433, 2433); (2492, 2492); (2497, 2500); (2509, 2509); (2530, 2531);
    (2558, 2558); (2561, 2562); (2620, 2620); (2625, 2626); (2631, 2632);
    (2635, 2637); (2641, 2641); (2672, 2673); (2677, 2677); (2689, 2690);
    (2748, 2748); (2753, 2757); (2759, 2760); (2765, 2765); (2786, 2787);
    (2810, 2815); (2817, 2817); (2876, 2876); (2879, 2879); (2881, 2884);
    (2893, 2893); (2901, 2902); (2914, 2915); (2946, 2946); (3008, 3008);
    (3021, 3021); (3072, 3072); (3076, 3076); (3132, 3132); (3134, 3136);
    (3142, 3144); (3146, 3149); (3157, 3158); (3170, 3171); (3201, 3201);
    (3260, 3260); (3263, 3263); (3270, 3270); (3276, 3277); (3298, 3299);
    (3328, 3329); (3387, 3388); (3393, 3396); (3405, 3405); (3426, 3427);
    (3457, 3457); (3530, 3530); (3538, 3540); (3542, 3542); (3633, 3633);
    (3636, 3642); (3654, 3662); (3761, 3761); (3764, 3772); (3782, 3782);
    (3784, 3789); (3864, 3865); (3893, 3893); (3895, 3895); (3897, 3897);
    (3953, 3966); (3968, 3972); (3974, 3975); (3981, 3991); (3993, 4028);
    (4038, 4038); (4141, 4144); (4146, 4151); (4153, 4154); (4157, 4158);
    (4184, 4185); (4190, 4192); (4209, 4212); (4226, 4226); (4229, 4230);
    (4237, 4237); (4253, 4253); (4348, 4348); (4957, 4959); (5906, 5908);
    (5938, 5939); (5970, 5971); (6002, 6003); (6068, 6069); (6071, 6077);
    (6086, 6086); (6089, 6099); (6103, 6103); (6109, 6109); (6155, 6159);
    (6211, 6211); (6277, 6278); (6313, 6313); (6432, 6434); (6439, 6440);
    (6450, 6450); (6457, 6459); (6679, 6680); (6683, 6683); (6742, 6742);
    (6744, 6750); (6752, 6752); (6754, 6754); (6757, 6764); (6771, 6780);
    (6783, 6783); (6823, 6823); (6832, 6862); (6912, 6915); (6964, 6964);
    (6966, 6970); (6972, 6972); (6978, 6978); (7019, 7027); (7040, 7041);
    (7074, 7077); (7080, 7081); (7083, 7085); (7142, 7142); (7144, 7145);
    (7149, 7149); (7151, 7153); (7212, 7219); (7222, 7223); (7288, 7293);
    (7376, 7378); (7380, 7392); (7394, 7400); (7405, 7405); (7412, 7412);
    (7416, 7417); (7468, 7530); (7544, 7544); (7579, 7679); (8125, 8125);
    (8127, 8129); (8141, 8143); (8157, 8159); (8173, 8175); (8189, 8190);
    (8203, 8207); (8216, 8217); (8228, 8228); (8231, 8231); (8234, 8238);
    (8288, 8292); (8294, 8303); (8305, 8305); (8319, 8319); (8336, 8348);
    (8400, 8432); (11388, 11389); (11503, 11505); (11631, 11631);
    (11647, 11647); (11744, 11775); (11823, 11823); (12293, 12293);
    (12330, 12333); (12337, 12341); (12347, 12347); (12441, 12446);
    (12540, 12542); (40981, 40981); (42232, 42237); (42508, 42508);
    (42607, 42610); (42612, 42621); (42623, 42623); (42652, 42655);
    (42736, 42737); (42752, 42785); (42864, 42864); (42888, 42890);
    (42994, 42996); (43000, 43001); (43010, 43010); (43014, 43014);
    (43019, 43019); (43045, 43046); (43052, 43052); (43204, 43205);
    (43232, 43249); (43263, 43263); (43302, 43309); (43335, 43345);
    (43392, 43394); (43443, 43443); (43446, 43449); (43452, 43453);
    (43471, 43471); (43493, 43494); (43561, 43566); (43569, 43570);
    (43573, 43574); (43587, 43587); (43596, 43596); (43632, 43632);
    (43644, 43644); (43696, 43696); (43698, 43700); (43703, 43704);
    (43710, 43711); (43713, 43713); (43741, 43741); (43756, 43757);
    (43763, 43764); (43766, 43766); (43867, 43871); (43881, 43883);
    (44005, 44005); (44008, 44008); (44013, 44013); (64286, 64286);
    (64434, 64450); (65024, 65039); (65043, 65043); (65056, 65071);
    (65106, 65106); (65109, 65109); (65279, 65279); (65287, 65287);
    (65294, 65294); (65306, 65306); (65342, 65342); (65344, 65344);
    (65392, 65392); (65438, 65439); (65507, 65507); (65529, 65531);
    (66045, 66045); (66272, 66272); (66422, 66426); (67456, 67461);
    (67463, 67504); (67506, 67514); (68097, 68099); (68101, 68102);
    (68108, 68111); (68152, 68154); (68159, 68159); (68325, 68326);
    (68900, 68903); (69291, 69292); (69446, 69456); (69506, 69509);
    (69633, 69633); (69688, 69702); (69744, 69744); (69747, 69748);
    (69759, 69761); (69811, 69814); (69817, 69818); (69821, 69821);
    (69826, 69826); (69837, 69837); (69888, 69890); (69927, 69931);
    (69933, 69940); (70003, 70003); (70016, 70017); (70070, 70078);
    (70089, 70092); (70095, 70095); (70191, 70193); (70196, 70196);
    (70198, 70199); (70206, 70206); (70367, 70367); (70371, 70378);
    (70400, 70401); (70459, 70460); (70464, 70464); (70502, 70508);
    (70512, 70516); (70712, 70719); (70722, 70724); (70726, 70726);
    (70750, 70750); (70835, 70840); (70842, 70842); (70847, 70848);
    (70850, 70851); (71090, 71093); (71100, 71101); (71103, 71104);
    (71132, 71133); (71219, 71226); (71229, 71229); (71231, 71232);
    (71339, 71339); (71341, 71341); (71344, 71349); (71351, 71351);
    (71453, 71455); (71458, 71461); (71463, 71467); (71727, 71735);
    (71737, 71738); (71995, 71996); (71998, 71998); (72003, 72003);
    (72148, 72151); (72154, 72155); (72160, 72160); (72193, 72202);
    (72243, 72248); (72251, 72254); (72263, 72263); (72273, 72278);
    (72281, 72283); (72330, 72342); (72344, 72345); (72752, 72758);
    (72760, 72765); (72767, 72767); (72850, 72871); (72874, 72880);
    (72882, 72883); (72885, 72886); (73009, 73014); (73018, 73018);
    (73020, 73021); (73023, 73029); (73031, 73031); (73104, 73105);
    (73109, 73109); (73111, 73111); (73459, 73460); (78896, 78904);
    (92912, 92916); (92976, 92982); (92992, 92995); (94031, 94031);
    (94095, 94111); (94176, 94177); (94179, 94180); (110576, 110579);
    (110581, 110587); (110589, 110590); (113821, 113822); (113824, 113827);
    (118528, 118573); (118576, 118598); (119143, 119145); (119155, 119170);
    (119173, 119179); (119210, 119213); (119362, 119364); (121344, 121398);
    (121403, 121452); (121461, 121461); (121476, 121476); (121499, 121503);
    (121505, 121519); (122880, 122886); (122888, 122904); (122907, 122913);
    (122915, 122916); (122918, 122922); (123184, 123197); (123566, 123566);
    (123628, 123631); (125136, 125142); (125252, 125259); (127995, 127999);
    (917505, 917505); (917536, 917631); (917760, 917999)
  ].

(** The lower-case mapping of one code point to one code point, as runs
    [(first, last, stride, offset)]. *)
Definition lower_runs : list (N * N * N * Z) :=
  [
    (65, 90, 1, 32%Z); (192, 214, 1, 32%Z); (216, 222, 1, 32%Z);
    (256, 302, 2, 1%Z); (306, 310, 2, 1%Z); (313, 327, 2, 1%Z);
    (330, 374, 2, 1%Z); (376, 376, 1, (-121)%Z); (377, 381, 2, 1%Z);
    (385, 385, 1, 210%Z); (386, 388, 2, 1%Z); (390, 390, 1, 206%Z);
    (391, 391, 1, 1%Z); (393, 394, 1, 205%Z); (395, 395, 1, 1%Z);
    (398, 398, 1, 79%Z); (399, 399, 1, 202%Z); (400, 400, 1, 203%Z);
    (401, 401, 1, 1%Z); (403, 403, 1, 205%Z); (404, 404, 1, 207%Z);
    (406, 406, 1, 211%Z); (407, 407, 1, 209%Z); (408, 408, 1, 1%Z);
    (412, 412, 1, 211%Z); (413, 413, 1, 213%Z); (415, 415, 1, 214%Z);
    (416, 420, 2, 1%Z); (422, 422, 1, 218%Z); (423, 423, 1, 1%Z);
    (425, 425, 1, 218%Z); (428, 428, 1, 1%Z); (430, 430, 1, 218%Z);
    (431, 431, 1, 1%Z); (433, 434, 1, 217%Z); (435, 437, 2, 1%Z);
    (439, 439, 1, 219%Z); (440, 440, 1, 1%Z); (444, 444, 1, 1%Z);
    (452, 452, 1, 2%Z); (453, 453, 1, 1%Z); (455, 455, 1, 2%Z);
    (456, 456, 1, 1%Z); (458, 458, 1, 2%Z); (459, 475, 2, 1%Z);
    (478, 494, 2, 1%Z); (497, 497, 1, 2%Z); (498, 500, 2, 1%Z);
    (502, 502, 1, (-97)%Z); (503, 503, 1, (-56)%Z); (504, 542, 2, 1%Z);
    (544, 544, 1, (-130)%Z); (546, 562, 2, 1%Z); (570, 570, 1, 10795%Z);
    (571, 571, 1, 1%Z); (573, 573, 1, (-163)%Z); (574, 574, 1, 10792%Z);
    (577, 577, 1, 1%Z); (579, 579, 1, (-195)%Z); (580, 580, 1, 69%Z);
    (581, 581, 1, 71%Z); (582, 590, 2, 1%Z); (880, 882, 2, 1%Z);
    (886, 886, 1, 1%Z); (895, 895, 1, 116%Z); (902, 902, 1, 38%Z);
    (904, 906, 1, 37%Z); (908, 908, 1, 64%Z); (910, 911, 1, 63%Z);
    (913, 929, 1, 32%Z); (931, 939, 1, 32%Z); (975, 975, 1, 8%Z);
    (984, 1006, 2, 1%Z); (1012, 1012, 1, (-60)%Z); (1015, 1015, 1, 1%Z);
    (1017, 1017, 1, (-7)%Z); (1018, 1018, 1, 1%Z); (1021, 1023, 1, (-130)%Z);
    (1024, 1039, 1, 80%Z); (1040, 1071, 1, 32%Z); (1120, 1152, 2, 1%Z);
    (1162, 1214, 2, 1%Z); (1216, 1216, 1, 15%Z); (1217, 1229, 2, 1%Z);
    (1232, 1326, 2, 1%Z); (1329, 1366, 1, 48%Z); (4256, 4293, 1, 7264%Z);
    (4295, 4295, 1, 7264%Z); (4301, 4301, 1, 7264%Z);
    (5024, 5103, 1, 38864%Z); (5104, 5109, 1, 8%Z);
    (7312, 7354, 1, (-3008)%Z); (7357, 7359, 1, (-3008)%Z);
    (7680, 7828, 2, 1%Z); (7838, 7838, 1, (-7615)%Z); (7840, 7934, 2, 1%Z);
    (7944, 7951, 1, (-8)%Z); (7960, 7965, 1, (-8)%Z); (7976, 7983, 1, (-8)%Z);
    (7992, 7999, 1, (-8)%Z); (8008, 8013, 1, (-8)%Z); (8025, 8031, 2, (-8)%Z);
    (8040, 8047, 1, (-8)%Z); (8072, 8079, 1, (-8)%Z); (8088, 8095, 1, (-8)%Z);
    (8104, 8111, 1, (-8)%Z); (8120, 8121, 1, (-8)%Z);
    (8122, 8123, 1, (-74)%Z); (8124, 8124, 1, (-9)%Z);
    (8136, 8139, 1, (-86)%Z); (8140, 8140, 1, (-9)%Z);
    (8152, 8153, 1, (-8)%Z); (8154, 8155, 1, (-100)%Z);
    (8168, 8169, 1, (-8)%Z); (8170, 8171, 1, (-112)%Z);
    (8172, 8172, 1, (-7)%Z); (8184, 8185, 1, (-128)%Z);
    (8186, 8187, 1, (-126)%Z); (8188, 8188, 1, (-9)%Z);
    (8486, 8486, 1, (-7517)%Z); (8490, 8490, 1, (-8383)%Z);
    (8491, 8491, 1, (-8262)%Z); (8498, 8498, 1, 28%Z); (8544, 8559, 1, 16%Z);
    (8579, 8579, 1, 1%Z); (9398, 9423, 1, 26%Z); (11264, 11311, 1, 48%Z);
    (11360, 11360, 1, 1%Z); (11362, 11362, 1, (-10743)%Z);
    (11363, 11363, 1, (-3814)%Z); (11364, 11364, 1, (-10727)%Z);
    (11367, 11371, 2, 1%Z); (11373, 11373, 1, (-10780)%Z);
    (11374, 11374, 1, (-10749)%Z); (11375, 11375, 1, (-10783)%Z);
    (11376, 11376, 1, (-10782)%Z); (11378, 11378, 1, 1%Z);
    (11381, 11381, 1, 1%Z); (11390, 11391, 1, (-10815)%Z);
    (11392, 11490, 2, 1%Z); (11499, 11501, 2, 1%Z); (11506, 11506, 1, 1%Z);
    (42560, 42604, 2, 1%Z); (42624, 42650, 2, 1%Z); (42786, 42798, 2, 1%Z);
    (42802, 42862, 2, 1%Z); (42873, 42875, 2, 1%Z);
    (42877, 42877, 1, (-35332)%Z); (42878, 42886, 2, 1%Z);
    (42891, 42891, 1, 1%Z); (42893, 42893, 1, (-42280)%Z);
    (42896, 42898, 2, 1%Z); (42902, 42920, 2, 1%Z);
    (42922, 42922, 1, (-42308)%Z); (42923, 42923, 1, (-42319)%Z);
    (42924, 42924, 1, (-42315)%Z); (42925, 42925, 1, (-42305)%Z);
    (42926, 42926, 1, (-42308)%Z); (42928, 42928, 1, (-42258)%Z);
    (42929, 42929, 1, (-42282)%Z); (42930, 42930, 1, (-42261)%Z);
    (42931, 42931, 1, 928%Z); (42932, 42946, 2, 1%Z);
    (42948, 42948, 1, (-48)%Z); (42949, 42949, 1, (-42307)%Z);
    (42950, 42950, 1, (-35384)%Z); (42951, 42953, 2, 1%Z);
    (42960, 42960, 1, 1%Z); (42966, 42968, 2, 1%Z); (42997, 42997, 1, 1%Z);
    (65313, 65338, 1, 32%Z); (66560, 66599, 1, 40%Z); (66736, 66771, 1, 40%Z);
    (66928, 66938, 1, 39%Z); (66940, 66954, 1, 39%Z); (66956, 66962, 1, 39%Z);
    (66964, 66965, 1, 39%Z); (68736, 68786, 1, 64%Z); (71840, 71871, 1, 32%Z);
    (93760, 93791, 1, 32%Z); (125184, 125217, 1, 34%Z)
  ].

(** The title-case mapping of one code point to one code point. *)
Definition title_runs : list (N * N * N * Z) :=
  [
    (97, 122, 1, (-32)%Z); (181, 181, 1, 743%Z); (224, 246, 1, (-32)%Z);
    (248, 254, 1, (-32)%Z); (255, 255, 1, 121%Z); (257, 303, 2, (-1)%Z);
    (305, 305, 1, (-232)%Z); (307, 311, 2, (-1)%Z); (314, 328, 2, (-1)%Z);
    (331, 375, 2, (-1)%Z); (378, 382, 2, (-1)%Z); (383, 383, 1, (-300)%Z);
    (384, 384, 1, 195%Z); (387, 389, 2, (-1)%Z); (392, 392, 1, (-1)%Z);
    (396, 396, 1, (-1)%Z); (402, 402, 1, (-1)%Z); (405, 405, 1, 97%Z);
    (409, 409, 1, (-1)%Z); (410, 410, 1, 163%Z); (414, 414, 1, 130%Z);
    (417, 421, 2, (-1)%Z); (424, 424, 1, (-1)%Z); (429, 429, 1, (-1)%Z);
    (432, 432, 1, (-1)%Z); (436, 438, 2, (-1)%Z); (441, 441, 1, (-1)%Z);
    (445, 445, 1, (-1)%Z); (447, 447, 1, 56%Z); (452, 452, 1, 1%Z);
    (454, 454, 1, (-1)%Z); (455, 455, 1, 1%Z); (457, 457, 1, (-1)%Z);
    (458, 458, 1, 1%Z); (460, 476, 2, (-1)%Z); (477, 477, 1, (-79)%Z);
    (479, 495, 2, (-1)%Z); (497, 497, 1, 1%Z); (499, 501, 2, (-1)%Z);
    (505, 543, 2, (-1)%Z); (547, 563, 2, (-1)%Z); (572, 572, 1, (-1)%Z);
    (575, 576, 1, 10815%Z); (578, 578, 1, (-1)%Z); (583, 591, 2, (-1)%Z);
    (592, 592, 1, 10783%Z); (593, 593, 1, 10780%Z); (594, 594, 1, 10782%Z);
    (595, 595, 1, (-210)%Z); (596, 596, 1, (-206)%Z); (598, 599, 1, (-205)%Z);
    (601, 601, 1, (-202)%Z); (603, 603, 1, (-203)%Z); (604, 604, 1, 42319%Z);
    (608, 608, 1, (-205)%Z); (609, 609, 1, 42315%Z); (611, 611, 1, (-207)%Z);
    (613, 613, 1, 42280%Z); (614, 614, 1, 42308%Z); (616, 616, 1, (-209)%Z);
    (617, 617, 1, (-211)%Z); (618, 618, 1, 42308%Z); (619, 619, 1, 10743%Z);
    (620, 620, 1, 42305%Z); (623, 623, 1, (-211)%Z); (625, 625, 1, 10749%Z);
    (626, 626, 1, (-213)%Z); (629, 629, 1, (-214)%Z); (637, 637, 1, 10727%Z);
    (640, 640, 1, (-218)%Z); (642, 642, 1, 42307%Z); (643, 643, 1, (-218)%Z);
    (647, 647, 1, 42282%Z); (648, 648, 1, (-218)%Z); (649, 649, 1, (-69)%Z);
    (650, 651, 1, (-217)%Z); (652, 652, 1, (-71)%Z); (658, 658, 1, (-219)%Z);
    (669, 669, 1, 42261%Z); (670, 670, 1, 42258%Z); (837, 837, 1, 84%Z);
    (881, 883, 2, (-1)%Z); (887, 887, 1, (-1)%Z); (891, 893, 1, 130%Z);
    (940, 940, 1, (-38)%Z); (941, 943, 1, (-37)%Z); (945, 961, 1, (-32)%Z);
    (962, 962, 1, (-31)%Z); (963, 971, 1, (-32)%Z); (972, 972, 1, (-64)%Z);
    (973, 974, 1, (-63)%Z); (976, 976, 1, (-62)%Z); (977, 977, 1, (-57)%Z);
    (981, 981, 1, (-47)%Z); (982, 982, 1, (-54)%Z); (983, 983, 1, (-8)%Z);
    (985, 1007, 2, (-1)%Z); (1008, 1008, 1, (-86)%Z);
    (1009, 1009, 1, (-80)%Z); (1010, 1010, 1, 7%Z); (1011, 1011, 1, (-116)%Z);
    (1013, 1013, 1, (-96)%Z); (1016, 1016, 1, (-1)%Z);
    (1019, 1019, 1, (-1)%Z); (1072, 1103, 1, (-32)%Z);
    (1104, 1119, 1, (-80)%Z); (1121, 1153, 2, (-1)%Z);
    (1163, 1215, 2, (-1)%Z); (1218, 1230, 2, (-1)%Z);
    (1231, 1231, 1, (-15)%Z); (1233, 1327, 2, (-1)%Z);
    (1377, 1414, 1, (-48)%Z); (5112, 5117, 1, (-8)%Z);
    (7296, 7296, 1, (-6254)%Z); (7297, 7297, 1, (-6253)%Z);
    (7298, 7298, 1, (-6244)%Z); (7299, 7300, 1, (-6242)%Z);
    (7301, 7301, 1, (-6243)%Z); (7302, 7302, 1, (-6236)%Z);
    (7303, 7303, 1, (-6181)%Z); (7304, 7304, 1, 35266%Z);
    (7545, 7545, 1, 35332%Z); (7549, 7549, 1, 3814%Z);
    (7566, 7566, 1, 35384%Z); (7681, 7829, 2, (-1)%Z);
    (7835, 7835, 1, (-59)%Z); (7841, 7935, 2, (-1)%Z); (7936, 7943, 1, 8%Z);
    (7952, 7957, 1, 8%Z); (7968, 7975, 1, 8%Z); (7984, 7991, 1, 8%Z);
    (8000, 8005, 1, 8%Z); (8017, 8023, 2, 8%Z); (8032, 8039, 1, 8%Z);
    (8048, 8049, 1, 74%Z); (8050, 8053, 1, 86%Z); (8054, 8055, 1, 100%Z);
    (8056, 8057, 1, 128%Z); (8058, 8059, 1, 112%Z); (8060, 8061, 1, 126%Z);
    (8064, 8071, 1, 8%Z); (8080, 8087, 1, 8%Z); (8096, 8103, 1, 8%Z);
    (8112, 8113, 1, 8%Z); (8115, 8115, 1, 9%Z); (8126, 8126, 1, (-7205)%Z);
    (8131, 8131, 1, 9%Z); (8144, 8145, 1, 8%Z); (8160, 8161, 1, 8%Z);
    (8165, 8165, 1, 7%Z); (8179, 8179, 1, 9%Z); (8526, 8526, 1, (-28)%Z);
    (8560, 8575, 1, (-16)%Z); (8580, 8580, 1, (-1)%Z);
    (9424, 9449, 1, (-26)%Z); (11312, 11359, 1, (-48)%Z);
    (11361, 11361, 1, (-1)%Z); (11365, 11365, 1, (-10795)%Z);
    (11366, 11366, 1, (-10792)%Z); (11368, 11372, 2, (-1)%Z);
    (11379, 11379, 1, (-1)%Z); (11382, 11382, 1, (-1)%Z);
    (11393, 11491, 2, (-1)%Z); (11500, 11502, 2, (-1)%Z);
    (11507, 11507, 1, (-1)%Z); (11520, 11557, 1, (-7264)%Z);
    (11559, 11559, 1, (-7264)%Z); (11565, 11565, 1, (-7264)%Z);
    (42561, 42605, 2, (-1)%Z); (42625, 42651, 2, (-1)%Z);
    (42787, 42799, 2, (-1)%Z); (42803, 42863, 2, (-1)%Z);
    (42874, 42876, 2, (-1)%Z); (42879, 42887, 2, (-1)%Z);
    (42892, 42892, 1, (-1)%Z); (42897, 42899, 2, (-1)%Z);
    (42900, 42900, 1, 48%Z); (42903, 42921, 2, (-1)%Z);
    (42933, 42947, 2, (-1)%Z); (42952, 42954, 2, (-1)%Z);
    (42961, 42961, 1, (-1)%Z); (42967, 42969, 2, (-1)%Z);
    (42998, 42998, 1, (-1)%Z); (43859, 43859, 1, (-928)%Z);
    (43888, 43967, 1, (-38864)%Z); (65345, 65370, 1, (-32)%Z);
    (66600, 66639, 1, (-40)%Z); (66776, 66811, 1, (-40)%Z);
    (66967, 66977, 1, (-39)%Z); (66979, 66993, 1, (-39)%Z);
    (66995, 67001, 1, (-39)%Z); (67003, 67004, 1, (-39)%Z);
    (68800, 68850, 1, (-64)%Z); (71872, 71903, 1, (-32)%Z);
    (93792, 93823, 1, (-32)%Z); (125218, 125251, 1, (-34)%Z)
  ].

(** The title-case mappings to more than one code point. *)
Definition title_specials : list (N * list N) :=
  [
    (223, [83; 115]); (329, [700; 78]); (496, [74; 780]);
    (912, [921; 776; 769]); (944, [933; 776; 769]); (1415, [1333; 1410]);
    (7830, [72; 817]); (7831, [84; 776]); (7832, [87; 778]);
    (7833, [89; 778]); (7834, [65; 702]); (8016, [933; 787]);
    (8018, [933; 787; 768]); (8020, [933; 787; 769]); (8022, [933; 787; 834]);
    (8114, [8122; 837]); (8116, [902; 837]); (8118, [913; 834]);
    (8119, [913; 834; 837]); (8130, [8138; 837]); (8132, [905; 837]);
    (8134, [919; 834]); (8135, [919; 834; 837]); (8146, [921; 776; 768]);
    (8147, [921; 776; 769]); (8150, [921; 834]); (8151, [921; 776; 834]);
    (8162, [933; 776; 768]); (8163, [933; 776; 769]); (8164, [929; 787]);
    (8166, [933; 834]); (8167, [933; 776; 834]); (8178, [8186; 837]);
    (8180, [911; 837]); (8182, [937; 834]); (8183, [937; 834; 837]);
    (64256, [70; 102]); (64257, [70; 105]); (64258, [70; 108]);
    (64259, [70; 102; 105]); (64260, [70; 102; 108]); (64261, [83; 116]);
    (64262, [83; 116]); (64275, [1348; 1398]); (64276, [1348; 1381]);
    (64277, [1348; 1387]); (64278, [1358; 1398]); (64279, [1348; 1389])
  ].

Definition is_alnum (c : char) : bool := in_ranges alnum_ranges c.

(** [\w]: alphanumeric or underscore. *)
Definition is_word (c : char) : bool := is_alnum c || ch_eqb c 95.

(** [\d] *)
Definition is_decimal (c : char) : bool := in_ranges decimal_ranges c.

(** The digit a decimal character stands for. *)
Fixpoint decimal_in (t : list (N * N)) (c : char) : option N :=
  match t with
  | [] => None
  | (lo, hi) :: t' =>
      if c <? lo then None
      else if c <=? hi then Some ((c - lo) mod 10)
      else decimal_in t' c
  end.

Definition decimal_value (c : char) : option N := decimal_in decimal_ranges c.

(** [str.isprintable] *)
Definition is_printable (c : char) : bool := negb (in_ranges unprintable_ranges c).

Definition is_cased (c : char) : bool := in_ranges cased_ranges c.

Definition is_case_ignorable (c : char) : bool := in_ranges case_ignorable_ranges c.

Fixpoint run_lookup (t : list (N * N * N * Z)) (c : char) : option char :=
  match t with
  | [] => None
  | (lo, hi, stride, offset) :: t' =>
      if c <? lo then None
      else if c <=? hi then
        if (c - lo) mod stride =? 0 then Some (Z.to_N (Z.of_N c + offset)) else None
      else run_lookup t' c
  end.

Fixpoint special_lookup (t : list (N * list N)) (c : char) : option (list N) :=
  match t with
  | [] => None
  | (k, s) :: t' =>
      if c <? k then None else if c =? k then Some s else special_lookup t' c
  end.

(** The full lower-case mapping of a code point; U+0130 alone maps to two
    code points. *)
Definition to_lower_full (c : char) : list N :=
  if c =? 304 then [105; 775]
  else match run_lookup lower_runs c with
       | Some x => [x]
       | None => [c]
       end.

(** The full title-case mapping of a code point. *)
Definition to_title_full (c : char) : list N :=
  match special_lookup title_specials c with
  | Some s => s
  | None => match run_lookup title_runs c with
            | Some x => [x]
            | None => [c]
            end
  end.

(** The lower case of an ASCII letter. *)
Definition lower_ch (c : char) : char := if is_upper c then c + 32 else c.

(** Equality of a subject character with a lower-case pattern letter under
    [re.I]. *)
Definition ci_eqb (p c : char) : bool :=
  ch_eqb (lower_ch c) p
  || (ch_eqb p 105 && mem_ch c [304; 305])
  || (ch_eqb p 115 && ch_eqb c 383)
  || (ch_eqb p 107 && ch_eqb c 8490).

(** *** String methods *)

Fixpoint lstrip_by (p : char -> bool) (s : str) : str :=
  match s with
  | c :: t => if p c then lstrip_by p t else s
  | [] => []
  end.

Definition rstrip_by (p : char -> bool) (s : str) : str :=
  rev (lstrip_by p (rev s)).

Definition strip_by (p : char -> bool) (s : str) : str :=
  rstrip_by p (lstrip_by p s).

(** [s.strip()] *)
Definition strip (s : str) : str := strip_by is_space s.

(** [s.strip(chars)] *)
Definition strip_chars (cs : str) (s : str) : str :=
  strip_by (fun c => mem_ch c cs) s.

(** Whether the nearest character that is not case-ignorable is cased. *)
Definition cased_next (s : str) : bool :=
  match lstrip_by is_case_ignorable s with
  | c :: _ => is_cased c
  | [] => false
  end.

(** The lower case of a capital sigma: the final form after a cased
    letter and not before one, case-ignorable characters apart.  [before]
    holds the preceding characters, the nearest first. *)
Definition final_sigma (before after : str) : char :=
  if cased_next before && negb (cased_next after) then 962 else 963.

(** The lower case of a character in its context. *)
Definition lower_at (before : str) (c : char) (after : str) : list N :=
  if c =? 931 then [final_sigma before after] else to_lower_full c.

Fixpoint lower_go (before s : str) : str :=
  match s with
  | [] => []
  | c :: t => lower_at before c t ++ lower_go (c :: before) t
  end.

(** [s.lower()] *)
Definition lower (s : str) : str := lower_go [] s.

(** [s.splitlines()] *)
Fixpoint splitlines_go (cur : str) (s : str) : list str :=
  match s with
  | [] => match cur with [] => [] | _ => [rev cur] end
  | c :: t =>
      if ch_eqb c 13 then
        match t with
        | d :: t' => if ch_eqb d 10 then rev cur :: splitlines_go [] t'
                     else rev cur :: splitlines_go [] t
        | [] => rev cur :: splitlines_go [] t
        end
      else if is_linebreak c then rev cur :: splitlines_go [] t
      else splitlines_go (c :: cur) t
  end.

Definition splitlines (s : str) : list str := splitlines_go [] s.

(** [s.split(sep)] for a one-character separator. *)
Fixpoint split_go (sep : char) (cur : str) (s : str) : list str :=
  match s with
  | [] => [rev cur]
  | c :: t => if ch_eqb c sep then rev cur :: split_go sep [] t
              else split_go sep (c :: cur) t
  end.

Definition split_ch (sep : char) (s : str) : list str := split_go sep [] s.

(** [s.replace(a, b)] for one-character [a] and [b]. *)
Definition replace_ch (a b : char) (s : str) : str :=
  List.map (fun c => if ch_eqb c a then b else c) s.

(** [s.title()]: a character after an uncased one takes its title case,
    a character after a cased one its lower case. *)
Fixpoint title_go (prev_cased : bool) (before s : str) : str :=
  match s with
  | [] => []
  | c :: t => (if prev_cased then lower_at before c t else to_title_full c)
              ++ title_go (is_cased c) (c :: before) t
  end.

Definition title (s : str) : str := title_go false [] s.

(** [s.capitalize()] *)
Definition capitalize (s : str) : str :=
  match s with
  | [] => []
  | c :: t => to_title_full c ++ lower_go [c] t
  end.

(** [sep.join(parts)] *)
Fixpoint join (sep : str) (parts : list str) : str :=
  match parts with
  | [] => []
  | [p] => p
  | p :: rest => p ++ sep ++ join sep rest
  end.

(** [a in s] for a one-character [a]. *)
Definition contains_ch (a : char) (s : str) : bool := mem_ch a s.

(** ** Regular expressions

    A backtracking matcher with the priorities of Python's [re]: the first
    alternative, the longest greedy and the shortest lazy repetition are
    tried first.  Every repetition in [app.py] is over a one-character
    class, so [Star] and [Lazy] take a character predicate. *)

Inductive re :=
| Eps
| Cls (p : char -> bool)
| Seq (a b : re)
| Alt (a b : re)
| Star (p : char -> bool)
| Lazy (p : char -> bool)
| Grp (n : nat) (a : re)
| Bol
| Eos
| Wb
| NotBehind (p : char -> bool).

Definition caps := list (nat * str).

(** A matcher state: the text before the position (reversed), the text
    after it, and the groups captured so far. *)
Definition mstate := (str * str * caps)%type.

Definition kont := str -> str -> caps -> option mstate.

Definition ret : kont := fun prev rest cs => Some (prev, rest, cs).

Fixpoint star_greedy (p : char -> bool) (prev rest : str) (cs : caps)
  (k : kont) : option mstate :=
  match rest with
  | c :: t =>
      if p c then
        match star_greedy p (c :: prev) t cs k with
        | Some m => Some m
        | None => k prev rest cs
        end
      else k prev rest cs
  | [] => k prev rest cs
  end.

Fixpoint star_lazy (p : char -> bool) (prev rest : str) (cs : caps)
  (k : kont) : option mstate :=
  match k prev rest cs with
  | Some m => Some m
  | None =>
      match rest with
      | c :: t => if p c then star_lazy p (c :: prev) t cs k else None
      | [] => None
      end
  end.

Definition at_word (s : str) : bool :=
  match s with c :: _ => is_word c | [] => false end.

Fixpoint set_cap (n : nat) (v : str) (cs : caps) : caps :=
  match cs with
  | [] => [(n, v)]
  | (m, w) :: t => if Nat.eqb m n then (n, v) :: t else (m, w) :: set_cap n v t
  end.

Fixpoint get_cap (n : nat) (cs : caps) : option str :=
  match cs with
  | [] => None
  | (m, w) :: t => if Nat.eqb m n then Some w else get_cap n t
  end.

Fixpoint rmatch (r : re) (prev rest : str) (cs : caps) (k : kont)
  : option mstate :=
  match r with
  | Eps => k prev rest cs
  | Cls p =>
      match rest with
      | c :: t => if p c then k (c :: prev) t cs else None
      | [] => None
      end
  | Seq a b => rmatch a prev rest cs (fun p' r' c' => rmatch b p' r' c' k)
  | Alt a b =>
      match rmatch a prev rest cs k with
      | Some m => Some m
      | None => rmatch b prev rest cs k
      end
  | Star p => star_greedy p prev rest cs k
  | Lazy p => star_lazy p prev rest cs k
  | Grp n a =>
      rmatch a prev rest cs
        (fun p' r' c' =>
           k p' r' (set_cap n (rev (firstn (length p' - length prev) p')) c'))
  | Bol => match prev with [] => k prev rest cs | _ => None end
  | Eos => match rest with [] => k prev rest cs | _ => None end
  | Wb => if xorb (at_word prev) (at_word rest) then k prev rest cs else None
  | NotBehind p =>
      match prev with
      | c :: _ => if p c then None else k prev rest cs
      | [] => k prev rest cs
      end
  end.

(** Pattern-building shorthands. *)
Definition Plus (p : char -> bool) : re := Seq (Cls p) (Star p).
Definition Opt (a : re) : re := Alt a Eps.
Definition Chr (c : char) : re := Cls (ch_eqb c).
Definition any_ch : char -> bool := fun _ => true.

Fixpoint seqs (rs : list re) : re :=
  match rs with
  | [] => Eps
  | [r] => r
  | r :: t => Seq r (seqs t)
  end.

Fixpoint alts (rs : list re) : re :=
  match rs with
  | [] => Cls (fun _ => false)
  | [r] => r
  | r :: t => Alt r (alts t)
  end.

(** A literal, and a lower-case literal under [re.I]. *)
Definition Lit (s : string) : re := seqs (List.map Chr (u s)).
Definition LitI (s : string) : re := seqs (List.map (fun c => Cls (ci_eqb c)) (u s)).

(** A match found by [re.search]: the reversed text before it, the matched
    text, the text after it and the groups. *)
Record rmatch_result := {
  m_before : str;
  m_text : str;
  m_after : str;
  m_caps : caps
}.

Definition match_here (r : re) (prev rest : str) : option rmatch_result :=
  match rmatch r prev rest [] ret with
  | Some (prev', rest', cs) =>
      Some {| m_before := prev;
              m_text := firstn (length rest - length rest') rest;
              m_after := rest';
              m_caps := cs |}
  | None => None
  end.

(** [re.search]: the leftmost position at which the pattern matches. *)
Fixpoint search_go (r : re) (prev rest : str) : option rmatch_result :=
  match match_here r prev rest with
  | Some m => Some m
  | None =>
      match rest with
      | c :: t => search_go r (c :: prev) t
      | [] => None
      end
  end.

Definition re_search (r : re) (s : str) : option rmatch_result :=
  search_go r [] s.

(** [re.match]: at the start of the string only. *)
Definition re_match (r : re) (s : str) : option rmatch_result :=
  match_here r [] s.

(** [m.group(n)] of a group that took part in the match. *)
Definition group (n : nat) (m : rmatch_result) : str :=
  match get_cap n (m_caps m) with Some s => s | None => [] end.

(** [re.sub]: left to right, non-overlapping.  [skip] counts the characters
    of the current match still to be dropped.  No pattern that [app.py]
    substitutes can match the empty string; such a match would insert the
    replacement and copy one character. *)
Fixpoint sub_go (r : re) (repl : rmatch_result -> str) (skip : nat)
  (prev rest : str) : str :=
  match skip with
  | S n =>
      match rest with
      | c :: t => sub_go r repl n (c :: prev) t
      | [] => []
      end
  | O =>
      match match_here r prev rest with
      | Some m =>
          repl m ++
          match rest with
          | c :: t =>
              match length (m_text m) with
              | O => c :: sub_go r repl 0 (c :: prev) t
              | S n => sub_go r repl n (c :: prev) t
              end
          | [] => []
          end
      | None =>
          match rest with
          | c :: t => c :: sub_go r repl 0 (c :: prev) t
          | [] => []
          end
      end
  end.

Definition re_sub (r : re) (repl : rmatch_result -> str) (s : str) : str :=
  sub_go r repl 0 [] s.

Definition re_sub_const (r : re) (repl : str) (s : str) : str :=
  re_sub r (fun _ => repl) s.

(** ** The text sanitiser *)

(** [_JSON_SIGNS]: one of the braces, the brackets and the backtick, or a
    double quote (code point 34). *)
Definition is_json_sign_class (c : char) : bool := mem_ch c [123; 125; 91; 93; 96].
Definition _JSON_SIGNS : re := Alt (Cls is_json_sign_class) (Chr 34).

(** [\b(title|step|steps|ingredient|ingredients|description|servings|time_minutes)\s*:\s*]
    with [re.I]. *)
Definition LABEL_RE : re :=
  seqs [Wb;
        Grp 1 (alts [LitI "title"; LitI "step"; LitI "steps"; LitI "ingredient";
                     LitI "ingredients"; LitI "description"; LitI "servings";
                     LitI "time_minutes"]);
        Star is_space; Chr 58; Star is_space].

(** [^\s*([0-9]+[\.)]|[-*•])\s*] *)
Definition MARKER_RE : re :=
  seqs [Bol; Star is_space;
        Grp 1 (Alt (Seq (Plus is_digit) (Cls (fun c => mem_ch c [46; 41])))
                   (Cls (fun c => mem_ch c [45; 42; 8226])));
        Star is_space].

(** [\s+] *)
Definition WS_RE : re := Plus is_space.

(** [\s*,\s*] *)
Definition COMMA_RE : re := seqs [Star is_space; Chr 44; Star is_space].

Definition _clean_text (s : str) : str :=
  let s := strip s in
  let s := re_sub_const _JSON_SIGNS [] s in
  let s := re_sub_const LABEL_RE [] s in
  let s := re_sub_const MARKER_RE [] s in
  let s := re_sub_const WS_RE (u " ") s in
  let s := re_sub_const COMMA_RE (u ", ") s in
  strip s.

(** ** Python values

    The values [json.loads] produces.  A finite [float] is the binary64
    value [mant * 2^exp2], negated when [neg]; the mantissa is odd, or zero
    with exponent zero. *)

Inductive pyfloat :=
| FFin (neg : bool) (mant : N) (exp2 : Z)
| FNaN
| FInf (neg : bool).

#[warnings="-register-all"]
Inductive pyval :=
| PNone
| PBool (b : bool)
| PInt (z : Z)
| PFloat (f : pyfloat)
| PStr (s : str)
| PList (l : list pyval)
| PDict (d : list (pyval * pyval)).

Definition dict := list (pyval * pyval).

(** [bool(v)] *)
Definition truthy (v : pyval) : bool :=
  match v with
  | PNone => false
  | PBool b => b
  | PInt z => negb (Z.eqb z 0)
  | PFloat (FFin _ m _) => negb (N.eqb m 0)
  | PFloat _ => true
  | PStr s => match s with [] => false | _ => true end
  | PList l => match l with [] => false | _ => true end
  | PDict d => match d with [] => false | _ => true end
  end.

(** [a or b] *)
Definition py_or (a b : pyval) : pyval := if truthy a then a else b.

(** *** Numbers as text *)

Definition N_to_str (n : N) : str :=
  u (DecimalString.NilEmpty.string_of_uint (N.to_uint n)).

(** [str(z)].  CPython refuses to write an integer of more than 4300
    digits.  The decoder returns no such integer ([scan_number]) and
    [int] of a float has at most 309 digits, so no call of the program
    meets the refusal; the function is total, and what is stated about
    raising is stated of values without such integers ([small_ints]). *)
Definition Z_to_str (z : Z) : str :=
  match z with
  | Zneg p => 45 :: N_to_str (Npos p)
  | _ => N_to_str (Z.to_N z)
  end.

(** *** Reading a decimal as a [float] *)

Fixpoint odd_part (p : positive) (e : Z) : positive * Z :=
  match p with
  | xO q => odd_part q (e + 1)%Z
  | _ => (p, e)
  end.

(** The finite value [m * 2^e] in its unique form. *)
Definition finite (neg : bool) (m : N) (e : Z) : pyfloat :=
  match m with
  | N0 => FFin neg 0 0
  | Npos p => let '(q, e') := odd_part p e in FFin neg (Npos q) e'
  end.

(** [num / den] divided by [2^e], as a fraction. *)
Definition scale2 (num den e : Z) : Z * Z :=
  if (0 <=? e)%Z then (num, den * 2 ^ e)%Z else (num * 2 ^ (- e), den)%Z.

(** The binary64 value nearest to [num / den], for positive [num] and
    [den]: the quotient by the power of two that leaves 53 bits (fewer
    below the normal range), rounded to even on a tie; infinity from
    [2^1024] on. *)
Definition round_ratio (neg : bool) (num den : Z) : pyfloat :=
  let l := (Z.log2 num - Z.log2 den)%Z in
  let e0 := Z.max (l - 53) (-1074) in
  let '(n0, d0) := scale2 num den e0 in
  let e1 := if (2 ^ 53 <=? n0 / d0)%Z then (e0 + 1)%Z else e0 in
  let '(n1, d1) := scale2 num den e1 in
  let q := (n1 / d1)%Z in
  let r := (n1 mod d1)%Z in
  let q' := if ((d1 <? 2 * r) || ((d1 =? 2 * r) && Z.odd q))%Z then (q + 1)%Z else q in
  if ((971 <? e1) || ((q' =? 2 ^ 53) && (e1 =? 971)))%Z then FInf neg
  else finite neg (Z.to_N q') e1.

(** [float] of the decimal [m * 10^e].  Where the exponent alone decides
    (from [10^311] on, or below [10^-330]) the powers are not computed. *)
Definition float_of_decimal (neg : bool) (m : N) (e : Z) : pyfloat :=
  if m =? 0 then FFin neg 0 0
  else if (310 <? e)%Z then FInf neg
  else if (e + Z.log2 (Z.of_N m) / 3 + 1 <? -330)%Z then FFin neg 0 0
  else if (0 <=? e)%Z then round_ratio neg (Z.of_N m * 10 ^ e) 1
  else round_ratio neg (Z.of_N m) (10 ^ (- e)).

Definition float_eqb (a b : pyfloat) : bool :=
  match a, b with
  | FFin n1 m1 e1, FFin n2 m2 e2 => Bool.eqb n1 n2 && (m1 =? m2) && (e1 =? e2)%Z
  | FNaN, FNaN => true
  | FInf n1, FInf n2 => Bool.eqb n1 n2
  | _, _ => false
  end.

(** *** Writing a [float] *)

(** [num / den] divided by [10^t], as a fraction. *)
Definition scale10 (num den t : Z) : Z * Z :=
  if (0 <=? t)%Z then (num, den * 10 ^ t)%Z else (num * 10 ^ (- t), den)%Z.

Definition below_pow10 (num den k : Z) : bool :=
  let '(a, b) := scale10 num den k in (a <? b)%Z.

(** The [k] with [10^(k-1) <= num / den < 10^k], from an estimate. *)
Fixpoint decimal_point (fuel : nat) (num den k : Z) : Z :=
  match fuel with
  | O => k
  | S f =>
      if below_pow10 num den (k - 1) then decimal_point f num den (k - 1)
      else if below_pow10 num den k then k
      else decimal_point f num den (k + 1)
  end.

(** The shortest digits that read as [x = num / den]: with [n] digits the
    decimal below and the one above are tried; of two that read as [x] the
    nearer is taken, the even one on a tie.  Seventeen digits always do. *)
Fixpoint shortest (fuel : nat) (n : Z) (x : pyfloat) (num den k : Z) : N * Z :=
  let t := (k - n)%Z in
  let '(a, b) := scale10 num den t in
  let lo := (a / b)%Z in
  let r := (a mod b)%Z in
  let nearest := if ((b <? 2 * r) || ((b =? 2 * r) && Z.odd lo))%Z then (lo + 1)%Z else lo in
  match fuel with
  | O => (Z.to_N nearest, t)
  | S f =>
      if (r =? 0)%Z then (Z.to_N lo, t) else
      let lo_ok := float_eqb (float_of_decimal false (Z.to_N lo) t) x in
      let hi_ok := float_eqb (float_of_decimal false (Z.to_N (lo + 1)) t) x in
      if lo_ok && hi_ok then (Z.to_N nearest, t)
      else if lo_ok then (Z.to_N lo, t)
      else if hi_ok then (Z.to_N (lo + 1), t)
      else shortest f (n + 1) x num den k
  end.

(** The digits and the decimal exponent [repr] writes for [m * 2^e]. *)
Definition float_digits (m : N) (e : Z) : N * Z :=
  let '(num, den) := scale2 (Z.of_N m) 1 (- e) in
  let l := (Z.log2 num - Z.log2 den)%Z in
  let k := decimal_point 4 num den (l * 30103 / 100000 + 1) in
  shortest 17 1 (FFin false m e) num den k.

Fixpoint drop_trailing_zeros (fuel : nat) (m : N) (e : Z) : N * Z :=
  match fuel with
  | O => (m, e)
  | S f => if (negb (m =? 0)) && (m mod 10 =? 0)
           then drop_trailing_zeros f (m / 10) (e + 1)%Z
           else (m, e)
  end.

Definition zeros (n : nat) : str := repeat 48 n.

(** [repr] of a float: fixed notation when the decimal point falls within
    [-4 < decpt <= 16], exponent notation otherwise. *)
Definition float_to_str (f : pyfloat) : str :=
  match f with
  | FNaN => u "nan"
  | FInf neg => if neg then u "-inf" else u "inf"
  | FFin neg m e =>
      let sign := if neg then [45] else [] in
      if m =? 0 then sign ++ u "0.0" else
      let '(m0, e0) := float_digits m e in
      let '(m', e') := drop_trailing_zeros (length (N_to_str m0)) m0 e0 in
      let ds := N_to_str m' in
      let n := Z.of_nat (length ds) in
      let decpt := (n + e')%Z in
      sign ++
      if ((decpt <=? -4) || (16 <? decpt))%Z then
        let x := (decpt - 1)%Z in
        let xs := N_to_str (Z.abs_N x) in
        firstn 1 ds
        ++ (match skipn 1 ds with [] => [] | fr => 46 :: fr end)
        ++ [101] ++ (if (x <? 0)%Z then [45] else [43])
        ++ (match xs with [_] => 48 :: xs | _ => xs end)
      else if (decpt <=? 0)%Z then
        u "0." ++ zeros (Z.to_nat (- decpt)) ++ ds
      else if (n <=? decpt)%Z then
        ds ++ zeros (Z.to_nat (decpt - n)) ++ u ".0"
      else
        firstn (Z.to_nat decpt) ds ++ [46] ++ skipn (Z.to_nat decpt) ds
  end.

(** [int(f)]: truncation toward zero; raises for nan and the infinities. *)
Definition float_to_int (f : pyfloat) : option Z :=
  match f with
  | FFin neg m e =>
      let a := if (0 <=? e)%Z then (Z.of_N m * 2 ^ e)%Z
               else (Z.of_N m / 2 ^ (- e))%Z in
      Some (if neg then (- a)%Z else a)
  | _ => None
  end.

(** *** [repr] and [str] *)

Definition hex_digit (n : N) : char := if n <? 10 then 48 + n else 87 + n.

Fixpoint hex_fixed (width : nat) (n : N) : str :=
  match width with
  | O => []
  | S w => hex_fixed w (n / 16) ++ [hex_digit (n mod 16)]
  end.

Definition repr_char (quote : char) (c : char) : str :=
  if (c =? quote) || (c =? 92) then [92; c]
  else if c =? 9 then u "\t"
  else if c =? 10 then u "\n"
  else if c =? 13 then u "\r"
  else if is_printable c then [c]
  else if c <? 256 then u "\x" ++ hex_fixed 2 c
  else if c <? 65536 then u "\u" ++ hex_fixed 4 c
  else u "\U" ++ hex_fixed 8 c.

(** [repr(s)]: single quotes unless the text has a single quote and no
    double quote. *)
Definition repr_str (s : str) : str :=
  let quote := if mem_ch 39 s && negb (mem_ch 34 s) then 34 else 39 in
  [quote] ++ flat_map (repr_char quote) s ++ [quote].

Fixpoint py_repr (v : pyval) : str :=
  match v with
  | PNone => u "None"
  | PBool b => if b then u "True" else u "False"
  | PInt z => Z_to_str z
  | PFloat f => float_to_str f
  | PStr s => repr_str s
  | PList l => u "[" ++ join (u ", ") (List.map py_repr l) ++ u "]"
  | PDict d =>
      u "{"
      ++ join (u ", ")
           (List.map (fun kv => py_repr (fst kv) ++ u ": " ++ py_repr (snd kv)) d)
      ++ u "}"
  end.

(** [str(v)] *)
Definition py_str (v : pyval) : str :=
  match v with
  | PStr s => s
  | _ => py_repr v
  end.

(** *** Dictionaries

    Insertion-ordered; assigning to a key that is present keeps its place
    and the key object first stored. *)

Definition as_number (v : pyval) : option (Z * Z) :=
  match v with
  | PBool b => Some (if b then 1%Z else 0%Z, 0%Z)
  | PInt z => Some (z, 0%Z)
  | PFloat (FFin neg m e) => Some (if neg then (- Z.of_N m)%Z else Z.of_N m, e)
  | _ => None
  end.

(** Key equality, as [dict] lookup sees it: numbers by value, the [nan]
    and infinity constants by identity. *)
Definition key_eqb (a b : pyval) : bool :=
  match a, b with
  | PNone, PNone => true
  | PStr s, PStr t => str_eqb s t
  | PFloat FNaN, PFloat FNaN => true
  | PFloat (FInf x), PFloat (FInf y) => Bool.eqb x y
  | _, _ =>
      match as_number a, as_number b with
      | Some (m1, e1), Some (m2, e2) =>
          let e := Z.min e1 e2 in
          (m1 * 2 ^ (e1 - e) =? m2 * 2 ^ (e2 - e))%Z
      | _, _ => false
      end
  end.

Fixpoint dict_lookup (k : pyval) (d : dict) : option pyval :=
  match d with
  | [] => None
  | (k', v) :: t => if key_eqb k' k then Some v else dict_lookup k t
  end.

(** [d.get(k)] *)
Definition dict_get (k : pyval) (d : dict) : pyval :=
  match dict_lookup k d with Some v => v | None => PNone end.

(** [d[k] = v] *)
Fixpoint dict_set (k v : pyval) (d : dict) : dict :=
  match d with
  | [] => [(k, v)]
  | (k', v') :: t =>
      if key_eqb k' k then (k', v) :: t else (k', v') :: dict_set k v t
  end.

Definition hashable (v : pyval) : bool :=
  match v with
  | PList _ | PDict _ => false
  | _ => true
  end.

(** The items an iteration over [v] yields, when [v] is iterable. *)
Definition py_iter (v : pyval) : option (list pyval) :=
  match v with
  | PStr s => Some (List.map (fun c => PStr [c]) s)
  | PList l => Some l
  | PDict d => Some (List.map fst d)
  | _ => None
  end.

(** [dict(l)] for a list: every element must yield exactly two items, the
    first of them hashable. *)
Fixpoint dict_of_items (acc : dict) (l : list pyval) : option dict :=
  match l with
  | [] => Some acc
  | x :: t =>
      match py_iter x with
      | Some [k; v] => if hashable k then dict_of_items (dict_set k v acc) t
                       else None
      | _ => None
      end
  end.

(** [dict(v)] *)
Definition py_dict (v : pyval) : option dict :=
  match v with
  | PDict d => Some d
  | PList l => dict_of_items [] l
  | PStr s => dict_of_items [] (List.map (fun c => PStr [c]) s)
  | _ => None
  end.

(** ** [json.loads]

    A recursive-descent reading of the standard decoder: strict strings,
    the [NaN] and [Infinity] constants, last duplicate key wins, nothing but
    whitespace after the value.  [None] stands for the raised decode error.
    The fuel of [scan_once] bounds the nesting depth, and the fuel of the
    item loops the number of items; both are bounded by the length of the
    text, which is what [json_loads] supplies.  (CPython also gives up, with
    a [RecursionError] that the callers catch like any decode error, when
    the nesting exceeds its recursion limit; that limit is not modelled.) *)

Definition is_json_ws (c : char) : bool := mem_ch c [32; 9; 10; 13].

Definition skip_ws (s : str) : str := lstrip_by is_json_ws s.

Fixpoint span_digits (acc : str) (s : str) : str * str :=
  match s with
  | c :: t => if is_digit c then span_digits (c :: acc) t else (rev acc, s)
  | [] => (rev acc, [])
  end.

Definition digits_to_N (ds : str) : N :=
  fold_left (fun acc c => acc * 10 + (c - 48)) ds 0.

(** [sys.get_int_max_str_digits()] *)
Definition int_max_str_digits : nat := 4300.

Definition hex_val (c : char) : option N :=
  if is_digit c then Some (c - 48)
  else if in_range 97 102 c then Some (c - 87)
  else if in_range 65 70 c then Some (c - 55)
  else None.

Definition hex4 (a b c d : char) : option N :=
  match hex_val a, hex_val b, hex_val c, hex_val d with
  | Some x, Some y, Some z, Some w => Some (((x * 16 + y) * 16 + z) * 16 + w)
  | _, _, _, _ => None
  end.

Definition simple_escape (c : char) : option char :=
  if c =? 34 then Some 34          (* quote *)
  else if c =? 92 then Some 92     (* backslash *)
  else if c =? 47 then Some 47     (* slash *)
  else if c =? 98 then Some 8      (* b *)
  else if c =? 102 then Some 12    (* f *)
  else if c =? 110 then Some 10    (* n *)
  else if c =? 114 then Some 13    (* r *)
  else if c =? 116 then Some 9     (* t *)
  else None.

(** The low surrogate escape, if any, that directly follows a high one. *)
Definition low_surrogate (s : str) : option (N * str) :=
  match s with
  | 92 :: 117 :: a :: b :: c :: d :: t =>
      match hex4 a b c d with
      | Some lo => if in_range 56320 57343 lo then Some (lo, t) else None
      | None => None
      end
  | _ => None
  end.

(** The body of a string literal, after its opening quote. *)
Fixpoint scanstring (n : nat) (acc : str) (s : str) : option (str * str) :=
  match n with
  | O => None
  | S n' =>
      match s with
      | [] => None
      | c :: t =>
          if c =? 34 then Some (rev acc, t)
          else if c =? 92 then
            match t with
            | [] => None
            | e :: t' =>
                if e =? 117 then
                  match t' with
                  | a :: b :: c' :: d :: t'' =>
                      match hex4 a b c' d with
                      | None => None
                      | Some hi =>
                          if in_range 55296 56319 hi then
                            match low_surrogate t'' with
                            | Some (lo, t3) =>
                                scanstring n'
                                  (65536 + (hi - 55296) * 1024 + (lo - 56320) :: acc) t3
                            | None => scanstring n' (hi :: acc) t''
                            end
                          else scanstring n' (hi :: acc) t''
                      end
                  | _ => None
                  end
                else
                  match simple_escape e with
                  | Some x => scanstring n' (x :: acc) t'
                  | None => None
                  end
            end
          else if c <? 32 then None
          else scanstring n' (c :: acc) t
      end
  end.

(** A number: an optional minus sign, then [0] or a digit string without
    a leading zero, then optionally a point with digits, then optionally an
    exponent ([e] or [E], an optional sign, digits).  It is an [int] when
    it has neither fraction nor exponent. *)
Definition scan_number (s : str) : option (pyval * str) :=
  let '(neg, s1) := match s with
                    | 45 :: t => (true, t)
                    | _ => (false, s)
                    end in
  let int_part :=
    match s1 with
    | c :: t => if c =? 48 then Some ([48], t)
                else if is_digit c then Some (span_digits [] s1)
                else None
    | [] => None
    end in
  match int_part with
  | None => None
  | Some (ip, s2) =>
      let '(fp, s3) :=
        match s2 with
        | 46 :: c :: _ => if is_digit c then span_digits [] (tl s2) else ([], s2)
        | _ => ([], s2)
        end in
      let exp_part :=
        match s3 with
        | e :: t =>
            if (e =? 101) || (e =? 69) then
              let '(eneg, t1) := match t with
                                 | 45 :: t' => (true, t')
                                 | 43 :: t' => (false, t')
                                 | _ => (false, t)
                                 end in
              match t1 with
              | c :: _ => if is_digit c
                          then let '(ds, r) := span_digits [] t1 in
                               Some (eneg, ds, r)
                          else None
              | [] => None
              end
            else None
        | [] => None
        end in
      match fp, exp_part with
      | [], None =>
          if Nat.ltb int_max_str_digits (length ip) then None
          else let z := Z.of_N (digits_to_N ip) in
               Some (PInt (if neg then (- z)%Z else z), s3)
      | _, _ =>
          let '(x, rest) :=
            match exp_part with
            | Some (eneg, ds, r) =>
                let e := Z.of_N (digits_to_N ds) in
                ((if eneg then (- e)%Z else e), r)
            | None => (0%Z, s3)
            end in
          Some (PFloat (float_of_decimal neg (digits_to_N (ip ++ fp))
                          (x - Z.of_nat (length fp))%Z), rest)
      end
  end.

Fixpoint strip_prefix (p s : str) : option str :=
  match p, s with
  | [], _ => Some s
  | a :: p', b :: s' => if ch_eqb a b then strip_prefix p' s' else None
  | _ :: _, [] => None
  end.

Definition scanner := str -> option (pyval * str).

(** The items of an array after the first non-blank character, which is
    not the closing bracket. *)
Fixpoint array_items (scan : scanner) (n : nat) (acc : list pyval) (s : str)
  : option (list pyval * str) :=
  match n with
  | O => None
  | S n' =>
      match scan s with
      | None => None
      | Some (v, r) =>
          match skip_ws r with
          | c :: r' =>
              if c =? 93 then Some (rev (v :: acc), r')
              else if c =? 44 then array_items scan n' (v :: acc) (skip_ws r')
              else None
          | [] => None
          end
      end
  end.

(** The members of an object, from the opening quote of a key. *)
Fixpoint object_items (scan : scanner) (n : nat) (acc : dict) (s : str)
  : option (dict * str) :=
  match n with
  | O => None
  | S n' =>
      match s with
      | 34 :: t =>
          match scanstring (S (length t)) [] t with
          | None => None
          | Some (key, r) =>
              match skip_ws r with
              | 58 :: r1 =>
                  match scan (skip_ws r1) with
                  | None => None
                  | Some (v, r2) =>
                      let acc' := dict_set (PStr key) v acc in
                      match skip_ws r2 with
                      | c :: r3 =>
                          if c =? 125 then Some (acc', r3)
                          else if c =? 44 then object_items scan n' acc' (skip_ws r3)
                          else None
                      | [] => None
                      end
                  end
              | _ => None
              end
          end
      | _ => None
      end
  end.

Definition scan_object (scan : scanner) (t : str) : option (dict * str) :=
  match skip_ws t with
  | c :: t' => if c =? 125 then Some ([], t')
               else object_items scan (length t) [] (c :: t')
  | [] => None
  end.

Definition scan_array (scan : scanner) (t : str) : option (list pyval * str) :=
  match skip_ws t with
  | c :: t' => if c =? 93 then Some ([], t')
               else array_items scan (length t) [] (c :: t')
  | [] => None
  end.

Definition scan_constant (lit : string) (v : pyval) (s : str)
  : option (pyval * str) :=
  match strip_prefix (u lit) s with
  | Some r => Some (v, r)
  | None => None
  end.

Fixpoint scan_once (fuel : nat) (s : str) : option (pyval * str) :=
  match fuel with
  | O => None
  | S f =>
      match s with
      | [] => None
      | c :: t =>
          if c =? 34 then
            match scanstring (S (length t)) [] t with
            | Some (x, r) => Some (PStr x, r)
            | None => None
            end
          else if c =? 123 then
            match scan_object (scan_once f) t with
            | Some (d, r) => Some (PDict d, r)
            | None => None
            end
          else if c =? 91 then
            match scan_array (scan_once f) t with
            | Some (l, r) => Some (PList l, r)
            | None => None
            end
          else if c =? 110 then scan_constant "null" PNone s
          else if c =? 116 then scan_constant "true" (PBool true) s
          else if c =? 102 then scan_constant "false" (PBool false) s
          else if c =? 78 then scan_constant "NaN" (PFloat FNaN) s
          else if c =? 73 then scan_constant "Infinity" (PFloat (FInf false)) s
          else
            match scan_constant "-Infinity" (PFloat (FInf true)) s with
            | Some x => Some x
            | None => scan_number s
            end
      end
  end.

(** [json.loads(s)] *)
Definition json_loads (s : str) : option pyval :=
  match scan_once (S (length s)) (skip_ws s) with
  | Some (v, r) => match skip_ws r with [] => Some v | _ => None end
  | None => None
  end.

(** ** Parsing and repair *)

Definition backticks : re := Lit "```".

Definition braced : re := Grp 1 (seqs [Chr 123; Lazy any_ch; Chr 125]).

(** The fenced block tagged [json] (with [re.S | re.I]): three backticks,
    [json], blanks, a group holding the shortest brace-to-brace text,
    blanks, three backticks. *)
Definition FENCED_JSON_RE : re :=
  seqs [backticks; LitI "json"; Star is_space; braced; Star is_space; backticks].

(** The same without the tag. *)
Definition FENCED_RE : re :=
  seqs [backticks; Star is_space; braced; Star is_space; backticks].

(** [json.loads(m.group(1))] under [try], when the search found [m]. *)
Definition loads_group (m : option rmatch_result) : option pyval :=
  match m with
  | Some m => json_loads (group 1 m)
  | None => None
  end.

(** [for e in range(len(text), s, -1)]: the chunks from one brace, longest
    first; [n] is the length of the chunk to try. *)
Fixpoint try_chunks (n : nat) (from_brace : str) : option pyval :=
  match n with
  | O => None
  | S n' =>
      match json_loads (firstn n from_brace) with
      | Some v => Some v
      | None => try_chunks n' from_brace
      end
  end.

(** [for s in starts]: every opening brace, left to right. *)
Fixpoint scan_braces (text : str) : option pyval :=
  match text with
  | [] => None
  | c :: t =>
      if c =? 123 then
        match try_chunks (length text) text with
        | Some v => Some v
        | None => scan_braces t
        end
      else scan_braces t
  end.

(** The four attempts of [extract_json_block], each [None] when it is not
    applicable or its parse raised. *)
Definition attempt_fenced_json (text : str) : option pyval :=
  loads_group (re_search FENCED_JSON_RE text).
Definition attempt_fenced (text : str) : option pyval :=
  loads_group (re_search FENCED_RE text).
Definition attempt_scan (text : str) : option pyval := scan_braces text.
Definition attempt_direct (text : str) : option pyval := json_loads text.

Definition extract_json_block (text : str) : pyval :=
  match text with
  | [] => PNone
  | _ =>
      match attempt_fenced_json text with
      | Some v => v
      | None =>
          match attempt_fenced text with
          | Some v => v
          | None =>
              match attempt_scan text with
              | Some v => v
              | None =>
                  match attempt_direct text with
                  | Some v => v
                  | None => PNone
                  end
              end
          end
      end
  end.

(** [s.replace(a, b)] for a non-empty [a]. *)
Fixpoint replace_go (a b : str) (skip : nat) (s : str) : str :=
  match skip with
  | S n => match s with _ :: t => replace_go a b n t | [] => [] end
  | O =>
      match s with
      | [] => []
      | c :: t =>
          match strip_prefix a s with
          | Some _ => b ++ replace_go a b (length a - 1) t
          | None => c :: replace_go a b 0 t
          end
      end
  end.

Definition replace_str (a b : str) (s : str) : str := replace_go a b 0 s.

Fixpoint find_ch (c : char) (s : str) : nat :=
  match s with
  | [] => 0
  | x :: t => if ch_eqb x c then 0 else S (find_ch c t)
  end.

(** [t[t.find(a) : t.rfind(b) + 1]] when both characters occur. *)
Definition between (a b : char) (t : str) : str :=
  let i := find_ch a t in
  let j := (length t - 1 - find_ch b (rev t))%nat in
  firstn (j + 1 - i) (skipn i t).

(** Three backticks, the shortest text, three backticks (with [re.S]). *)
Definition FENCE_PAIR_RE : re := seqs [backticks; Lazy any_ch; backticks].

(** A single quote not preceded by a backslash. *)
Definition SQUOTE_RE : re := Seq (NotBehind (ch_eqb 92)) (Chr 39).

Definition is_ident_start (c : char) : bool := is_alpha c || ch_eqb c 95.
Definition is_ident_char (c : char) : bool := is_ident_start c || is_digit c.

(** A bare identifier between word boundaries (group 1), blanks, a colon. *)
Definition BARE_KEY_RE : re :=
  seqs [Grp 1 (seqs [Wb; Cls is_ident_start; Star is_ident_char; Wb]);
        Star is_space; Chr 58].

(** A comma, blanks, then a closing brace or bracket (group 1). *)
Definition TRAILING_COMMA_RE : re :=
  seqs [Chr 44; Star is_space; Grp 1 (Cls (fun c => mem_ch c [125; 93]))].

Definition repair_json_like (text : str) : pyval :=
  match text with
  | [] => PNone
  | _ =>
      let t := re_sub FENCE_PAIR_RE
                 (fun m => replace_str (u "```") [] (m_text m)) text in
      let t := if contains_ch 123 t && contains_ch 125 t
               then between 123 125 t else t in
      let t := re_sub_const SQUOTE_RE [34] t in
      let t := re_sub BARE_KEY_RE (fun m => [34] ++ group 1 m ++ [34; 58]) t in
      let t := re_sub TRAILING_COMMA_RE (fun m => group 1 m) t in
      match json_loads t with
      | Some v => v
      | None => PNone
      end
  end.

(** ** Prose extraction *)

Definition opt_s : re := Opt (Cls (ci_eqb 115)).

Definition STEP_LABEL : re :=
  alts [Seq (LitI "step") opt_s; LitI "method"; Seq (LitI "direction") opt_s].

Definition colon_or_nl (c : char) : bool := mem_ch c [58; 10].

(** The ingredient section (with [re.I | re.S]): the label [ingredient]
    or [ingredients] (group 1), blanks, one or more colons or newlines, the
    shortest text (group 2) that is followed either by a newline, blanks,
    a step label (group 3), blanks and a colon, or by the end of the
    text. *)
Definition ING_SECTION_RE : re :=
  seqs [Grp 1 (Seq (LitI "ingredient") opt_s);
        Star is_space; Plus colon_or_nl;
        Grp 2 (Lazy any_ch);
        Alt (seqs [Chr 10; Star is_space; Grp 3 STEP_LABEL; Star is_space; Chr 58])
            Eos].

(** The step section (with [re.I | re.S]): a step label (group 1), blanks,
    one or more colons or newlines, the rest of the text (group 2). *)
Definition STEPS_SECTION_RE : re :=
  seqs [Grp 1 STEP_LABEL; Star is_space; Plus colon_or_nl; Grp 2 (Star any_ch)].

(** [\s*[-*]\s+] *)
Definition BULLET_RE : re :=
  seqs [Star is_space; Cls (fun c => mem_ch c [45; 42]); Plus is_space].

Definition num_punct (c : char) : bool := mem_ch c [41; 46; 45] || is_space c.

(** [^\s*\d+[\).\s-]+] *)
Definition NUMBERED_RE : re :=
  seqs [Bol; Star is_space; Plus is_decimal; Plus num_punct].

(** [^\s*\d+[\).\s-]+\s*] *)
Definition NUMBERING_RE : re := Seq NUMBERED_RE (Star is_space).

Definition is_some {A} (o : option A) : bool :=
  match o with Some _ => true | None => false end.

Definition nonempty (s : str) : bool :=
  match s with [] => false | _ => true end.

Definition bullet_chars : str := [32; 45; 42; 9; 13; 10].

Definition default_title : str := u "Chef's Quick Weeknight Dish".
Definition default_description : str := u "A tasty, no-fuss recipe.".
Definition default_ingredients : list str := [u "Salt"; u "Pepper"; u "Olive oil"].
Definition default_steps : list str := [u "Combine ingredients and cook to taste."].

(** The title and the description made from the idea. *)
Definition idea_title (idea : str) : str :=
  match strip idea with
  | [] => default_title
  | s => title s
  end.

Definition idea_description (idea : str) : str :=
  match strip idea with
  | [] => default_description
  | s => capitalize s ++ u " turned into a balanced, easy-to-cook recipe."
  end.

(** The ingredient lines [heuristic_from_text] collects, before the
    default is applied. *)
Definition collect_ingredients (cleaned : str) : list str :=
  match re_search ING_SECTION_RE cleaned with
  | Some m =>
      List.filter nonempty
        (List.map (strip_chars bullet_chars) (splitlines (group 2 m)))
  | None =>
      List.map (strip_chars bullet_chars)
        (List.filter (fun line => is_some (re_match BULLET_RE line))
           (splitlines cleaned))
  end.

Definition strip_numbering (line : str) : str :=
  re_sub_const NUMBERING_RE [] line.

Definition collect_steps (cleaned : str) : list str :=
  match re_search STEPS_SECTION_RE cleaned with
  | Some m =>
      List.filter nonempty
        (List.map
           (fun line =>
              let line := strip line in
              if is_some (re_match NUMBERED_RE line) then strip_numbering line
              else line)
           (splitlines (group 2 m)))
  | None =>
      List.map (fun line => strip (strip_numbering line))
        (List.filter (fun line => is_some (re_match NUMBERED_RE line))
           (splitlines cleaned))
  end.

Definition or_default (l dflt : list str) : list str :=
  match l with [] => dflt | _ => l end.

Definition key (s : string) : pyval := PStr (u s).

Definition str_list (l : list str) : pyval := PList (List.map PStr l).

Definition heuristic_from_text (text idea : str) : dict :=
  let cleaned := replace_ch 8226 45 text in
  let ing := or_default (collect_ingredients cleaned) default_ingredients in
  let steps := or_default (collect_steps cleaned) default_steps in
  [ (key "title", PStr (idea_title idea));
    (key "description", PStr (idea_description idea));
    (key "servings", PInt 2);
    (key "time_minutes", PInt 20);
    (key "ingredients", str_list ing);
    (key "steps", str_list steps) ].

(** ** Sanitisers *)

Definition _coerce_list (value : pyval) : list pyval :=
  match value with
  | PNone => []
  | PList l => l
  | PStr s =>
      let pieces := if contains_ch 10 s then splitlines s else split_ch 44 s in
      List.map (fun p => PStr (strip p))
        (List.filter (fun p => nonempty (strip p)) pieces)
  | _ => [value]
  end.

(** [_clean_text] applied to any value: [(s or "")] is the empty text for
    a false value, and [.strip] exists on text only. *)
Definition clean_value (v : pyval) : option str :=
  match py_or v (PStr []) with
  | PStr s => Some (_clean_text s)
  | _ => None
  end.

Definition step_keys : list str :=
  [u "instructions"; u "instruction"; u "step"; u "direction"; u "text"].

Definition is_step_key (k : str) : bool := existsb (str_eqb k) step_keys.

(** The loop over [x.items()] of [_plainify_ingredient]; [k.lower()] raises
    for a key that is not text. *)
Fixpoint ingredient_pieces (d : dict) : option (list str) :=
  match d with
  | [] => Some []
  | (PStr k, v) :: t =>
      match ingredient_pieces t with
      | Some ps => Some (if is_step_key (lower k) then ps else py_str v :: ps)
      | None => None
      end
  | _ :: _ => None
  end.

Definition em_dash_sep : str := [32; 8212; 32].

Definition _plainify_ingredient (x : pyval) : option str :=
  match x with
  | PDict d =>
      let name := py_or (dict_get (key "name") d)
                    (py_or (dict_get (key "ingredient") d) (dict_get (key "item") d)) in
      let qty := py_or (dict_get (key "quantity") d)
                   (py_or (dict_get (key "amount") d) (dict_get (key "qty") d)) in
      if truthy name && truthy qty then
        Some (_clean_text (py_str name ++ em_dash_sep ++ py_str qty))
      else if truthy name then Some (_clean_text (py_str name))
      else
        match ingredient_pieces d with
        | Some [] => Some (u "Ingredient")
        | Some ps => Some (_clean_text (join (u ", ") ps))
        | None => None
        end
  | PList l => Some (_clean_text (join (u ", ") (List.map py_str l)))
  | _ => Some (_clean_text (py_str x))
  end.

(** The first step key present in [d] whose value is not blank. *)
Fixpoint first_step_field (keys : list str) (d : dict) : option pyval :=
  match keys with
  | [] => None
  | k :: t =>
      match dict_lookup (PStr k) d with
      | Some v => if nonempty (strip (py_str v)) then Some v
                  else first_step_field t d
      | None => first_step_field t d
      end
  end.

Definition _plainify_step (x : pyval) : str :=
  match x with
  | PDict d =>
      match first_step_field step_keys d with
      | Some v => _clean_text (py_str v)
      | None => _clean_text (join (u ". ") (List.map (fun kv => py_str (snd kv)) d))
      end
  | PList l => _clean_text (join (u ". ") (List.map py_str l))
  | _ => _clean_text (py_str x)
  end.

(** What [int] reads of a text that is not ASCII: blanks become spaces
    and decimal digits of any script the ASCII digits; the text ends in a
    question mark at the first other character from U+007F on. *)
Fixpoint to_ascii_decimal (s : str) : str :=
  match s with
  | [] => []
  | c :: t =>
      if c <? 127 then c :: to_ascii_decimal t
      else if is_space c then 32 :: to_ascii_decimal t
      else match decimal_value c with
           | Some d => (48 + d) :: to_ascii_decimal t
           | None => [63]
           end
  end.

Definition is_ascii (s : str) : bool := forallb (fun c => c <? 128) s.

(** The blanks of the C locale, the ones [int] skips at both ends. *)
Definition is_c_space (c : char) : bool := in_range 9 13 c || (c =? 32).

(** The digits of [int(text)]: single underscores are allowed between
    digits. *)
Fixpoint int_digits (after_digit : bool) (acc : N) (count : nat) (s : str)
  : option (N * nat) :=
  match s with
  | [] => if after_digit then Some (acc, count) else None
  | c :: t =>
      if is_digit c then int_digits true (acc * 10 + (c - 48)) (S count) t
      else if (c =? 95) && after_digit then int_digits false acc count t
      else None
  end.

Definition parse_int (s : str) : option Z :=
  let s := if is_ascii s then s else to_ascii_decimal s in
  let s := strip_by is_c_space s in
  let '(neg, body) := match s with
                      | 45 :: t => (true, t)
                      | 43 :: t => (false, t)
                      | _ => (false, s)
                      end in
  match int_digits false 0 0 body with
  | Some (n, count) =>
      if Nat.ltb int_max_str_digits count then None
      else Some (if neg then (- Z.of_N n)%Z else Z.of_N n)
  | None => None
  end.

(** [int(v)] *)
Definition py_int (v : pyval) : option Z :=
  match v with
  | PBool b => Some (if b then 1%Z else 0%Z)
  | PInt z => Some z
  | PFloat f => float_to_int f
  | PStr s => parse_int s
  | _ => None
  end.

Definition _as_int (v : pyval) (default : Z) : Z :=
  match py_int v with
  | Some z => z
  | None => default
  end.

(** [[f(x) for x in raw if str(x).strip()]] for an [f] that may raise. *)
Fixpoint plainify_all (f : pyval -> option str) (raw : list pyval)
  : option (list str) :=
  match raw with
  | [] => Some []
  | x :: t =>
      if nonempty (strip (py_str x)) then
        match f x with
        | Some s =>
            match plainify_all f t with
            | Some r => Some (s :: r)
            | None => None
            end
        | None => None
        end
      else plainify_all f t
  end.

Definition title_placeholders : list str := [u "untitled recipe"; u "recipe"].
Definition description_placeholders : list str :=
  [u "a delicious dish created by ai."; u "a delicious dish created by ai"].

Definition weak (placeholders : list str) (s : str) : bool :=
  negb (nonempty s) || existsb (str_eqb (lower s)) placeholders.

Definition sanitize_recipe_data (data : pyval) (idea : str) : option dict :=
  match (if truthy data then py_dict data else Some []) with
  | None => None
  | Some out =>
      match clean_value (dict_get (key "title") out),
            clean_value (dict_get (key "description") out) with
      | Some t, Some d =>
          let title := strip t in
          let desc := strip d in
          let servings := _as_int (dict_get (key "servings") out) 2 in
          let time_minutes := _as_int (dict_get (key "time_minutes") out) 20 in
          let ingredients_raw := _coerce_list (dict_get (key "ingredients") out) in
          let steps_raw := _coerce_list (dict_get (key "steps") out) in
          match plainify_all _plainify_ingredient ingredients_raw,
                plainify_all (fun x => Some (_plainify_step x)) steps_raw with
          | Some ingredients, Some steps =>
              let title := if weak title_placeholders title
                           then idea_title idea else title in
              let desc := if weak description_placeholders desc
                          then idea_description idea else desc in
              let ingredients := or_default ingredients default_ingredients in
              let steps := or_default steps default_steps in
              Some (dict_set (key "steps") (str_list steps)
                   (dict_set (key "ingredients") (str_list ingredients)
                   (dict_set (key "time_minutes") (PInt time_minutes)
                   (dict_set (key "servings") (PInt servings)
                   (dict_set (key "description") (PStr desc)
                   (dict_set (key "title") (PStr title) out))))))
          | _, _ => None
          end
      | _, _ => None
      end
  end.

(** ** The application: model calls, the title registry, generation *)

Definition default_idea : str := u "Create a great new dish.".

Definition build_prompt (idea : str) : str :=
  u "User idea: " ++ (match idea with [] => default_idea | _ => idea end)
  ++ [10]
  ++ u "Return JSON only (no code fences). Use realistic servings/time, "
  ++ u "a short description, a clear ingredient list, and 5" ++ [8211]
  ++ u "10 concise steps.".

(** [_seen_titles]: lower-cased title to number of occurrences. *)
Abbreviation registry := (gmap (list N) N).

Definition _unique_title (seen : registry) (title : str) : str * registry :=
  let base := strip (match title with [] => default_title | _ => title end) in
  let k := lower base in
  let n := default 0 (seen !! k) in
  if n =? 0 then (base, <[k := 1]> seen)
  else
    let n := n + 1 in
    (base ++ u " (v" ++ N_to_str n ++ u ")", <[k := n]> seen).

(** [_call_model_once], the collaborator: the outcome of the [i]-th
    request of a generation for a prompt, [None] when it raises. *)
Definition transport := nat -> str -> option str.

(** One turn of the loop of [_call_model]: the record to return, if any,
    and the new [last_text]. *)
Definition try_prompt (net : transport) (i : nat) (p : str) (last_text : str)
  : option pyval * str :=
  match net i p with
  | None => (None, last_text)
  | Some text =>
      let last_text := match text with [] => last_text | _ => text end in
      let d := extract_json_block text in
      if truthy d then (Some d, last_text)
      else
        let d := repair_json_like text in
        if truthy d then (Some d, last_text) else (None, last_text)
  end.

Definition _call_model (net : transport) (idea : str) : pyval :=
  match try_prompt net 0 (build_prompt idea) [] with
  | (Some d, _) => d
  | (None, last_text) =>
      match try_prompt net 1 (build_prompt default_idea) last_text with
      | (Some d, _) => d
      | (None, last_text) => PDict (heuristic_from_text last_text idea)
      end
  end.

(** [data["title"] = self._unique_title(t)]; [_unique_title] raises on a
    title that has no [.strip]. *)
Definition retitle (seen : registry) (data : dict) (t : pyval)
  : option (dict * registry) :=
  match t with
  | PStr s =>
      let '(s', seen') := _unique_title seen s in
      Some (dict_set (key "title") (PStr s') data, seen')
  | _ => None
  end.

(** The [except] branch of [_generate_and_render]. *)
Definition recover (seen : registry) (idea : str) : option (dict * registry) :=
  match sanitize_recipe_data (PDict (heuristic_from_text [] idea)) idea with
  | Some data =>
      match dict_lookup (key "title") data with
      | Some t => retitle seen data t
      | None => None
      end
  | None => None
  end.

(** [_generate_and_render]: the record handed to [_render_recipe] and the
    registry afterwards; [None] when an exception leaves the handler. *)
Definition _generate_and_render (net : transport) (seen : registry) (idea : str)
  : option (dict * registry) :=
  let attempt :=
    match sanitize_recipe_data (_call_model net idea) idea with
    | Some data =>
        retitle seen data (py_or (dict_get (key "title") data) (PStr default_title))
    | None => None
    end in
  match attempt with
  | Some r => Some r
  | None => recover seen idea
  end.

(** ** The page

    The controls of the interface toolkit, by what [app.py] reads back
    from them: the value of a text, the controls of a column or of a row,
    the content of a container.  A row is no column, which is what the
    [isinstance] tests of [_current_recipe_markdown] ask.  Sizes, colours,
    alignment and the other presentation attributes carry no behaviour in
    [app.py] and are left out; the calls into the toolkit ([update],
    [set_clipboard]) are taken not to raise. *)

#[warnings="-register-all"]
Inductive control :=
| Text (value : pyval)
| Icon (name : string)
| Divider
| Button (text : string)
| Column (controls : list control)
| Row (controls : list control)
| Container (content : option control).

Definition bullet_prefix : str := [8226; 32].

(** [ft.Text] of a bullet, a space and the ingredient. *)
Definition bullet_text (ing : pyval) : control :=
  Text (PStr (bullet_prefix ++ py_str ing)).

(** One column up to eight ingredients, two columns beyond, the first
    holding the larger half.  [len] and the iteration need a text, a list
    or a record, and a record cannot be sliced. *)
Definition _ingredients_view (ingredients : pyval) : option control :=
  match py_iter ingredients with
  | None => None
  | Some items =>
      if (length items <=? 8)%nat then Some (Column (List.map bullet_text items))
      else
        match ingredients with
        | PDict _ => None
        | _ =>
            let half := ((length items + 1) / 2)%nat in
            Some (Row [Column (List.map bullet_text (firstn half items));
                       Column (List.map bullet_text (skipn half items))])
        end
  end.

(** The texts of [enumerate(steps)]: the number after [i], a point, a
    space and the step. *)
Fixpoint numbered_from (i : N) (steps : list pyval) : list control :=
  match steps with
  | [] => []
  | s :: t =>
      Text (PStr (N_to_str (i + 1) ++ u ". " ++ py_str s)) :: numbered_from (i + 1) t
  end.

Definition _steps_view (steps : pyval) : option control :=
  match py_iter steps with
  | Some items => Some (Column (numbered_from 0 items))
  | None => None
  end.

Definition _section_card (title icon : string) (content_ctrl : control) : control :=
  Container (Some (Column [Row [Icon icon; Text (PStr (u title))]; content_ctrl])).

Definition empty_state : control :=
  Container
    (Some (Row [Column
      [Text (PStr (u "No recipe yet"));
       Text (PStr (u "Try: " ++ [8220] ++ u "high-protein vegetarian lunch" ++ [8221]
                   ++ u ", " ++ [8220] ++ u "5-minute pasta" ++ [8221]
                   ++ u ", or " ++ [8220] ++ u "gluten-free pancakes" ++ [8221]
                   ++ u "."));
       Text (PStr [129361; 32; 129476; 32; 129472; 32; 127813; 32; 129364; 32;
                   127831])]])).

(** The card that [_build_result_card] stores in [recipe_card]: a heading
    row with the copy button, then the empty state. *)
Definition _build_result_card : control :=
  Container
    (Some (Column [Row [Text (PStr (u "Recipe")); Container None; Button "Copy"];
                   empty_state])).

(** [d.get(k, default)] *)
Definition dict_get_or (k default : pyval) (d : dict) : pyval :=
  match dict_lookup k d with Some v => v | None => default end.

(** [isinstance(v, int)]; a [bool] is an [int]. *)
Definition is_int_instance (v : pyval) : bool :=
  match v with PInt _ | PBool _ => true | _ => false end.

Definition meta_sep : str := [32; 8226; 32].

Definition _recipe_view (data : dict) : option control :=
  let title := dict_get_or (key "title") (PStr default_title) data in
  let desc := dict_get_or (key "description") (PStr []) data in
  let servings := dict_get (key "servings") data in
  let time_minutes := dict_get (key "time_minutes") data in
  let ingredients := dict_get_or (key "ingredients") (PList []) data in
  let steps := dict_get_or (key "steps") (PList []) data in
  let meta_bits :=
    (if is_int_instance servings then [u "Servings: " ++ py_str servings] else [])
    ++ (if is_int_instance time_minutes
        then [u "Time: " ++ py_str time_minutes ++ u " min"] else []) in
  let header_block :=
    Column [Text title;
            match meta_bits with
            | [] => Container None
            | _ => Text (PStr (join meta_sep meta_bits))
            end;
            Text desc] in
  let header_centered := Row [Container (Some header_block)] in
  match _ingredients_view ingredients, _steps_view steps with
  | Some ing_view, Some steps_view =>
      Some (Column [header_centered; Divider;
                    _section_card "Ingredients" "LIST_ALT" ing_view;
                    _section_card "Steps" "FORMAT_LIST_NUMBERED" steps_view])
  | _, _ => None
  end.

(** The page of a [RecipeStudio] once [main] has built it: the fields of
    the object and the attributes of its controls that the handlers read
    or write, the open snack bar and the clipboard. *)
Record state := {
  loading : bool;
  _seen_titles : registry;
  _anim_token : Z;
  idea_input : str;
  generate_disabled : bool;
  reset_visible : bool;
  copy_visible : bool;
  recipe_card : control;
  overlay_visible : bool;
  overlay_label : str;
  snack_bar : option str;
  clipboard : option str
}.

Definition set_loading (v : bool) (a : state) : state :=
  {| loading := v; _seen_titles := _seen_titles a;
     _anim_token := _anim_token a; idea_input := idea_input a;
     generate_disabled := generate_disabled a;
     reset_visible := reset_visible a; copy_visible := copy_visible a;
     recipe_card := recipe_card a; overlay_visible := overlay_visible a;
     overlay_label := overlay_label a; snack_bar := snack_bar a;
     clipboard := clipboard a |}.

Definition set_seen_titles (v : registry) (a : state) : state :=
  {| loading := loading a; _seen_titles := v; _anim_token := _anim_token a;
     idea_input := idea_input a; generate_disabled := generate_disabled a;
     reset_visible := reset_visible a; copy_visible := copy_visible a;
     recipe_card := recipe_card a; overlay_visible := overlay_visible a;
     overlay_label := overlay_label a; snack_bar := snack_bar a;
     clipboard := clipboard a |}.

Definition set_anim_token (v : Z) (a : state) : state :=
  {| loading := loading a; _seen_titles := _seen_titles a; _anim_token := v;
     idea_input := idea_input a; generate_disabled := generate_disabled a;
     reset_visible := reset_visible a; copy_visible := copy_visible a;
     recipe_card := recipe_card a; overlay_visible := overlay_visible a;
     overlay_label := overlay_label a; snack_bar := snack_bar a;
     clipboard := clipboard a |}.

Definition set_idea_input (v : str) (a : state) : state :=
  {| loading := loading a; _seen_titles := _seen_titles a;
     _anim_token := _anim_token a; idea_input := v;
     generate_disabled := generate_disabled a;
     reset_visible := reset_visible a; copy_visible := copy_visible a;
     recipe_card := recipe_card a; overlay_visible := overlay_visible a;
     overlay_label := overlay_label a; snack_bar := snack_bar a;
     clipboard := clipboard a |}.

Definition set_generate_disabled (v : bool) (a : state) : state :=
  {| loading := loading a; _seen_titles := _seen_titles a;
     _anim_token := _anim_token a; idea_input := idea_input a;
     generate_disabled := v; reset_visible := reset_visible a;
     copy_visible := copy_visible a; recipe_card := recipe_card a;
     overlay_visible := overlay_visible a; overlay_label := overlay_label a;
     snack_bar := snack_bar a; clipboard := clipboard a |}.

Definition set_reset_visible (v : bool) (a : state) : state :=
  {| loading := loading a; _seen_titles := _seen_titles a;
     _anim_token := _anim_token a; idea_input := idea_input a;
     generate_disabled := generate_disabled a; reset_visible := v;
     copy_visible := copy_visible a; recipe_card := recipe_card a;
     overlay_visible := overlay_visible a; overlay_label := overlay_label a;
     snack_bar := snack_bar a; clipboard := clipboard a |}.

Definition set_copy_visible (v : bool) (a : state) : state :=
  {| loading := loading a; _seen_titles := _seen_titles a;
     _anim_token := _anim_token a; idea_input := idea_input a;
     generate_disabled := generate_disabled a;
     reset_visible := reset_visible a; copy_visible := v;
     recipe_card := recipe_card a; overlay_visible := overlay_visible a;
     overlay_label := overlay_label a; snack_bar := snack_bar a;
     clipboard := clipboard a |}.

Definition set_recipe_card (v : control) (a : state) : state :=
  {| loading := loading a; _seen_titles := _seen_titles a;
     _anim_token := _anim_token a; idea_input := idea_input a;
     generate_disabled := generate_disabled a;
     reset_visible := reset_visible a; copy_visible := copy_visible a;
     recipe_card := v; overlay_visible := overlay_visible a;
     overlay_label := overlay_label a; snack_bar := snack_bar a;
     clipboard := clipboard a |}.

Definition set_overlay_visible (v : bool) (a : state) : state :=
  {| loading := loading a; _seen_titles := _seen_titles a;
     _anim_token := _anim_token a; idea_input := idea_input a;
     generate_disabled := generate_disabled a;
     reset_visible := reset_visible a; copy_visible := copy_visible a;
     recipe_card := recipe_card a; overlay_visible := v;
     overlay_label := overlay_label a; snack_bar := snack_bar a;
     clipboard := clipboard a |}.

Definition set_overlay_label (v : str) (a : state) : state :=
  {| loading := loading a; _seen_titles := _seen_titles a;
     _anim_token := _anim_token a; idea_input := idea_input a;
     generate_disabled := generate_disabled a;
     reset_visible := reset_visible a; copy_visible := copy_visible a;
     recipe_card := recipe_card a; overlay_visible := overlay_visible a;
     overlay_label := v; snack_bar := snack_bar a;
     clipboard := clipboard a |}.

Definition set_snack_bar (v : option str) (a : state) : state :=
  {| loading := loading a; _seen_titles := _seen_titles a;
     _anim_token := _anim_token a; idea_input := idea_input a;
     generate_disabled := generate_disabled a;
     reset_visible := reset_visible a; copy_visible := copy_visible a;
     recipe_card := recipe_card a; overlay_visible := overlay_visible a;
     overlay_label := overlay_label a; snack_bar := v;
     clipboard := clipboard a |}.

Definition set_clipboard (v : option str) (a : state) : state :=
  {| loading := loading a; _seen_titles := _seen_titles a;
     _anim_token := _anim_token a; idea_input := idea_input a;
     generate_disabled := generate_disabled a;
     reset_visible := reset_visible a; copy_visible := copy_visible a;
     recipe_card := recipe_card a; overlay_visible := overlay_visible a;
     overlay_label := overlay_label a; snack_bar := snack_bar a;
     clipboard := v |}.

(** [card.content.controls[-1]] *)
Definition last_control (card : control) : option control :=
  match card with
  | Container (Some (Column cs)) | Container (Some (Row cs)) => List.last (List.map Some cs) None
  | _ => None
  end.

(** [card.content.controls[-1] = x] *)
Definition set_last_control (x : control) (card : control) : option control :=
  match card with
  | Container (Some (Column (c :: cs))) =>
      Some (Container (Some (Column (removelast (c :: cs) ++ [x]))))
  | Container (Some (Row (c :: cs))) =>
      Some (Container (Some (Row (removelast (c :: cs) ++ [x]))))
  | _ => None
  end.

Definition _snack (msg : str) (a : state) : state := set_snack_bar (Some msg) a.

Definition _render_recipe (data : dict) (a : state) : option state :=
  match _recipe_view data with
  | Some view =>
      match set_last_control view (recipe_card a) with
      | Some card => Some (set_recipe_card card a)
      | None => None
      end
  | None => None
  end.

(** [_start_overlay]: the page, and the token handed to the animation
    task it starts. *)
Definition _start_overlay (a : state) : state * Z :=
  let a := set_loading true a in
  let a := set_anim_token (_anim_token a + 1)%Z a in
  let a := set_overlay_visible true a in
  (a, _anim_token a).

Definition _stop_overlay (a : state) : state :=
  let a := set_loading false a in
  let a := set_anim_token (_anim_token a + 1)%Z a in
  set_overlay_visible false a.

Definition dots : list str :=
  [u "Generating ."; u "Generating .."; u "Generating ..."].

(** One turn of the loop of [_animate_generating], the [i]-th: the page
    with the next label, or [None] when the loop ends. *)
Definition _animate_generating (token : Z) (i : nat) (a : state) : option state :=
  if loading a && (token =? _anim_token a)%Z
  then Some (set_overlay_label (nth (i mod length dots) dots []) a)
  else None.

Definition on_reset (a : state) : option state :=
  let a := set_idea_input [] a in
  let a := set_generate_disabled false a in
  let a := set_reset_visible false a in
  let a := set_copy_visible false a in
  match set_last_control empty_state (recipe_card a) with
  | Some card => Some (set_recipe_card card a)
  | None => None
  end.

(** *** The recipe as Markdown *)

(** What the header block adds to [parts]. *)
Definition header_parts (header_block : control) : list pyval :=
  match header_block with
  | Column (t :: rest) =>
      (match t with Text v => [PStr (u "# " ++ py_str v)] | _ => [] end)
      ++ (match nth_error (t :: rest) 1 with
          | Some (Text v) => if truthy v then [PStr (u "*" ++ py_str v ++ u "*")] else []
          | _ => []
          end)
      ++ (match nth_error (t :: rest) 2 with
          | Some (Text v) => if truthy v then [v] else []
          | _ => []
          end)
  | _ => []
  end.

(** [card.content.controls[1] if isinstance(card.content, ft.Column) else
    None]; the outer [None] is the raised index error. *)
Definition section_body (content : option control) : option (option control) :=
  match content with
  | Some (Column cs) =>
      match nth_error cs 1 with
      | Some body => Some (Some body)
      | None => None
      end
  | _ => Some None
  end.

(** The line of one item of the ingredient list; [replace] exists on text
    only. *)
Definition item_line (item : control) : option (list pyval) :=
  match item with
  | Text (PStr s) => Some [PStr (u "- " ++ replace_str bullet_prefix [] s)]
  | Text _ => None
  | _ => Some []
  end.

Fixpoint item_lines (items : list control) : option (list pyval) :=
  match items with
  | [] => Some []
  | i :: t =>
      match item_line i, item_lines t with
      | Some a, Some b => Some (a ++ b)
      | _, _ => None
      end
  end.

Fixpoint column_lines (cols : list control) : option (list pyval) :=
  match cols with
  | [] => Some []
  | Column items :: t =>
      match item_lines items, column_lines t with
      | Some a, Some b => Some (a ++ b)
      | _, _ => None
      end
  | _ :: t => column_lines t
  end.

Definition ingredient_parts (ing_card : option control) : option (list pyval) :=
  match ing_card with
  | Some (Container content) =>
      match section_body content with
      | Some body =>
          match (match body with
                 | Some (Column items) => item_lines items
                 | Some (Row cols) => column_lines cols
                 | _ => Some []
                 end) with
          | Some ls => Some (PStr (10 :: u "## Ingredients") :: ls)
          | None => None
          end
      | None => None
      end
  | _ => Some []
  end.

Definition step_values (items : list control) : list pyval :=
  flat_map (fun i => match i with Text v => [v] | _ => [] end) items.

Definition step_parts (steps_card : option control) : option (list pyval) :=
  match steps_card with
  | Some (Container content) =>
      match section_body content with
      | Some body =>
          Some (PStr (10 :: u "## Steps")
                :: match body with
                   | Some (Column items) => step_values items
                   | _ => []
                   end)
      | None => None
      end
  | _ => Some []
  end.

(** The parts as texts; [join] raises on a part that is no text. *)
Fixpoint texts_of (parts : list pyval) : option (list str) :=
  match parts with
  | [] => Some []
  | PStr s :: t =>
      match texts_of t with
      | Some r => Some (s :: r)
      | None => None
      end
  | _ :: _ => None
  end.

(** [None] is the [None] the method returns, also when it caught an
    exception. *)
Definition _current_recipe_markdown (a : state) : option str :=
  match last_control (recipe_card a) with
  | Some (Column (c0 :: rest)) =>
      match ingredient_parts (nth_error (c0 :: rest) 2),
            step_parts (nth_error (c0 :: rest) 3) with
      | Some ip, Some sp =>
          match texts_of (header_parts c0 ++ ip ++ sp) with
          | Some ps =>
              match strip (join [10; 10] ps) with
              | [] => None
              | md => Some md
              end
          | None => None
          end
      | _, _ => None
      end
  | _ => None
  end.

Definition on_copy (a : state) : state :=
  match _current_recipe_markdown a with
  | Some md => _snack (u "Copied to clipboard.") (set_clipboard (Some md) a)
  | None => _snack (u "No recipe to copy.") a
  end.

(** *** Generation on the page *)

(** [self._unique_title(title)] for any value: [(title or default)] must
    have a [strip]. *)
Definition unique_title_of (seen : registry) (title : pyval)
  : option (str * registry) :=
  match py_or title (PStr default_title) with
  | PStr s => Some (_unique_title seen s)
  | _ => None
  end.

(** The [try] block of the method [_generate_and_render]: the page when
    the block ends, and whether it ended by an exception. *)
Definition try_generate (net : transport) (idea : str) (a : state) : state * bool :=
  match sanitize_recipe_data (_call_model net idea) idea with
  | None => (a, true)
  | Some data =>
      match unique_title_of (_seen_titles a)
              (py_or (dict_get (key "title") data) (PStr default_title)) with
      | None => (a, true)
      | Some (shown, seen') =>
          let a := set_seen_titles seen' a in
          match _render_recipe (dict_set (key "title") (PStr shown) data) a with
          | None => (a, true)
          | Some a => (set_reset_visible true (set_copy_visible true a), false)
          end
      end
  end.

(** The [except] block; [None] when an exception leaves it. *)
Definition recover_page (idea : str) (a : state) : option state :=
  match sanitize_recipe_data (PDict (heuristic_from_text [] idea)) idea with
  | None => None
  | Some data =>
      match dict_lookup (key "title") data with
      | None => None
      | Some t =>
          match unique_title_of (_seen_titles a) t with
          | None => None
          | Some (shown, seen') =>
              let a := set_seen_titles seen' a in
              match _render_recipe (dict_set (key "title") (PStr shown) data) a with
              | None => None
              | Some a =>
                  Some (_snack (u "Recovered from an error; showing a stable recipe.") a)
              end
          end
      end
  end.

(** The whole method [_generate_and_render], of which the definition of
    that name above is the part that computes the record: the page after
    it, [None] when an exception leaves it. *)
Definition generate_and_render_page (net : transport) (idea : str) (a : state)
  : option state :=
  let handled :=
    match try_generate net idea a with
    | (a, false) => Some a
    | (a, true) => recover_page idea a
    end in
  match handled with
  | Some a => Some (set_generate_disabled false (_stop_overlay a))
  | None => None
  end.

(** ** Notions used in the statements and proofs *)

(** The characters [_JSON_SIGNS] matches. *)
Definition is_json_sign (c : char) : bool := is_json_sign_class c || (c =? 34).

Definition sign_free (c : char) : Prop := is_json_sign c = false.

(** The longest prefix of [s] made of [p]-characters; [lstrip_by p s] is
    what follows it. *)
Fixpoint run_of (p : char -> bool) (s : str) : str :=
  match s with
  | c :: t => if p c then c :: run_of p t else []
  | [] => []
  end.

Definition at_space (s : str) : bool :=
  match s with c :: _ => is_space c | [] => false end.

Definition at_comma (s : str) : bool :=
  match s with c :: _ => c =? 44 | [] => false end.

Definition sub_ws (prev s : str) : str := sub_go WS_RE (fun _ => u " ") 0 prev s.

(** Blank characters are single spaces. *)
Fixpoint w_ok (s : str) : bool :=
  match s with
  | [] => true
  | c :: t => (negb (is_space c) || ((c =? 32) && negb (at_space t))) && w_ok t
  end.

Definition sub_comma (prev s : str) : str :=
  sub_go COMMA_RE (fun _ => u ", ") 0 prev s.

(** The shape the comma pass produces from single-spaced text: blanks are
    single spaces; a comma is followed by a space or ends the text; a
    space that does not follow a comma is not followed by one. *)
Fixpoint c_ok_go (owned : bool) (s : str) : bool :=
  match s with
  | [] => true
  | c :: t =>
      if c =? 44 then
        (match t with [] => true | d :: _ => d =? 32 end) && c_ok_go true t
      else if is_space c then
        (c =? 32) && negb (at_space t) && (owned || negb (at_comma t))
        && c_ok_go false t
      else c_ok_go false t
  end.

Definition c_ok (s : str) : bool := c_ok_go false s.

Fixpoint ends_comma (s : str) : bool :=
  match s with
  | [] => false
  | [c] => c =? 44
  | _ :: t => ends_comma t
  end.

(** The ranges of the blanks. *)
Definition space_ranges : list (N * N) :=
  [(9, 13); (28, 32); (133, 133); (160, 160); (5760, 5760); (8192, 8202);
   (8232, 8232); (8233, 8233); (8239, 8239); (8287, 8287); (12288, 12288)].

(** No range of [t] meets the code points from [a] to [b]. *)
Definition apart (t : list (N * N)) (a b : N) : bool :=
  negb (existsb (fun r => (fst r <=? b) && (a <=? snd r)) t).

(** The run maps its code points to code points that are no blanks. *)
Definition run_keeps_blanks (r : N * N * N * Z) : bool :=
  let '(lo, hi, _, offset) := r in
  (0 <=? Z.of_N lo + offset)%Z
  && apart space_ranges (Z.to_N (Z.of_N lo + offset)) (Z.to_N (Z.of_N hi + offset)).

Definition no_blank (s : str) : bool := forallb (fun c => negb (is_space c)) s.

(** The upper case of an ASCII letter. *)
Definition upper_ch (c : char) : char := if is_lower c then c - 32 else c.

(** The title case of ASCII text, read off letter by letter: a letter
    that follows a letter is made lower-case, any other letter
    upper-case. *)
Fixpoint title_ascii_go (after_letter : bool) (s : str) : str :=
  match s with
  | [] => []
  | c :: t => (if after_letter then lower_ch c else upper_ch c)
              :: title_ascii_go (is_alpha c) t
  end.

Definition title_ascii (s : str) : str := title_ascii_go false s.

(** Texts with letters outside ASCII, in three spellings. *)
Definition eclair : str := 233 :: u "clair".
Definition Eclair : str := 201 :: u "clair".
Definition creme_brulee : str :=
  u "cr" ++ [232] ++ u "me br" ++ [251] ++ u "l" ++ [233] ++ u "e".
Definition Creme_Brulee : str :=
  u "Cr" ++ [232] ++ u "me Br" ++ [251] ++ u "l" ++ [233] ++ u "e".
Definition CREME_BRULEE : str :=
  u "CR" ++ [200] ++ u "ME BR" ++ [219] ++ u "L" ++ [201] ++ u "E".

(** Text with no blank at either end. *)
Definition stripped (s : str) : Prop :=
  at_space s = false /\ rstrip_by is_space s = s.

(** The titles displayed for a sequence of finalised titles, each passed
    once through the registry. *)
Fixpoint unique_titles (seen : registry) (titles : list str) : list str :=
  match titles with
  | [] => []
  | t :: ts =>
      let '(shown, seen') := _unique_title seen t in
      shown :: unique_titles seen' ts
  end.

(** The version suffix for the [n]-th occurrence. *)
Definition version_suffix (n : N) : str := u " (v" ++ N_to_str n ++ u ")".

(** The displayed titles of consecutive generations in one session; each
    run has its own transport behaviour and idea. *)
Fixpoint session_titles (seen : registry) (runs : list (transport * str))
  : list pyval :=
  match runs with
  | [] => []
  | (net, idea) :: rest =>
      match _generate_and_render net seen idea with
      | Some (d, seen') => dict_get (key "title") d :: session_titles seen' rest
      | None => []
      end
  end.

Definition quoted (s : string) : str := [34] ++ u s ++ [34].

(** A transport that answers every request with a JSON object holding
    only the given title. *)
Definition answers_title (t : string) : transport :=
  fun _ _ => Some (u "{" ++ quoted "title" ++ u ": " ++ quoted t ++ u "}").

(** A transport that answers every request with the given text. *)
Definition answers (text : string) : transport := fun _ _ => Some (u text).

Definition is_record (v : pyval) : bool :=
  match v with PDict _ => true | _ => false end.

Definition recipe_fields : list string :=
  ["title"; "description"; "servings"; "time_minutes"; "ingredients"; "steps"]%string.

(** Patterns without a capturing group. *)
Fixpoint no_grp (r : re) : bool :=
  match r with
  | Grp _ _ => false
  | Seq a b | Alt a b => no_grp a && no_grp b
  | _ => true
  end.

Definition is_text (v : pyval) : bool :=
  match v with PStr (_ :: _) => true | _ => false end.

Definition is_int (v : pyval) : bool :=
  match v with PInt _ => true | _ => false end.

Definition is_str (v : pyval) : bool :=
  match v with PStr _ => true | _ => false end.

Definition is_text_list (v : pyval) : bool :=
  match v with
  | PList (x :: l) => forallb is_str (x :: l)
  | _ => false
  end.

(** The structure of a finalised recipe: text title and description that
    are not empty, integer servings and time, ingredient and step lists
    that are not empty and hold text. *)
Definition valid_recipe (d : dict) : bool :=
  is_text (dict_get (key "title") d)
  && is_text (dict_get (key "description") d)
  && is_int (dict_get (key "servings") d)
  && is_int (dict_get (key "time_minutes") d)
  && is_text_list (dict_get (key "ingredients") d)
  && is_text_list (dict_get (key "steps") d).

(** The title is none of the placeholder phrases. *)
Definition title_ok (d : dict) : bool :=
  match dict_get (key "title") d with
  | PStr t => negb (weak title_placeholders t)
  | _ => false
  end.

(** The description is none of the placeholder phrases. *)
Definition description_ok (d : dict) : bool :=
  match dict_get (key "description") d with
  | PStr s => negb (weak description_placeholders s)
  | _ => false
  end.

(** The title and the description are none of the placeholder phrases. *)
Definition no_placeholders (d : dict) : bool :=
  title_ok d && description_ok d.

(** What the matcher accepts.
    [matches r prev x rest cs cs']: the pattern can match the text [x]
    when [prev] (reversed) comes before it and [rest] after it, taking the
    captured groups from [cs] to [cs']. *)
Inductive matches : re -> str -> str -> str -> caps -> caps -> Prop :=
| M_Eps prev rest cs : matches Eps prev [] rest cs cs
| M_Cls p c prev rest cs : p c = true -> matches (Cls p) prev [c] rest cs cs
| M_Seq a b prev x y rest cs1 cs2 cs3 :
    matches a prev x (y ++ rest) cs1 cs2 ->
    matches b (rev x ++ prev) y rest cs2 cs3 ->
    matches (Seq a b) prev (x ++ y) rest cs1 cs3
| M_AltL a b prev x rest cs cs' :
    matches a prev x rest cs cs' -> matches (Alt a b) prev x rest cs cs'
| M_AltR a b prev x rest cs cs' :
    matches b prev x rest cs cs' -> matches (Alt a b) prev x rest cs cs'
| M_Star p prev x rest cs :
    forallb p x = true -> matches (Star p) prev x rest cs cs
| M_Lazy p prev x rest cs :
    forallb p x = true -> matches (Lazy p) prev x rest cs cs
| M_Grp n a prev x rest cs cs' :
    matches a prev x rest cs cs' ->
    matches (Grp n a) prev x rest cs (set_cap n x cs')
| M_Bol rest cs : matches Bol [] [] rest cs cs
| M_Eos prev cs : matches Eos prev [] [] cs cs
| M_Wb prev rest cs :
    xorb (at_word prev) (at_word rest) = true -> matches Wb prev [] rest cs cs
| M_NotBehind p prev rest cs :
    match prev with c :: _ => p c = false | [] => True end ->
    matches (NotBehind p) prev [] rest cs cs.

(** ** Notions used in the properties of the single functions *)

(** A part of a delimited field: not empty, no blank at either end, no
    comma and no line boundary inside. *)
Definition field_part (p : str) : Prop :=
  p <> [] /\ stripped p /\ Forall (fun c => c <> 44 /\ is_linebreak c = false) p.

(** The characters of a decimal numeral. *)
Fixpoint digit_chars (d : Decimal.uint) : str :=
  match d with
  | Decimal.Nil => []
  | Decimal.D0 l => 48 :: digit_chars l
  | Decimal.D1 l => 49 :: digit_chars l
  | Decimal.D2 l => 50 :: digit_chars l
  | Decimal.D3 l => 51 :: digit_chars l
  | Decimal.D4 l => 52 :: digit_chars l
  | Decimal.D5 l => 53 :: digit_chars l
  | Decimal.D6 l => 54 :: digit_chars l
  | Decimal.D7 l => 55 :: digit_chars l
  | Decimal.D8 l => 56 :: digit_chars l
  | Decimal.D9 l => 57 :: digit_chars l
  end.

(** The number a numeral denotes after the digits already read. *)
Fixpoint uint_value (acc : N) (d : Decimal.uint) : N :=
  match d with
  | Decimal.Nil => acc
  | Decimal.D0 l => uint_value (acc * 10 + 0) l
  | Decimal.D1 l => uint_value (acc * 10 + 1) l
  | Decimal.D2 l => uint_value (acc * 10 + 2) l
  | Decimal.D3 l => uint_value (acc * 10 + 3) l
  | Decimal.D4 l => uint_value (acc * 10 + 4) l
  | Decimal.D5 l => uint_value (acc * 10 + 5) l
  | Decimal.D6 l => uint_value (acc * 10 + 6) l
  | Decimal.D7 l => uint_value (acc * 10 + 7) l
  | Decimal.D8 l => uint_value (acc * 10 + 8) l
  | Decimal.D9 l => uint_value (acc * 10 + 9) l
  end.

(** The key a title is recorded under. *)
Definition title_key (t : str) : str :=
  lower (strip (match t with [] => default_title | _ => t end)).

(** The registry after a sequence of titles has gone through it. *)
Fixpoint seen_after (seen : registry) (titles : list str) : registry :=
  match titles with
  | [] => seen
  | t :: ts => seen_after (snd (_unique_title seen t)) ts
  end.

(** How many of the titles are recorded under the key [k]. *)
Definition requests (k : str) (titles : list str) : N :=
  N.of_nat (length (List.filter (fun t => str_eqb (title_key t) k) titles)).

(** Every key of every dictionary inside the value is a text. *)
Fixpoint text_keys (v : pyval) : bool :=
  match v with
  | PList l => forallb text_keys l
  | PDict d => forallb (fun kv => is_str (fst kv) && text_keys (snd kv)) d
  | _ => true
  end.

(** Every integer inside the value has a numeral of at most 4300 digits,
    the longest that [str] writes. *)
Fixpoint small_ints (v : pyval) : bool :=
  match v with
  | PInt z => Nat.leb (length (N_to_str (Z.abs_N z))) int_max_str_digits
  | PList l => forallb small_ints l
  | PDict d => forallb (fun kv => small_ints (fst kv) && small_ints (snd kv)) d
  | _ => true
  end.

(** A value that is true but no text: the [strip] of the sanitiser
    raises on it. *)
Definition wrong_text (v : pyval) : bool := truthy v && negb (is_str v).

(** An entry as the sanitiser leaves it: free of JSON signs, no blank at
    either end, blanks and commas in normal form. *)
Definition clean_entry (s : str) : Prop :=
  Forall sign_free s /\ stripped s /\ c_ok s = true.

(** A transport that has nothing to say: every request raises or is
    answered with the empty text. *)
Definition silent (net : transport) : Prop :=
  forall i p, net i p = None \/ net i p = Some [].

(** The page has its card: a column that ends in the control [shown]. *)
Definition shows (a : state) (shown : control) : Prop :=
  exists cs, recipe_card a = Container (Some (Column (cs ++ [shown]))).

(** The numbered lines of the steps, from the number after [i]. *)
Fixpoint numbered_lines (i : N) (steps : list str) : list str :=
  match steps with
  | [] => []
  | s :: t => (N_to_str (i + 1) ++ u ". " ++ s) :: numbered_lines (i + 1) t
  end.

(** Starts and stops of the overlay, in the order they happen. *)
Inductive overlay_event := Started | Stopped.

Definition overlay_step (a : state) (e : overlay_event) : state :=
  match e with
  | Started => fst (_start_overlay a)
  | Stopped => _stop_overlay a
  end.

(** A page as [main] leaves it, the idea field and the clipboard empty. *)
Definition fresh_page : state :=
  {| loading := false; _seen_titles := ∅; _anim_token := 0; idea_input := [];
     generate_disabled := false; reset_visible := false; copy_visible := false;
     recipe_card := _build_result_card; overlay_visible := false;
     overlay_label := u "Generating " ++ [8230]; snack_bar := None;
     clipboard := None |}.

(** An ingredient as a dashed line gives it back: not empty, no line
    boundary and no bullet inside, and at neither end one of the
    characters the extractor strips from a line. *)
Definition list_item (s : str) : Prop :=
  s <> []
  /\ Forall (fun c => is_linebreak c = false /\ c <> 8226) s
  /\ match s with c :: _ => mem_ch c bullet_chars = false | [] => True end
  /\ match rev s with c :: _ => mem_ch c bullet_chars = false | [] => True end.

(** A step as a numbered line gives it back: not empty, no line boundary
    and no bullet inside, no blank at either end, and not starting with
    one of the signs that may follow a number. *)
Definition step_item (s : str) : Prop :=
  s <> []
  /\ Forall (fun c => is_linebreak c = false /\ c <> 8226) s
  /\ stripped s
  /\ match s with c :: _ => num_punct c = false | [] => True end.

(** * Properties *)

(** ** What a substitution can put in its result *)

Section SubstitutionContents.
Variable P : char -> Prop.

Lemma Forall_lstrip_by p s : Forall P s -> Forall P (lstrip_by p s).
Proof.
  induction 1 as [|c t Hc Ht IH]; simpl; [constructor|].
  destruct (p c); [exact IH | constructor; assumption].
Qed.

Lemma Forall_strip_by p s : Forall P s -> Forall P (strip_by p s).
Proof.
  intros H. unfold strip_by, rstrip_by.
  apply List.Forall_rev, Forall_lstrip_by, List.Forall_rev, Forall_lstrip_by, H.
Qed.

Lemma Forall_strip s : Forall P s -> Forall P (strip s).
Proof. apply Forall_strip_by. Qed.

(** Every character of a substitution result comes from the subject or
    from a replacement. *)
Lemma Forall_sub_go r repl :
  (forall m, Forall P (repl m)) ->
  forall rest skip prev, Forall P rest -> Forall P (sub_go r repl skip prev rest).
Proof.
  intros Hrepl rest.
  induction rest as [|c t IH]; intros skip prev Hrest.
  - destruct skip; simpl; [|constructor].
    destruct (match_here r prev []); [|constructor].
    rewrite app_nil_r. apply Hrepl.
  - inversion Hrest as [|? ? Hc Ht]; subst.
    destruct skip; simpl; [|apply IH; assumption].
    destruct (match_here r prev (c :: t)) as [m|].
    + apply Forall_app. split; [apply Hrepl|].
      destruct (length (m_text m)); [constructor; [assumption|]|]; apply IH; assumption.
    + constructor; [assumption | apply IH; assumption].
Qed.

Lemma Forall_re_sub_const r repl s :
  Forall P repl -> Forall P s -> Forall P (re_sub_const r repl s).
Proof.
  intros Hr Hs. unfold re_sub_const, re_sub.
  apply Forall_sub_go; [intros _; exact Hr | exact Hs].
Qed.
End SubstitutionContents.

(** ** The sign-removal pass *)

Lemma firstn_one_more {A} (c : A) (t : list A) :
  firstn (length (c :: t) - length t) (c :: t) = [c].
Proof.
  simpl length. replace (S (length t) - length t)%nat with 1%nat by lia.
  reflexivity.
Qed.

Lemma match_here_json_signs prev c t :
  match_here _JSON_SIGNS prev (c :: t) =
  if is_json_sign c
  then Some {| m_before := prev; m_text := [c]; m_after := t; m_caps := [] |}
  else None.
Proof.
  unfold match_here, _JSON_SIGNS, is_json_sign, Chr, ch_eqb. cbn [rmatch].
  unfold ret. rewrite (N.eqb_sym 34 c).
  destruct (is_json_sign_class c); cbn [orb].
  - rewrite firstn_one_more. reflexivity.
  - destruct (c =? 34); [rewrite firstn_one_more|]; reflexivity.
Qed.

(** The pass deletes exactly the sign characters. *)
Lemma sub_json_signs_filter s prev :
  sub_go _JSON_SIGNS (fun _ => []) 0 prev s = List.filter (fun c => negb (is_json_sign c)) s.
Proof.
  revert prev. induction s as [|c t IH]; intros prev.
  - reflexivity.
  - cbn [sub_go List.filter]. rewrite match_here_json_signs.
    destruct (is_json_sign c); cbn [negb m_text length app]; rewrite IH; reflexivity.
Qed.

Lemma sub_json_signs_free s : Forall sign_free (re_sub_const _JSON_SIGNS [] s).
Proof.
  unfold re_sub_const, re_sub. rewrite sub_json_signs_filter.
  apply List.Forall_forall. intros c Hc. apply filter_In in Hc.
  destruct Hc as [_ Hc]. unfold sign_free. destruct (is_json_sign c); [discriminate | reflexivity].
Qed.

Lemma clean_text_sign_free s : Forall sign_free (_clean_text s).
Proof.
  unfold _clean_text.
  apply Forall_strip.
  apply Forall_re_sub_const; [repeat constructor|].
  apply Forall_re_sub_const; [repeat constructor|].
  apply Forall_re_sub_const; [constructor|].
  apply Forall_re_sub_const; [constructor|].
  apply sub_json_signs_free.
Qed.

(** C3.  The result of the text sanitiser contains no brace, no bracket and
    no double quote, whatever the input. *)
Theorem clean_text_has_no_json_signs :
  forall (x : str) (c : char),
    In c (_clean_text x) -> ~ In c [123; 125; 91; 93; 34].
Proof.
  intros x c Hin Hsign.
  pose proof (clean_text_sign_free x) as H.
  rewrite List.Forall_forall in H. specialize (H c Hin).
  unfold sign_free, is_json_sign, is_json_sign_class, mem_ch in H.
  simpl in Hsign.
  destruct Hsign as [<-|[<-|[<-|[<-|[<-|[]]]]]]; vm_compute in H; discriminate.
Qed.

Lemma clean_text_has_no_json_signs_witness :
  In 120 (_clean_text (u "{x}")) /\ ~ In 120 [123; 125; 91; 93; 34].
Proof.
  assert (H : In 120 (_clean_text (u "{x}"))) by (vm_compute; left; reflexivity).
  split; [exact H | exact (clean_text_has_no_json_signs (u "{x}") 120 H)].
Defined.

(** ** Positions of a match *)

Lemma run_split p s : s = run_of p s ++ lstrip_by p s.
Proof.
  induction s as [|c t IH]; simpl; [reflexivity|].
  destruct (p c); simpl; [f_equal; exact IH | reflexivity].
Qed.

Lemma firstn_app_len {A} (a b : list A) :
  firstn (length (a ++ b) - length b) (a ++ b) = a.
Proof.
  rewrite length_app. replace (length a + length b - length b)%nat with (length a) by lia.
  apply take_app_length.
Qed.

(** A greedy repetition before a continuation that refuses to start on a
    [p]-character stops exactly at the end of the run. *)
Lemma star_greedy_run p k :
  (forall prev c t cs, p c = true -> k prev (c :: t) cs = None) ->
  forall rest prev cs,
    star_greedy p prev rest cs k =
    k (rev (run_of p rest) ++ prev) (lstrip_by p rest) cs.
Proof.
  intros Hk rest. induction rest as [|c t IH]; intros prev cs; simpl.
  - reflexivity.
  - destruct (p c) eqn:Hc; simpl; [|reflexivity].
    rewrite IH. rewrite <- List.app_assoc. simpl.
    destruct (k (rev (run_of p t) ++ c :: prev) (lstrip_by p t) cs) eqn:E;
      [reflexivity|]. apply Hk, Hc.
Qed.

(** With nothing after it, a greedy repetition takes the whole run. *)
Lemma star_greedy_ret p rest prev cs :
  star_greedy p prev rest cs ret =
  Some (rev (run_of p rest) ++ prev, lstrip_by p rest, cs).
Proof.
  revert prev. induction rest as [|c t IH]; intros prev; simpl.
  - reflexivity.
  - destruct (p c); simpl; [|reflexivity].
    rewrite IH, <- List.app_assoc. reflexivity.
Qed.

Lemma sub_go_skip r repl a :
  forall prev b,
    sub_go r repl (length a) prev (a ++ b) = sub_go r repl 0 (rev a ++ prev) b.
Proof.
  induction a as [|x a IH]; intros prev b; [reflexivity|].
  simpl. rewrite IH, <- List.app_assoc. reflexivity.
Qed.

(** One step of a substitution at a position where the pattern matches a
    non-empty text. *)
Lemma sub_go_match r repl prev rest m :
  match_here r prev rest = Some m ->
  m_text m <> [] ->
  rest = m_text m ++ m_after m ->
  exists prev',
    sub_go r repl 0 prev rest = repl m ++ sub_go r repl 0 prev' (m_after m).
Proof.
  intros Hm Hne Hr.
  destruct (m_text m) as [|x a] eqn:Ht; [congruence|].
  exists (rev a ++ x :: prev). subst rest.
  cbn [app sub_go]. cbn [app] in Hm. rewrite Hm, Ht. cbn [length].
  rewrite sub_go_skip. reflexivity.
Qed.

Lemma sub_go_nomatch r repl prev c t :
  match_here r prev (c :: t) = None ->
  sub_go r repl 0 prev (c :: t) = c :: sub_go r repl 0 (c :: prev) t.
Proof. intros Hm. cbn [sub_go]. rewrite Hm. reflexivity. Qed.

(** ** The whitespace and comma passes *)

Lemma lstrip_not_at_space s : at_space s = false -> lstrip_by is_space s = s.
Proof. destruct s as [|c t]; simpl; [reflexivity|]. intros ->. reflexivity. Qed.

Lemma at_space_lstrip s : at_space (lstrip_by is_space s) = false.
Proof.
  induction s as [|c t IH]; simpl; [reflexivity|].
  destruct (is_space c) eqn:E; [exact IH | simpl; exact E].
Qed.

Lemma length_lstrip_by p s : (length (lstrip_by p s) <= length s)%nat.
Proof.
  induction s as [|c t IH]; simpl; [lia|]. destruct (p c); simpl; lia.
Qed.

Lemma space_not_comma c : is_space c = true -> (c =? 44) = false.
Proof.
  intros H. destruct (N.eqb_spec c 44) as [->|]; [|reflexivity].
  vm_compute in H. discriminate.
Qed.

Lemma firstn_run p c t :
  firstn (length (c :: t) - length (lstrip_by p t)) (c :: t) = c :: run_of p t.
Proof.
  pose proof (run_split p t) as E.
  set (a := run_of p t) in *. set (b := lstrip_by p t) in *.
  clearbody a b. subst t. simpl length. rewrite length_app.
  replace (S (length a + length b) - length b)%nat with (S (length a)) by lia.
  simpl. f_equal. apply take_app_length.
Qed.

Lemma match_here_ws prev c t :
  match_here WS_RE prev (c :: t) =
  if is_space c
  then Some {| m_before := prev; m_text := c :: run_of is_space t;
               m_after := lstrip_by is_space t; m_caps := [] |}
  else None.
Proof.
  unfold match_here, WS_RE, Plus. cbn [rmatch].
  destruct (is_space c); [|reflexivity].
  rewrite star_greedy_ret, firstn_run. reflexivity.
Qed.

Lemma sub_ws_space prev c t :
  is_space c = true ->
  exists prev', sub_ws prev (c :: t) = 32 :: sub_ws prev' (lstrip_by is_space t).
Proof.
  intros Hc. unfold sub_ws.
  pose proof (match_here_ws prev c t) as Hm. rewrite Hc in Hm.
  destruct (sub_go_match WS_RE (fun _ => u " ") _ _ _ Hm) as [prev' E].
  - discriminate.
  - cbn [m_text m_after app]. f_equal. apply run_split.
  - exists prev'. exact E.
Qed.

Lemma sub_ws_other prev c t :
  is_space c = false -> sub_ws prev (c :: t) = c :: sub_ws (c :: prev) t.
Proof.
  intros Hc. unfold sub_ws. apply sub_go_nomatch.
  rewrite match_here_ws, Hc. reflexivity.
Qed.

Lemma at_space_sub_ws prev s : at_space s = false -> at_space (sub_ws prev s) = false.
Proof.
  destruct s as [|c t]; simpl; [reflexivity|].
  intros Hc. rewrite sub_ws_other by exact Hc. exact Hc.
Qed.

Lemma sub_ws_w_ok n : forall s prev, (length s <= n)%nat -> w_ok (sub_ws prev s) = true.
Proof.
  induction n as [|n IH]; intros s prev Hn.
  - destruct s; [reflexivity | simpl in Hn; lia].
  - destruct s as [|c t]; [reflexivity|]. simpl in Hn.
    destruct (is_space c) eqn:Hc.
    + destruct (sub_ws_space prev c t Hc) as [prev' ->].
      cbn [w_ok]. rewrite at_space_sub_ws by apply at_space_lstrip.
      rewrite IH by (pose proof (length_lstrip_by is_space t); lia).
      rewrite N.eqb_refl. destruct (is_space 32); reflexivity.
    + rewrite sub_ws_other by exact Hc. cbn [w_ok]. rewrite Hc.
      apply IH. lia.
Qed.

Lemma sub_ws_fix s : forall prev, w_ok s = true -> sub_ws prev s = s.
Proof.
  induction s as [|c t IH]; intros prev H; [reflexivity|].
  cbn [w_ok] in H. apply andb_true_iff in H. destruct H as [Hc Ht].
  destruct (is_space c) eqn:Ec.
  - simpl in Hc. apply andb_true_iff in Hc. destruct Hc as [E32 Hns].
    apply N.eqb_eq in E32. apply negb_true_iff in Hns.
    destruct (sub_ws_space prev c t Ec) as [prev' ->].
    rewrite lstrip_not_at_space by exact Hns. rewrite IH by exact Ht.
    rewrite E32. reflexivity.
  - rewrite sub_ws_other by exact Ec. rewrite IH by exact Ht. reflexivity.
Qed.

Lemma match_here_comma prev rest :
  match_here COMMA_RE prev rest =
  match lstrip_by is_space rest with
  | c :: t =>
      if c =? 44
      then Some {| m_before := prev;
                   m_text := firstn (length rest - length (lstrip_by is_space t)) rest;
                   m_after := lstrip_by is_space t; m_caps := [] |}
      else None
  | [] => None
  end.
Proof.
  unfold match_here, COMMA_RE, Chr, ch_eqb. cbn [seqs rmatch].
  rewrite star_greedy_run.
  - destruct (lstrip_by is_space rest) as [|c t]; [reflexivity|].
    rewrite (N.eqb_sym 44 c). destruct (c =? 44); [|reflexivity].
    rewrite star_greedy_ret. reflexivity.
  - intros p c t cs Hc. rewrite (N.eqb_sym 44 c), (space_not_comma c Hc).
    reflexivity.
Qed.

Lemma sub_comma_nil prev : sub_comma prev [] = [].
Proof. reflexivity. Qed.

(** At a comma: the comma and the blanks after it become [", "]. *)
Lemma sub_comma_comma prev t :
  exists prev',
    sub_comma prev (44 :: t) = 44 :: 32 :: sub_comma prev' (lstrip_by is_space t).
Proof.
  unfold sub_comma.
  pose proof (match_here_comma prev (44 :: t)) as Hm. cbn [lstrip_by] in Hm.
  change (is_space 44) with false in Hm. cbv iota in Hm.
  change (44 =? 44) with true in Hm. cbv iota in Hm.
  rewrite firstn_run in Hm.
  destruct (sub_go_match COMMA_RE (fun _ => u ", ") _ _ _ Hm) as [prev' E].
  - discriminate.
  - cbn [m_text m_after app]. f_equal. apply run_split.
  - exists prev'. exact E.
Qed.

(** At a blank directly before a comma. *)
Lemma sub_comma_space_comma prev c t :
  is_space c = true -> at_space (44 :: t) = false ->
  exists prev',
    sub_comma prev (c :: 44 :: t) = 44 :: 32 :: sub_comma prev' (lstrip_by is_space t).
Proof.
  intros Hc _. unfold sub_comma.
  pose proof (match_here_comma prev (c :: 44 :: t)) as Hm. cbn [lstrip_by] in Hm.
  rewrite Hc in Hm. change (is_space 44) with false in Hm. cbv iota in Hm.
  change (44 =? 44) with true in Hm. cbv iota in Hm.
  assert (Ht : firstn (length (c :: 44 :: t) - length (lstrip_by is_space t)) (c :: 44 :: t)
               = c :: 44 :: run_of is_space t).
  { pose proof (firstn_run is_space 44 t) as F. simpl length in *.
    pose proof (length_lstrip_by is_space t).
    rewrite Nat.sub_succ_l by lia.
    cbn [firstn]. f_equal. exact F. }
  rewrite Ht in Hm.
  destruct (sub_go_match COMMA_RE (fun _ => u ", ") _ _ _ Hm) as [prev' E].
  - discriminate.
  - cbn [m_text m_after app]. do 2 f_equal. apply run_split.
  - exists prev'. exact E.
Qed.

(** At a character that starts no match. *)
Lemma sub_comma_copy prev c t :
  (if is_space c then negb (at_space t) && negb (at_comma t) else negb (c =? 44)) = true ->
  sub_comma prev (c :: t) = c :: sub_comma (c :: prev) t.
Proof.
  intros H. unfold sub_comma. apply sub_go_nomatch.
  rewrite match_here_comma. cbn [lstrip_by].
  destruct (is_space c) eqn:Hc.
  - apply andb_true_iff in H. destruct H as [Hs Hk].
    apply negb_true_iff in Hs, Hk.
    rewrite lstrip_not_at_space by exact Hs.
    destruct t as [|d t']; [reflexivity|]. simpl in Hk. rewrite Hk. reflexivity.
  - apply negb_true_iff in H. rewrite H. reflexivity.
Qed.

Lemma c_ok_go_weaken s : c_ok_go false s = true -> c_ok_go true s = true.
Proof.
  destruct s as [|c t]; [reflexivity|]. cbn [c_ok_go].
  destruct (c =? 44); [trivial|]. destruct (is_space c); [|trivial].
  destruct (c =? 32), (at_space t), (at_comma t), (c_ok_go false t);
    simpl; intros H; try discriminate H; reflexivity.
Qed.

Lemma sub_comma_heads prev s :
  at_space s = false ->
  at_space (sub_comma prev s) = false
  /\ (at_comma s = false -> at_comma (sub_comma prev s) = false).
Proof.
  destruct s as [|c t]; [intros _; split; reflexivity|].
  cbn [at_space at_comma]. intros Hc.
  destruct (c =? 44) eqn:Hk.
  - apply N.eqb_eq in Hk. subst c.
    destruct (sub_comma_comma prev t) as [prev' ->].
    split; [reflexivity | discriminate].
  - rewrite sub_comma_copy by (rewrite Hc, Hk; reflexivity).
    cbn [at_space at_comma]. split; [exact Hc | intros _; exact Hk].
Qed.

Lemma sub_comma_c_ok n :
  forall s prev, (length s <= n)%nat -> w_ok s = true -> c_ok (sub_comma prev s) = true.
Proof.
  unfold c_ok. induction n as [|n IH]; intros s prev Hn Hw.
  - destruct s; [reflexivity | simpl in Hn; lia].
  - destruct s as [|c t]; [reflexivity|]. simpl in Hn.
    cbn [w_ok] in Hw. apply andb_true_iff in Hw. destruct Hw as [Hc Ht].
    assert (Hafter : forall prev' t', (length t' <= n)%nat -> w_ok t' = true ->
              c_ok_go false (44 :: 32 :: sub_comma prev' (lstrip_by is_space t')) = true).
    { intros prev' t' Hl Hw'.
      cbn [c_ok_go]. change (44 =? 44) with true. change (32 =? 44) with false.
      change (is_space 32) with true. change (32 =? 32) with true. cbv iota.
      cbn [andb orb].
      destruct (sub_comma_heads prev' (lstrip_by is_space t') (at_space_lstrip t')) as [H1 _].
      rewrite H1. cbn [negb andb].
      apply IH.
      - pose proof (length_lstrip_by is_space t'). lia.
      - clear -Hw'. induction t' as [|d t' IHt]; [reflexivity|].
        cbn [w_ok] in Hw'. apply andb_true_iff in Hw'. destruct Hw' as [Hd Ht'].
        cbn [lstrip_by]. destruct (is_space d) eqn:Ed; [apply IHt, Ht'|].
        cbn [w_ok]. rewrite Ed, Ht'. reflexivity. }
    destruct (c =? 44) eqn:Hk.
    + apply N.eqb_eq in Hk. subst c.
      destruct (sub_comma_comma prev t) as [prev' ->].
      apply Hafter; [lia | exact Ht].
    + destruct (is_space c) eqn:Ec.
      * simpl in Hc. apply andb_true_iff in Hc. destruct Hc as [E32 Hns].
        apply N.eqb_eq in E32. apply negb_true_iff in Hns.
        destruct t as [|d t'].
        -- rewrite sub_comma_copy by (rewrite Ec; reflexivity).
           rewrite sub_comma_nil. subst c. reflexivity.
        -- destruct (d =? 44) eqn:Ed.
           ++ apply N.eqb_eq in Ed. subst d.
              destruct (sub_comma_space_comma prev c t' Ec Hns) as [prev' ->].
              cbn [w_ok] in Ht. apply andb_true_iff in Ht. destruct Ht as [_ Ht'].
              apply Hafter; [simpl in Hn; lia | exact Ht'].
           ++ rewrite sub_comma_copy
                by (rewrite Ec, Hns; cbn [at_comma]; rewrite Ed; reflexivity).
              cbn [c_ok_go]. rewrite Hk, Ec, E32.
              destruct (sub_comma_heads (c :: prev) (d :: t') Hns) as [H1 H2].
              rewrite <- E32. rewrite H1, H2 by (cbn [at_comma]; exact Ed).
              rewrite E32. change (32 =? 32) with true. cbn [negb andb orb].
              apply IH; [lia | exact Ht].
      * rewrite sub_comma_copy by (rewrite Ec, Hk; reflexivity).
        cbn [c_ok_go]. rewrite Hk, Ec. apply IH; [lia | exact Ht].
Qed.

(** On text of that shape the comma pass only adds a space after a final
    comma. *)
Lemma sub_comma_fix n :
  forall y prev, (length y <= n)%nat -> c_ok y = true ->
    sub_comma prev y = y ++ (if ends_comma y then [32] else []).
Proof.
  unfold c_ok. induction n as [|n IH]; intros y prev Hn Hy.
  - destruct y; [reflexivity | simpl in Hn; lia].
  - destruct y as [|c t]; [reflexivity|]. simpl in Hn.
    cbn [c_ok_go] in Hy.
    destruct (c =? 44) eqn:Hk.
    + apply N.eqb_eq in Hk. subst c.
      apply andb_true_iff in Hy. destruct Hy as [Hd Ht].
      destruct (sub_comma_comma prev t) as [prev' ->].
      destruct t as [|d t']; [reflexivity|].
      apply N.eqb_eq in Hd. subst d.
      cbn [c_ok_go] in Ht. change (32 =? 44) with false in Ht.
      change (is_space 32) with true in Ht. cbv iota in Ht.
      change (32 =? 32) with true in Ht. cbn [andb orb] in Ht.
      rewrite andb_true_r in Ht.
      apply andb_true_iff in Ht. destruct Ht as [Hs Ht'].
      apply negb_true_iff in Hs.
      cbn [lstrip_by]. change (is_space 32) with true. cbv iota.
      rewrite lstrip_not_at_space by exact Hs.
      rewrite IH by (simpl in Hn; try lia; exact Ht').
      destruct t' as [|e t'']; reflexivity.
    + destruct (is_space c) eqn:Ec.
      * apply andb_true_iff in Hy as [Hy Hrec]. apply andb_true_iff in Hy as [Hy Hown].
        apply andb_true_iff in Hy as [H32 Hns]. rewrite orb_false_l in Hown.
        rewrite sub_comma_copy by (rewrite Ec, Hns, Hown; reflexivity).
        rewrite IH by (try lia; assumption).
        destruct t as [|d t']; [cbn; rewrite Hk; reflexivity | reflexivity].
      * rewrite sub_comma_copy by (rewrite Ec, Hk; reflexivity).
        rewrite IH by (try lia; assumption).
        destruct t as [|d t']; [cbn; rewrite Hk; reflexivity | reflexivity].
Qed.

Lemma c_ok_go_w_ok s : forall o, c_ok_go o s = true -> w_ok s = true.
Proof.
  induction s as [|c t IH]; intros o H; [reflexivity|].
  cbn [c_ok_go] in H. cbn [w_ok].
  destruct (c =? 44) eqn:Hk.
  - apply N.eqb_eq in Hk. subst c. change (is_space 44) with false. cbn [negb orb andb].
    apply andb_true_iff in H. destruct H as [_ H]. exact (IH _ H).
  - destruct (is_space c).
    + apply andb_true_iff in H as [H Hrec]. apply andb_true_iff in H as [H Hown].
      apply andb_true_iff in H as [H32 Hns].
      rewrite H32, Hns, (IH _ Hrec). reflexivity.
    + cbn [negb orb andb]. exact (IH _ H).
Qed.

(** *** Stripping *)

Lemma rstrip_by_prefix p s : exists x, s = rstrip_by p s ++ x.
Proof.
  unfold rstrip_by. exists (rev (run_of p (rev s))).
  rewrite <- rev_app_distr, <- run_split, rev_involutive. reflexivity.
Qed.

Lemma rstrip_by_idem p s : rstrip_by p (rstrip_by p s) = rstrip_by p s.
Proof.
  unfold rstrip_by. rewrite rev_involutive. f_equal.
  generalize (rev s). intros l. induction l as [|c t IH]; simpl; [reflexivity|].
  destruct (p c) eqn:E; [exact IH | simpl; rewrite E; reflexivity].
Qed.

Lemma at_space_prefix a b : at_space (a ++ b) = false -> at_space a = false.
Proof. destruct a; [reflexivity | trivial]. Qed.

Lemma strip_stripped s : stripped (strip s).
Proof.
  unfold stripped, strip, strip_by. split.
  - destruct (rstrip_by_prefix is_space (lstrip_by is_space s)) as [x E].
    apply (at_space_prefix _ x). rewrite <- E. apply at_space_lstrip.
  - apply rstrip_by_idem.
Qed.

Lemma stripped_strip s : stripped s -> strip s = s.
Proof.
  intros [H1 H2]. unfold strip, strip_by.
  rewrite lstrip_not_at_space by exact H1. exact H2.
Qed.

Lemma stripped_strip_space s : stripped s -> strip (s ++ [32]) = s.
Proof.
  intros [H1 H2]. unfold strip, strip_by.
  destruct s as [|c t]; [reflexivity|].
  rewrite lstrip_not_at_space by exact H1.
  unfold rstrip_by in *. rewrite rev_app_distr. exact H2.
Qed.

Lemma c_ok_go_prefix a : forall b o, c_ok_go o (a ++ b) = true -> c_ok_go o a = true.
Proof.
  induction a as [|c a IH]; intros b o H; [reflexivity|].
  cbn [app c_ok_go] in *.
  destruct (c =? 44).
  - apply andb_true_iff in H. destruct H as [H1 H2].
    rewrite (IH _ _ H2). destruct a; [reflexivity|].
    cbn [app] in H1. cbv iota. rewrite H1. reflexivity.
  - destruct (is_space c); [|exact (IH _ _ H)].
    apply andb_true_iff in H as [H Hrec]. apply andb_true_iff in H as [H Hown].
      apply andb_true_iff in H as [H32 Hns].
    rewrite (IH _ _ Hrec), H32. destruct a as [|d a']; [destruct o; reflexivity|].
    cbn [app at_space at_comma] in *. rewrite Hns, Hown. reflexivity.
Qed.

Lemma c_ok_lstrip s : c_ok s = true -> c_ok (lstrip_by is_space s) = true.
Proof.
  unfold c_ok. induction s as [|c t IH]; intros H; [reflexivity|].
  cbn [lstrip_by]. destruct (is_space c) eqn:Ec; [|exact H].
  apply IH. cbn [c_ok_go] in H. rewrite (space_not_comma c Ec), Ec in H.
  apply andb_true_iff in H. destruct H as [_ H]. exact H.
Qed.

Lemma c_ok_strip s : c_ok s = true -> c_ok (strip s) = true.
Proof.
  intros H. unfold strip, strip_by.
  destruct (rstrip_by_prefix is_space (lstrip_by is_space s)) as [x E].
  apply (c_ok_go_prefix _ x). rewrite <- E. apply c_ok_lstrip, H.
Qed.

Lemma filter_sign_free s :
  Forall sign_free s -> List.filter (fun c => negb (is_json_sign c)) s = s.
Proof.
  induction 1 as [|c t Hc Ht IH]; [reflexivity|].
  cbn [List.filter]. rewrite Hc. cbn [negb]. rewrite IH. reflexivity.
Qed.

(** The last two passes and the final strip of [_clean_text] return a
    text of the shape above, and leave such a text as it is. *)
Lemma clean_text_shape x : c_ok (_clean_text x) = true /\ stripped (_clean_text x).
Proof.
  unfold _clean_text. split; [|apply strip_stripped].
  apply c_ok_strip. unfold re_sub_const, re_sub.
  apply (sub_comma_c_ok _ _ _ (le_n _)).
  apply (sub_ws_w_ok _ _ _ (le_n _)).
Qed.

Lemma tail_passes_fix y :
  c_ok y = true -> stripped y ->
  strip (re_sub_const COMMA_RE (u ", ") (re_sub_const WS_RE (u " ") y)) = y.
Proof.
  intros Hc Hs. unfold re_sub_const, re_sub.
  fold (sub_ws [] y). rewrite sub_ws_fix by exact (c_ok_go_w_ok _ _ Hc).
  fold (sub_comma [] y). rewrite (sub_comma_fix _ _ _ (le_n _) Hc).
  destruct (ends_comma y).
  - apply stripped_strip_space, Hs.
  - rewrite app_nil_r. apply stripped_strip, Hs.
Qed.

(** C2, amended.  Sanitising a sanitised text again changes nothing,
    provided the label pass and the leading-marker pass find nothing left
    to remove in it. *)
Theorem clean_text_idempotent_when_settled :
  forall x : str,
    let y := _clean_text x in
    re_sub_const LABEL_RE [] y = y ->
    re_sub_const MARKER_RE [] y = y ->
    _clean_text y = y.
Proof.
  intros x y HL HM.
  destruct (clean_text_shape x) as [Hc Hs]. fold y in Hc, Hs.
  unfold _clean_text at 1.
  rewrite (stripped_strip y Hs).
  assert (HS : re_sub_const _JSON_SIGNS [] y = y).
  { unfold re_sub_const, re_sub. rewrite sub_json_signs_filter.
    apply filter_sign_free, clean_text_sign_free. }
  rewrite HS, HL, HM. apply tail_passes_fix; assumption.
Qed.

Lemma clean_text_idempotent_when_settled_witness :
  let y := _clean_text (u "  Title:  Hello ,  world {x} ") in
  re_sub_const LABEL_RE [] y = y /\ re_sub_const MARKER_RE [] y = y
  /\ _clean_text y = y.
Proof.
  assert (HL : re_sub_const LABEL_RE [] (_clean_text (u "  Title:  Hello ,  world {x} "))
               = _clean_text (u "  Title:  Hello ,  world {x} ")) by (vm_compute; reflexivity).
  assert (HM : re_sub_const MARKER_RE [] (_clean_text (u "  Title:  Hello ,  world {x} "))
               = _clean_text (u "  Title:  Hello ,  world {x} ")) by (vm_compute; reflexivity).
  split; [exact HL | split; [exact HM |]].
  exact (clean_text_idempotent_when_settled (u "  Title:  Hello ,  world {x} ") HL HM).
Defined.

(** C2, as stated, fails: a second leading marker survives the first
    sanitising and is removed by the second. *)
Lemma clean_text_not_idempotent :
  _clean_text (_clean_text (u "- - a")) <> _clean_text (u "- - a").
Proof. vm_compute. discriminate. Qed.

(** ** Case mapping *)

Lemma in_range_single k c : in_range k k c = ch_eqb c k.
Proof.
  unfold in_range, ch_eqb.
  destruct (N.leb_spec k c), (N.leb_spec c k), (N.eqb_spec c k); cbn; (reflexivity || lia).
Qed.

Lemma is_space_ranges c :
  is_space c = existsb (fun r => in_range (fst r) (snd r) c) space_ranges.
Proof.
  unfold is_space, space_ranges, mem_ch. cbn [existsb fst snd].
  rewrite !in_range_single, !orb_false_r, !orb_assoc. reflexivity.
Qed.

Lemma apart_spec t a b y :
  apart t a b = true -> a <= y <= b ->
  existsb (fun r => in_range (fst r) (snd r) y) t = false.
Proof.
  unfold apart. rewrite negb_true_iff. intros H Hy.
  induction t as [|[lo hi] t IH]; cbn [existsb fst snd] in *; [reflexivity|].
  apply orb_false_iff in H. destruct H as [H1 H2].
  rewrite (IH H2), orb_false_r. unfold in_range.
  destruct (N.leb_spec lo b), (N.leb_spec a hi); try discriminate H1;
    destruct (N.leb_spec lo y), (N.leb_spec y hi); cbn; (reflexivity || lia).
Qed.

Lemma special_lookup_in t c s : special_lookup t c = Some s -> In (c, s) t.
Proof.
  induction t as [|[k v] t IH]; cbn [special_lookup]; [discriminate|].
  destruct (c <? k); [discriminate|].
  destruct (N.eqb_spec c k) as [->|_].
  - intros H. injection H as ->. left. reflexivity.
  - intros H. right. exact (IH H).
Qed.

Lemma run_lookup_in t c x :
  run_lookup t c = Some x ->
  exists lo hi st d,
    In (lo, hi, st, d) t /\ lo <= c <= hi /\ x = Z.to_N (Z.of_N c + d).
Proof.
  induction t as [|[[[lo hi] st] d] t IH]; cbn [run_lookup]; [discriminate|].
  destruct (N.ltb_spec c lo) as [Hlo|Hlo]; [discriminate|].
  destruct (N.leb_spec c hi) as [Hhi|Hhi].
  - destruct ((c - lo) mod st =? 0); [|discriminate].
    intros H. injection H as <-. exists lo, hi, st, d.
    split; [left; reflexivity | split; [lia | reflexivity]].
  - intros H. destruct (IH H) as (lo' & hi' & st' & d' & Hin & Hr).
    exists lo', hi', st', d'. split; [right; exact Hin | exact Hr].
Qed.

Lemma run_lookup_keeps_blanks t c x :
  forallb run_keeps_blanks t = true ->
  run_lookup t c = Some x -> is_space x = false.
Proof.
  intros Ht H. apply run_lookup_in in H.
  destruct H as (lo & hi & st & d & Hin & Hc & ->).
  rewrite forallb_forall in Ht. specialize (Ht _ Hin). cbn in Ht.
  apply andb_true_iff in Ht. destruct Ht as [H0 Ha]. apply Z.leb_le in H0.
  rewrite is_space_ranges. apply (apart_spec _ _ _ _ Ha). lia.
Qed.

Lemma lower_runs_keep_blanks : forallb run_keeps_blanks lower_runs = true.
Proof. vm_compute. reflexivity. Qed.

Lemma title_runs_keep_blanks : forallb run_keeps_blanks title_runs = true.
Proof. vm_compute. reflexivity. Qed.

Lemma title_specials_keep_blanks :
  forallb (fun kv => nonempty (snd kv) && no_blank (snd kv)) title_specials = true.
Proof. vm_compute. reflexivity. Qed.

Lemma no_blank_single c : is_space c = false -> no_blank [c] = true.
Proof. intros H. unfold no_blank. cbn [forallb]. rewrite H. reflexivity. Qed.

(** A case mapping gives at least one character, and no blank for a
    character that is none. *)
Lemma to_lower_full_shape c :
  to_lower_full c <> [] /\ (is_space c = false -> no_blank (to_lower_full c) = true).
Proof.
  unfold to_lower_full. destruct (c =? 304); [split; [discriminate | reflexivity]|].
  destruct (run_lookup lower_runs c) as [x|] eqn:E; (split; [discriminate|]); intros Hc.
  - apply no_blank_single. exact (run_lookup_keeps_blanks _ _ _ lower_runs_keep_blanks E).
  - apply no_blank_single, Hc.
Qed.

Lemma to_title_full_shape c :
  to_title_full c <> [] /\ (is_space c = false -> no_blank (to_title_full c) = true).
Proof.
  unfold to_title_full. destruct (special_lookup title_specials c) as [s|] eqn:Es.
  - apply special_lookup_in in Es.
    pose proof title_specials_keep_blanks as H. rewrite forallb_forall in H.
    specialize (H _ Es). cbn [snd] in H. apply andb_true_iff in H. destruct H as [H1 H2].
    split; [destruct s; [discriminate H1 | discriminate] | intros _; exact H2].
  - destruct (run_lookup title_runs c) as [x|] eqn:E; (split; [discriminate|]); intros Hc.
    + apply no_blank_single. exact (run_lookup_keeps_blanks _ _ _ title_runs_keep_blanks E).
    + apply no_blank_single, Hc.
Qed.

Lemma lower_at_shape before c after :
  lower_at before c after <> []
  /\ (is_space c = false -> no_blank (lower_at before c after) = true).
Proof.
  unfold lower_at. destruct (c =? 931); [|apply to_lower_full_shape].
  split; [discriminate|]. intros _. unfold final_sigma.
  destruct (cased_next before && negb (cased_next after)); reflexivity.
Qed.

Lemma title_nonempty c s : title (c :: s) <> [].
Proof.
  unfold title. cbn [title_go]. destruct (to_title_full_shape c) as [H _].
  destruct (to_title_full c); [congruence | discriminate].
Qed.

Lemma length_lower_go s : forall before, (length s <= length (lower_go before s))%nat.
Proof.
  induction s as [|c t IH]; intros before; cbn [lower_go length]; [lia|].
  rewrite length_app. specialize (IH (c :: before)).
  destruct (lower_at_shape before c t) as [H _].
  destruct (lower_at before c t); [congruence | cbn [length]; lia].
Qed.

(** The lower case of a text that ends in a character ends in the lower
    case of that character. *)
Lemma lower_go_snoc s c :
  forall before, exists x b, lower_go before (s ++ [c]) = x ++ lower_at b c [].
Proof.
  induction s as [|a s IH]; intros before; cbn [app lower_go].
  - exists [], before. rewrite app_nil_r. reflexivity.
  - destruct (IH (a :: before)) as (x & b & ->).
    exists (lower_at before a (s ++ [c]) ++ x), b. rewrite List.app_assoc. reflexivity.
Qed.

Lemma title_go_snoc s c :
  forall cased before, exists x piece,
    title_go cased before (s ++ [c]) = x ++ piece
    /\ piece <> [] /\ (is_space c = false -> no_blank piece = true).
Proof.
  induction s as [|a s IH]; intros cased before; cbn [app title_go].
  - eexists [], _. rewrite app_nil_r. split; [reflexivity|].
    destruct cased; [apply lower_at_shape | apply to_title_full_shape].
  - destruct (IH (is_cased a) (a :: before)) as (x & piece & -> & Hp).
    eexists (_ ++ x), piece. rewrite List.app_assoc. split; [reflexivity | exact Hp].
Qed.

(** *** Case mapping of ASCII text *)

Lemma run_lookup_cons lo hi st d t c :
  run_lookup ((lo, hi, st, d) :: t) c
  = if c <? lo then None
    else if c <=? hi then
      if (c - lo) mod st =? 0 then Some (Z.to_N (Z.of_N c + d)) else None
    else run_lookup t c.
Proof. reflexivity. Qed.

Lemma special_lookup_cons k s t c :
  special_lookup ((k, s) :: t) c
  = if c <? k then None else if c =? k then Some s else special_lookup t c.
Proof. reflexivity. Qed.

Lemma in_ranges_cons lo hi t c :
  in_ranges ((lo, hi) :: t) c
  = if c <? lo then false else if c <=? hi then true else in_ranges t c.
Proof. reflexivity. Qed.

Lemma ascii_lower_full c : c < 128 -> to_lower_full c = [lower_ch c].
Proof.
  intros H. unfold to_lower_full. destruct (N.eqb_spec c 304); [lia|].
  unfold lower_runs, lower_ch, is_upper, in_range. rewrite run_lookup_cons.
  destruct (N.ltb_spec c 65), (N.leb_spec 65 c); try lia; [reflexivity|].
  destruct (N.leb_spec c 90); cbn [andb].
  - rewrite N.mod_1_r. cbn [N.eqb]. do 2 f_equal. lia.
  - rewrite run_lookup_cons. destruct (N.ltb_spec c 192); [reflexivity | lia].
Qed.

Lemma ascii_title_full c : c < 128 -> to_title_full c = [upper_ch c].
Proof.
  intros H. unfold to_title_full, title_specials. rewrite special_lookup_cons.
  destruct (N.ltb_spec c 223); [|lia].
  unfold title_runs, upper_ch, is_lower, in_range. rewrite run_lookup_cons.
  destruct (N.ltb_spec c 97), (N.leb_spec 97 c); try lia; [reflexivity|].
  destruct (N.leb_spec c 122); cbn [andb].
  - rewrite N.mod_1_r. cbn [N.eqb]. do 2 f_equal. lia.
  - rewrite run_lookup_cons. destruct (N.ltb_spec c 181); [reflexivity | lia].
Qed.

Lemma ascii_cased c : c < 128 -> is_cased c = is_alpha c.
Proof.
  intros H. unfold is_cased, cased_ranges, is_alpha, is_upper, is_lower, in_range.
  rewrite !in_ranges_cons.
  destruct (N.ltb_spec c 65), (N.leb_spec 65 c), (N.leb_spec c 90),
    (N.ltb_spec c 97), (N.leb_spec 97 c), (N.leb_spec c 122), (N.ltb_spec c 170);
    cbn; (reflexivity || lia).
Qed.

Lemma ascii_lower_at before c after : c < 128 -> lower_at before c after = [lower_ch c].
Proof.
  intros H. unfold lower_at. destruct (N.eqb_spec c 931); [lia|].
  apply ascii_lower_full, H.
Qed.

Lemma lower_go_ascii s :
  is_ascii s = true -> forall before, lower_go before s = List.map lower_ch s.
Proof.
  unfold is_ascii. induction s as [|c t IH]; intros H before; [reflexivity|].
  cbn [forallb] in H. apply andb_true_iff in H. destruct H as [Hc Ht].
  apply N.ltb_lt in Hc. cbn [lower_go List.map].
  rewrite (ascii_lower_at _ _ _ Hc), (IH Ht). reflexivity.
Qed.

Lemma lower_ascii s : is_ascii s = true -> lower s = List.map lower_ch s.
Proof. intros H. apply lower_go_ascii, H. Qed.

Lemma title_go_ascii s :
  is_ascii s = true ->
  forall cased before, title_go cased before s = title_ascii_go cased s.
Proof.
  unfold is_ascii. induction s as [|c t IH]; intros H cased before; [reflexivity|].
  cbn [forallb] in H. apply andb_true_iff in H. destruct H as [Hc Ht].
  apply N.ltb_lt in Hc. cbn [title_go title_ascii_go].
  rewrite (ascii_lower_at _ _ _ Hc), (ascii_title_full _ Hc), (ascii_cased _ Hc), (IH Ht).
  destruct cased; reflexivity.
Qed.

Lemma title_ascii_agrees s : is_ascii s = true -> title s = title_ascii s.
Proof. intros H. apply title_go_ascii, H. Qed.

Lemma is_ascii_Forall s : is_ascii s = true <-> Forall (fun c => c < 128) s.
Proof.
  unfold is_ascii. rewrite forallb_forall, List.Forall_forall.
  split; intros H c Hc; specialize (H c Hc); apply N.ltb_lt; exact H.
Qed.

Lemma is_ascii_strip s : is_ascii s = true -> is_ascii (strip s) = true.
Proof. rewrite !is_ascii_Forall. apply Forall_strip. Qed.

(** ** The title registry *)

Lemma unique_title_other seen a k :
  lower (strip (match a with [] => default_title | _ => a end)) <> k ->
  snd (_unique_title seen a) !! k = seen !! k.
Proof.
  intros H. unfold _unique_title.
  destruct (default 0 (seen !! _) =? 0); cbn [snd]; apply lookup_insert_ne; exact H.
Qed.

(** C6.  [_unique_title] looks the title up under its lower-cased form.  An
    unseen title is returned as it is (trimmed; the default title stands in
    for an empty one) and recorded with count 1; a seen one has its count
    incremented and the suffix for the new count appended.  The
    lower-cased form of ASCII text is the text with the letters A to Z
    replaced by a to z, and a title with another lower-cased form leaves
    the count alone.  Two calls with [Garlic Bread] and a third with
    [garlic bread] give [Garlic Bread], [Garlic Bread (v2)] and
    [garlic bread (v3)]; a title in between that differs by more than
    case takes no suffix and no number, and letters outside ASCII are
    matched without regard to case as well. *)
Theorem unique_title_counts :
  (forall (seen : registry) (t : str),
     let base := strip (match t with [] => default_title | _ => t end) in
     let k := lower base in
     _unique_title seen t =
     match seen !! k with
     | None | Some 0 => (base, <[k := 1]> seen)
     | Some n => (base ++ version_suffix (n + 1), <[k := n + 1]> seen)
     end)
  /\ (forall t : str, t <> [] -> strip t = t ->
        strip (match t with [] => default_title | _ => t end) = t)
  /\ (forall s : str, is_ascii s = true -> lower s = List.map lower_ch s)
  /\ (forall (seen : registry) (a b : str),
        a <> [] -> strip a = a -> lower a <> lower b ->
        snd (_unique_title seen a) !! lower b = seen !! lower b)
  /\ unique_titles ∅ [u "Garlic Bread"; u "Garlic Bread"; u "garlic bread"]
     = [u "Garlic Bread"; u "Garlic Bread (v2)"; u "garlic bread (v3)"]
  /\ unique_titles ∅ [u "Garlic Bread"; u "Garlic Toast"; u "GARLIC BREAD"]
     = [u "Garlic Bread"; u "Garlic Toast"; u "GARLIC BREAD (v2)"]
  /\ unique_titles ∅ [Eclair; eclair; u "Eclair"]
     = [Eclair; eclair ++ u " (v2)"; u "Eclair"]
  /\ lower (u "garlic bread (v3)") = lower (u "Garlic Bread (v3)").
Proof.
  split; [|split; [|split; [|split; [|split; [|split; [|split]]]]]].
  - intros seen t base k. unfold _unique_title. fold base. fold k.
    destruct (seen !! k) as [n|]; simpl; [|reflexivity].
    destruct n; reflexivity.
  - intros t Hne Hs. destruct t; [congruence | exact Hs].
  - exact lower_ascii.
  - intros seen a b Hne Hs Hk. apply unique_title_other.
    destruct a; [congruence|]. rewrite Hs. exact Hk.
  - vm_compute. reflexivity.
  - vm_compute. reflexivity.
  - vm_compute. reflexivity.
  - vm_compute. reflexivity.
Qed.

Lemma unique_title_counts_witness :
  fst (_unique_title ∅ (u "Garlic Bread")) = u "Garlic Bread"
  /\ lower (u "Garlic Bread") = u "garlic bread"
  /\ snd (_unique_title ∅ (u "Garlic Bread")) !! lower (u "Garlic Toast") = None.
Proof.
  assert (Hne : u "Garlic Bread" <> []) by (vm_compute; discriminate).
  assert (Hs : strip (u "Garlic Bread") = u "Garlic Bread") by (vm_compute; reflexivity).
  destruct unique_title_counts as (H1 & H2 & H3 & H4 & _).
  split; [|split].
  - rewrite H1. cbn zeta. rewrite lookup_empty. cbn [fst].
    exact (H2 (u "Garlic Bread") Hne Hs).
  - rewrite (H3 (u "Garlic Bread")) by reflexivity. vm_compute. reflexivity.
  - rewrite (H4 ∅ (u "Garlic Bread") (u "Garlic Toast") Hne Hs)
      by (vm_compute; discriminate).
    apply lookup_empty.
Defined.

(** The registry alone: a title that already ends in a version suffix is
    stored under its own key, so it can repeat the title a suffix was
    appended to.  Three titles [Soup], [Soup], [Soup (v2)] are shown as
    [Soup], [Soup (v2)], [Soup (v2)]. *)
Theorem unique_titles_can_repeat :
  unique_titles ∅ [u "Soup"; u "Soup"; u "Soup (v2)"]
  = [u "Soup"; u "Soup (v2)"; u "Soup (v2)"]
  /\ ~ List.NoDup (unique_titles ∅ [u "Soup"; u "Soup"; u "Soup (v2)"]).
Proof.
  assert (E : unique_titles ∅ [u "Soup"; u "Soup"; u "Soup (v2)"]
              = [u "Soup"; u "Soup (v2)"; u "Soup (v2)"]) by (vm_compute; reflexivity).
  split; [exact E|]. rewrite E. intros H.
  apply List.NoDup_cons_iff in H. destruct H as [_ H].
  apply List.NoDup_cons_iff in H. destruct H as [H _].
  apply H. left. reflexivity.
Qed.

(** C5 does not hold of the code: two recipes of one session can be shown
    under the same title.  When the model answers three generations with
    the titles [Soup], [Soup] and [Soup (v2)], each passed once through the
    registry, the titles shown are [Soup], [Soup (v2)] and [Soup (v2)]. *)
Theorem session_titles_can_repeat :
  session_titles ∅
    [(answers_title "Soup", u "soup"); (answers_title "Soup", u "soup");
     (answers_title "Soup (v2)", u "soup")]
  = [PStr (u "Soup"); PStr (u "Soup (v2)"); PStr (u "Soup (v2)")].
Proof. vm_compute. reflexivity. Qed.

(** ** Finalisation keeps entries that sanitise to nothing *)

(** C1 does not hold of the code: the comprehension filters on the raw
    entry ([str(x).strip()]), not on the sanitised one, so an entry made of
    JSON punctuation survives as an empty string and the default list is
    not applied. *)
Theorem sanitize_keeps_empty_entry :
  exists out,
    sanitize_recipe_data (PDict [(key "ingredients", PList [PStr (u "{}")])]) (u "soup")
    = Some out
    /\ dict_get (key "ingredients") out = PList [PStr []]
    /\ dict_get (key "steps") out = str_list default_steps.
Proof. eexists. split; [vm_compute; reflexivity | split; vm_compute; reflexivity]. Qed.

(** ** The repairer on the example of the specification *)

(** C8.  The near-JSON text with bare keys, single quotes and a trailing
    comma is repaired into an object whose title is [Soup]. *)
Theorem repair_json_like_example :
  exists d,
    repair_json_like
      (u "{title: 'Soup', servings: 2, ingredients: ['Water'], steps: ['Boil'],}")
    = PDict d
    /\ dict_get (key "title") d = PStr (u "Soup").
Proof. eexists. split; vm_compute; reflexivity. Qed.

(** ** The extractor *)

(** C7, as stated, fails: the direct parse returns whatever JSON value the
    text is, and a text that is the JSON [null] parses without the
    extractor reporting anything. *)
Lemma extract_json_block_not_only_records :
  ~ (forall text,
       (is_record (extract_json_block text) = true \/ extract_json_block text = PNone)
       /\ (extract_json_block text = PNone <->
           attempt_fenced_json text = None /\ attempt_fenced text = None
           /\ attempt_scan text = None /\ attempt_direct text = None)).
Proof.
  intros H. destruct (H (u "[1]")) as [[H1|H1] _]; vm_compute in H1; discriminate.
Qed.

(** ** Dictionaries *)

Lemma str_eqb_eq a : forall b, str_eqb a b = true <-> a = b.
Proof.
  induction a as [|x a IH]; intros [|y b]; simpl; split; try congruence; try discriminate.
  - intros H. apply andb_true_iff in H. destruct H as [H1 H2].
    apply N.eqb_eq in H1. apply IH in H2. congruence.
  - intros H. injection H as -> ->. rewrite N.eqb_refl. apply IH. reflexivity.
Qed.

Lemma key_eqb_str_refl s : key_eqb (PStr s) (PStr s) = true.
Proof. simpl. apply str_eqb_eq. reflexivity. Qed.

Lemma key_eqb_to_str k s : key_eqb k (PStr s) = true -> k = PStr s.
Proof.
  destruct k as [| b | z | f | t | l | d]; simpl; try discriminate.
  - destruct f; discriminate.
  - intros H. apply str_eqb_eq in H. congruence.
Qed.

Lemma dict_lookup_set_same s v d :
  dict_lookup (PStr s) (dict_set (PStr s) v d) = Some v.
Proof.
  induction d as [|[k' v'] t IH]; cbn [dict_set dict_lookup].
  - rewrite key_eqb_str_refl. reflexivity.
  - destruct (key_eqb k' (PStr s)) eqn:E; cbn [dict_lookup]; rewrite E; [reflexivity | exact IH].
Qed.

Lemma dict_lookup_set_other s k v d :
  key_eqb (PStr s) k = false ->
  dict_lookup k (dict_set (PStr s) v d) = dict_lookup k d.
Proof.
  intros Hk. induction d as [|[k' v'] t IH]; cbn [dict_set dict_lookup].
  - rewrite Hk. reflexivity.
  - destruct (key_eqb k' (PStr s)) eqn:E; cbn [dict_lookup].
    + apply key_eqb_to_str in E. subst k'. rewrite Hk. reflexivity.
    + rewrite IH. reflexivity.
Qed.

Lemma dict_get_set_same s v d : dict_get (PStr s) (dict_set (PStr s) v d) = v.
Proof. unfold dict_get. rewrite dict_lookup_set_same. reflexivity. Qed.

Lemma dict_get_set_other s k v d :
  key_eqb (PStr s) k = false ->
  dict_get k (dict_set (PStr s) v d) = dict_get k d.
Proof. intros H. unfold dict_get. rewrite dict_lookup_set_other by exact H. reflexivity. Qed.

(** ** The prose extractor *)

(** C9.  Whatever the text and the idea, [heuristic_from_text] returns a
    record with 2 servings and 20 minutes, with the ingredient and step
    lines it collected, or the fixed default lists when it collected
    none (as for the empty text), hence with at least one entry each, and
    with the trimmed idea in title case as title, or the default title
    when the idea is blank.  The title case of an ASCII idea has every
    letter that follows a letter in lower case and every other letter in
    upper case: [garlic bread] becomes [Garlic Bread]; letters outside
    ASCII are cased as well. *)
Theorem heuristic_from_text_populated :
  (forall text idea : str,
    let r := heuristic_from_text text idea in
    let found_ing := collect_ingredients (replace_ch 8226 45 text) in
    let found_steps := collect_steps (replace_ch 8226 45 text) in
    let ing := match found_ing with [] => default_ingredients | _ => found_ing end in
    let steps := match found_steps with [] => default_steps | _ => found_steps end in
    dict_get (key "ingredients") r = PList (List.map PStr ing)
    /\ dict_get (key "steps") r = PList (List.map PStr steps)
    /\ ing <> [] /\ steps <> []
    /\ dict_get (key "servings") r = PInt 2
    /\ dict_get (key "time_minutes") r = PInt 20
    /\ dict_get (key "title") r
       = PStr (match strip idea with [] => default_title | s => title s end)
    /\ (text = [] -> ing = default_ingredients /\ steps = default_steps)
    /\ (idea = [] -> dict_get (key "title") r = PStr default_title)
    /\ (idea <> [] -> strip idea = idea ->
        dict_get (key "title") r = PStr (title idea)))
  /\ (forall text idea : str,
        is_ascii idea = true -> strip idea <> [] ->
        dict_get (key "title") (heuristic_from_text text idea)
        = PStr (title_ascii (strip idea)))
  /\ (forall text : str,
        dict_get (key "title") (heuristic_from_text text (u "  garlic bread "))
        = PStr (u "Garlic Bread"))
  /\ (forall text : str,
        dict_get (key "title") (heuristic_from_text text (u "o'neil's 3d pie"))
        = PStr (u "O'Neil'S 3D Pie"))
  /\ (forall text : str,
        dict_get (key "title") (heuristic_from_text text creme_brulee)
        = PStr Creme_Brulee).
Proof.
  assert (Hall : forall text idea,
             dict_get (key "title") (heuristic_from_text text idea)
             = PStr (match strip idea with [] => default_title | s => title s end))
    by reflexivity.
  split; [|split; [|split; [|split]]].
  - intros text idea r found_ing found_steps ing steps.
    pose proof (Hall text idea) as Ht. fold r in Ht.
    split; [reflexivity|]. split; [reflexivity|].
    split; [subst ing; destruct found_ing; [vm_compute|]; discriminate|].
    split; [subst steps; destruct found_steps; [vm_compute|]; discriminate|].
    split; [reflexivity|]. split; [reflexivity|]. split; [exact Ht|].
    split; [|split].
    + intros H. subst ing steps found_ing found_steps. rewrite H. split; reflexivity.
    + intros H. rewrite Ht, H. reflexivity.
    + intros Hne Hs. rewrite Ht, Hs. destruct idea; [congruence | reflexivity].
  - intros text idea Ha Hne. rewrite Hall.
    rewrite <- (title_ascii_agrees _ (is_ascii_strip _ Ha)).
    destruct (strip idea); [congruence | reflexivity].
  - intros text. rewrite Hall. vm_compute. reflexivity.
  - intros text. rewrite Hall. vm_compute. reflexivity.
  - intros text. rewrite Hall. vm_compute. reflexivity.
Qed.

Lemma heuristic_from_text_populated_witness :
  dict_get (key "title") (heuristic_from_text (u "- flour") (u "bread")) = PStr (u "Bread")
  /\ dict_get (key "ingredients") (heuristic_from_text (u "- flour") (u "bread"))
     = PList [PStr (u "flour")]
  /\ dict_get (key "ingredients") (heuristic_from_text [] (u "bread"))
     = PList (List.map PStr default_ingredients).
Proof.
  destruct heuristic_from_text_populated as (H1 & H2 & _).
  split; [|split].
  - rewrite (H2 (u "- flour") (u "bread"));
      [vm_compute; reflexivity | reflexivity | vm_compute; discriminate].
  - pose proof (H1 (u "- flour") (u "bread")) as H. cbv zeta in H.
    destruct H as [Hi _]. rewrite Hi. vm_compute. reflexivity.
  - pose proof (H1 [] (u "bread")) as H. cbv zeta in H.
    destruct H as [Hi [_ [_ [_ [_ [_ [_ [Hd _]]]]]]]].
    rewrite Hi. destruct (Hd eq_refl) as [-> _]. reflexivity.
Defined.

(** ** Finalisation *)

Lemma py_dict_of_record d :
  (if truthy (PDict d) then py_dict (PDict d) else Some []) = Some d.
Proof. destruct d; reflexivity. Qed.

(** The result of a finalisation that did not raise: the six fields are
    set, in this order, on a copy of the input. *)
Lemma sanitize_recipe_data_shape data idea out :
  sanitize_recipe_data data idea = Some out ->
  exists out0 t d sv tm ing steps,
    (if truthy data then py_dict data else Some []) = Some out0
    /\ (t <> []) /\ (d <> []) /\ (ing <> []) /\ (steps <> [])
    /\ (t = idea_title idea \/
        exists raw, clean_value (dict_get (key "title") out0) = Some raw
                    /\ t = strip raw /\ weak title_placeholders t = false)
    /\ out = dict_set (key "steps") (str_list steps)
            (dict_set (key "ingredients") (str_list ing)
            (dict_set (key "time_minutes") (PInt tm)
            (dict_set (key "servings") (PInt sv)
            (dict_set (key "description") (PStr d)
            (dict_set (key "title") (PStr t) out0))))).
Proof.
  unfold sanitize_recipe_data.
  destruct (if truthy data then py_dict data else Some []) as [out0|]; [|discriminate].
  destruct (clean_value (dict_get (key "title") out0)) as [t|] eqn:Et; [|discriminate].
  destruct (clean_value (dict_get (key "description") out0)) as [d|]; [|discriminate].
  destruct (plainify_all _plainify_ingredient _) as [ing|]; [|discriminate].
  destruct (plainify_all _ (_coerce_list (dict_get (key "steps") out0))) as [steps|];
    [|discriminate].
  intros H. injection H as <-.
  eexists out0, _, _, _, _, _, _. split; [reflexivity|].
  repeat split.
  - destruct (weak title_placeholders (strip t)) eqn:W.
    + unfold idea_title. destruct (strip idea); [vm_compute; discriminate|].
      apply title_nonempty.
    + unfold weak in W. destruct (strip t); [discriminate W | discriminate].
  - destruct (weak description_placeholders (strip d)) eqn:W.
    + unfold idea_description. destruct (strip idea) as [|c s]; [vm_compute; discriminate|].
      destruct (capitalize (c :: s)); discriminate.
    + unfold weak in W. destruct (strip d); [discriminate W | discriminate].
  - destruct ing; [vm_compute|]; discriminate.
  - destruct steps; [vm_compute|]; discriminate.
  - destruct (weak title_placeholders (strip t)) eqn:W; [left; reflexivity|].
    right. exists t. split; [exact Et | split; [reflexivity | exact W]].
Qed.

(** C10.  Finalising a draft mapping leaves every key other than the six
    recipe fields with the value it had. *)
Theorem sanitize_recipe_data_frame :
  forall (d : dict) (idea : str) (out : dict) (k : pyval),
    sanitize_recipe_data (PDict d) idea = Some out ->
    (forall f, In f recipe_fields -> key_eqb (key f) k = false) ->
    dict_lookup k out = dict_lookup k d.
Proof.
  intros d idea out k H Hk.
  apply sanitize_recipe_data_shape in H.
  destruct H as (out0 & t & ds & sv & tm & ing & steps & H0 & _ & _ & _ & _ & _ & ->).
  rewrite py_dict_of_record in H0. injection H0 as <-.
  unfold key in *.
  rewrite !dict_lookup_set_other; [reflexivity | apply Hk ..]; simpl; tauto.
Qed.

Lemma sanitize_recipe_data_frame_witness :
  match sanitize_recipe_data
          (PDict [(key "cuisine", PStr (u "thai")); (key "title", PStr (u "Curry"))])
          (u "curry") with
  | Some out =>
      dict_lookup (key "cuisine") out
      = dict_lookup (key "cuisine")
          [(key "cuisine", PStr (u "thai")); (key "title", PStr (u "Curry"))]
  | None => False
  end.
Proof.
  destruct (sanitize_recipe_data _ _) as [out|] eqn:E.
  - apply (sanitize_recipe_data_frame _ _ _ _ E).
    intros f Hf. simpl in Hf.
    destruct Hf as [<-|[<-|[<-|[<-|[<-|[<-|[]]]]]]]; vm_compute; reflexivity.
  - vm_compute in E. discriminate E.
Defined.

(** ** Soundness of the matcher *)

Lemma star_greedy_sound p k res :
  forall rest prev cs,
    star_greedy p prev rest cs k = Some res ->
    exists x r', rest = x ++ r' /\ forallb p x = true
                 /\ k (rev x ++ prev) r' cs = Some res.
Proof.
  induction rest as [|c t IH]; intros prev cs H; simpl in H.
  - exists [], []. auto.
  - destruct (p c) eqn:Hc; [|exists [], (c :: t); auto].
    destruct (star_greedy p (c :: prev) t cs k) as [m|] eqn:E.
    + injection H as <-. destruct (IH _ _ E) as (x & r' & -> & Hx & Hk).
      exists (c :: x), r'. simpl. rewrite Hc, Hx, <- List.app_assoc. auto.
    + exists [], (c :: t). auto.
Qed.

Lemma star_lazy_sound p k res :
  forall rest prev cs,
    star_lazy p prev rest cs k = Some res ->
    exists x r', rest = x ++ r' /\ forallb p x = true
                 /\ k (rev x ++ prev) r' cs = Some res.
Proof.
  induction rest as [|c t IH]; intros prev cs H; simpl in H.
  - destruct (k prev [] cs) eqn:E; [|discriminate].
    exists [], []. injection H as <-. auto.
  - destruct (k prev (c :: t) cs) eqn:E.
    + injection H as <-. exists [], (c :: t). auto.
    + destruct (p c) eqn:Hc; [|discriminate].
      destruct (IH _ _ H) as (x & r' & -> & Hx & Hk).
      exists (c :: x), r'. simpl. rewrite Hc, Hx, <- List.app_assoc. auto.
Qed.

(** Soundness of the matcher: a successful run hands its continuation a
    split of the text that the pattern accepts. *)
Lemma rmatch_sound r :
  forall prev rest cs k res,
    rmatch r prev rest cs k = Some res ->
    exists x r' cs',
      rest = x ++ r' /\ matches r prev x r' cs cs'
      /\ k (rev x ++ prev) r' cs' = Some res.
Proof.
  induction r as [| p | a IHa b IHb | a IHa b IHb | p | p | n a IHa | | | | p];
    intros prev rest cs k res H; cbn [rmatch] in H.
  - exists [], rest, cs. repeat split; [constructor | exact H].
  - destruct rest as [|c t]; [discriminate|].
    destruct (p c) eqn:Hc; [|discriminate].
    exists [c], t, cs. repeat split; [constructor; exact Hc | exact H].
  - destruct (IHa _ _ _ _ _ H) as (x & r1 & cs1 & -> & Ma & H1).
    destruct (IHb _ _ _ _ _ H1) as (y & r2 & cs2 & -> & Mb & H2).
    exists (x ++ y), r2, cs2. rewrite rev_app_distr, <- !List.app_assoc.
    repeat split; [econstructor; eassumption | exact H2].
  - destruct (rmatch a prev rest cs k) as [m|] eqn:E.
    + injection H as <-. destruct (IHa _ _ _ _ _ E) as (x & r1 & cs1 & -> & Ma & H1).
      exists x, r1, cs1. repeat split; [apply M_AltL; exact Ma | exact H1].
    + destruct (IHb _ _ _ _ _ H) as (x & r1 & cs1 & -> & Mb & H1).
      exists x, r1, cs1. repeat split; [apply M_AltR; exact Mb | exact H1].
  - destruct (star_greedy_sound _ _ _ _ _ _ H) as (x & r' & -> & Hx & Hk).
    exists x, r', cs. repeat split; [constructor; exact Hx | exact Hk].
  - destruct (star_lazy_sound _ _ _ _ _ _ H) as (x & r' & -> & Hx & Hk).
    exists x, r', cs. repeat split; [constructor; exact Hx | exact Hk].
  - destruct (IHa _ _ _ _ _ H) as (x & r1 & cs1 & -> & Ma & H1).
    cbv beta in H1.
    replace (rev (firstn (length (rev x ++ prev) - length prev) (rev x ++ prev)))
      with x in H1 by (rewrite firstn_app_len, rev_involutive; reflexivity).
    exists x, r1, (set_cap n x cs1). repeat split; [constructor; exact Ma | exact H1].
  - destruct prev; [|discriminate].
    exists [], rest, cs. repeat split; [constructor | exact H].
  - destruct rest; [|discriminate].
    exists [], [], cs. repeat split; [constructor | exact H].
  - destruct (xorb (at_word prev) (at_word rest)) eqn:E; [|discriminate].
    exists [], rest, cs. repeat split; [constructor; exact E | exact H].
  - exists [], rest, cs. destruct prev as [|c prev'];
      [repeat split; [constructor; exact I | exact H]|].
    destruct (p c) eqn:E; [discriminate|].
    repeat split; [constructor; exact E | exact H].
Qed.

Lemma matches_no_grp r prev x rest cs cs' :
  matches r prev x rest cs cs' -> no_grp r = true -> cs' = cs.
Proof.
  induction 1; cbn [no_grp]; intros Hn; try reflexivity; try discriminate.
  - apply andb_true_iff in Hn. destruct Hn as [Ha Hb].
    rewrite IHmatches2, IHmatches1 by assumption. reflexivity.
  - apply andb_true_iff in Hn. destruct Hn as [Ha Hb]. auto.
  - apply andb_true_iff in Hn. destruct Hn as [Ha Hb]. auto.
Qed.

Lemma get_set_cap n v cs : get_cap n (set_cap n v cs) = Some v.
Proof.
  induction cs as [|[m w] t IH]; cbn [set_cap get_cap].
  - rewrite Nat.eqb_refl. reflexivity.
  - destruct (Nat.eqb m n) eqn:E; cbn [get_cap];
      [rewrite Nat.eqb_refl; reflexivity | rewrite E; exact IH].
Qed.

(** After the braced group and a group-free remainder, group 1 holds a
    text that starts with an opening brace. *)
Lemma matches_braced post prev x rest cs cs' :
  no_grp post = true ->
  matches (Seq braced post) prev x rest cs cs' ->
  exists t, get_cap 1 cs' = Some (123 :: t).
Proof.
  intros Hn H. inversion H as [| | a b p0 x1 y r0 c1 c2 c3 Ma Mb | | | | | | | | |]; subst.
  apply (matches_no_grp _ _ _ _ _ _ Mb) in Hn. subst cs'.
  unfold braced in Ma.
  inversion Ma as [| | | | | | | n a p1 x2 r1 c4 c5 Mi | | | |]; subst.
  cbn [seqs] in Mi.
  inversion Mi as [| | a b p2 x3 y3 r2 d1 d2 d3 Mc Mr | | | | | | | | |]; subst.
  inversion Mc as [| p c p3 r3 d4 Hc | | | | | | | | | |]; subst.
  unfold ch_eqb in Hc. apply N.eqb_eq in Hc. subst c.
  eexists. rewrite get_set_cap. reflexivity.
Qed.

Lemma matches_skip a r prev x rest cs cs' :
  no_grp a = true ->
  matches (Seq a r) prev x rest cs cs' ->
  exists prev' x' , matches r prev' x' rest cs cs'.
Proof.
  intros Hn H. inversion H as [| | a0 b p0 x1 y r0 c1 c2 c3 Ma Mb | | | | | | | | |]; subst.
  apply (matches_no_grp _ _ _ _ _ _ Ma) in Hn. subst. eauto.
Qed.

Lemma search_go_found r :
  forall rest prev m,
    search_go r prev rest = Some m -> exists prev' rest', match_here r prev' rest' = Some m.
Proof.
  induction rest as [|c t IH]; intros prev m H; cbn [search_go] in H.
  - destruct (match_here r prev []) eqn:E; [|discriminate]. injection H as <-. eauto.
  - destruct (match_here r prev (c :: t)) eqn:E; [injection H as <-; eauto|].
    apply IH in H. exact H.
Qed.

Lemma match_here_matches r prev rest m :
  match_here r prev rest = Some m ->
  exists x r', matches r prev x r' [] (m_caps m).
Proof.
  unfold match_here. intros H.
  destruct (rmatch r prev rest [] ret) as [[[p' r'] cs]|] eqn:E; [|discriminate].
  injection H as <-. cbn [m_caps].
  destruct (rmatch_sound _ _ _ _ _ _ E) as (x & r1 & cs1 & _ & M & Hk).
  unfold ret in Hk. injection Hk as _ _ <-. eauto.
Qed.

Lemma fenced_json_group text m :
  re_search FENCED_JSON_RE text = Some m -> exists t, group 1 m = 123 :: t.
Proof.
  intros H. apply search_go_found in H. destruct H as (prev & rest & H).
  apply match_here_matches in H. destruct H as (x & r' & M).
  unfold FENCED_JSON_RE in M. cbn [seqs] in M.
  apply matches_skip in M; [|reflexivity]. destruct M as (p1 & x1 & M).
  apply matches_skip in M; [|reflexivity]. destruct M as (p2 & x2 & M).
  apply matches_skip in M; [|reflexivity]. destruct M as (p3 & x3 & M).
  apply matches_braced in M; [|reflexivity]. destruct M as [t Ht].
  exists t. unfold group. rewrite Ht. reflexivity.
Qed.

Lemma fenced_group text m :
  re_search FENCED_RE text = Some m -> exists t, group 1 m = 123 :: t.
Proof.
  intros H. apply search_go_found in H. destruct H as (prev & rest & H).
  apply match_here_matches in H. destruct H as (x & r' & M).
  unfold FENCED_RE in M. cbn [seqs] in M.
  apply matches_skip in M; [|reflexivity]. destruct M as (p1 & x1 & M).
  apply matches_skip in M; [|reflexivity]. destruct M as (p2 & x2 & M).
  apply matches_braced in M; [|reflexivity]. destruct M as [t Ht].
  exists t. unfold group. rewrite Ht. reflexivity.
Qed.

(** A text that starts with an opening brace decodes to a record or not
    at all. *)
Lemma json_loads_brace t v : json_loads (123 :: t) = Some v -> is_record v = true.
Proof.
  unfold json_loads. change (skip_ws (123 :: t)) with (123 :: t).
  cbn [scan_once]. change (123 =? 34) with false. change (123 =? 123) with true.
  cbv iota.
  destruct (scan_object _ t) as [[d r]|]; [|discriminate].
  destruct (skip_ws r); [|discriminate].
  intros H. injection H as <-. reflexivity.
Qed.

Lemma loads_group_record R text v :
  (forall m, re_search R text = Some m -> exists t, group 1 m = 123 :: t) ->
  loads_group (re_search R text) = Some v -> is_record v = true.
Proof.
  intros HR. destruct (re_search R text) as [m|]; [|discriminate].
  destruct (HR m eq_refl) as [t Ht]. cbn [loads_group]. rewrite Ht.
  apply json_loads_brace.
Qed.

Lemma try_chunks_record n t v :
  try_chunks n (123 :: t) = Some v -> is_record v = true.
Proof.
  induction n as [|n IH]; cbn [try_chunks]; [discriminate|].
  cbn [firstn].
  destruct (json_loads (123 :: firstn n t)) as [w|] eqn:E.
  - intros H. injection H as <-. exact (json_loads_brace _ _ E).
  - exact IH.
Qed.

Lemma scan_braces_record text v : scan_braces text = Some v -> is_record v = true.
Proof.
  induction text as [|c t IH]; cbn [scan_braces]; [discriminate|].
  destruct (N.eqb_spec c 123) as [->|_]; [|exact IH].
  destruct (try_chunks (length (123 :: t)) (123 :: t)) as [w|] eqn:E.
  - intros H. injection H as <-. exact (try_chunks_record _ _ _ E).
  - exact IH.
Qed.

(** C7, amended.  The extractor returns the value of the first of its
    four attempts that parses and null when none does; it is a total
    function, every parse failure only moving on to the next attempt.  What
    the two fenced attempts and the brace scan find is always a record;
    the direct parse of the whole text may yield any JSON value.  The
    result is null exactly when all four attempts fail or the first three
    fail and the text itself is the JSON null. *)
Theorem extract_json_block_attempts :
  forall text : str,
    (forall v, attempt_fenced_json text = Some v \/ attempt_fenced text = Some v
               \/ attempt_scan text = Some v -> is_record v = true)
    /\ extract_json_block text =
       match attempt_fenced_json text, attempt_fenced text,
             attempt_scan text, attempt_direct text with
       | Some v, _, _, _ => v
       | None, Some v, _, _ => v
       | None, None, Some v, _ => v
       | None, None, None, Some v => v
       | None, None, None, None => PNone
       end
    /\ (extract_json_block text = PNone <->
        attempt_fenced_json text = None /\ attempt_fenced text = None
        /\ attempt_scan text = None
        /\ (attempt_direct text = None \/ attempt_direct text = Some PNone)).
Proof.
  intros text.
  assert (H1 : forall v, attempt_fenced_json text = Some v -> is_record v = true)
    by (intros v; apply loads_group_record, fenced_json_group).
  assert (H2 : forall v, attempt_fenced text = Some v -> is_record v = true)
    by (intros v; apply loads_group_record, fenced_group).
  assert (H3 : forall v, attempt_scan text = Some v -> is_record v = true)
    by (intros v; apply scan_braces_record).
  assert (HE : extract_json_block text =
       match attempt_fenced_json text, attempt_fenced text,
             attempt_scan text, attempt_direct text with
       | Some v, _, _, _ => v
       | None, Some v, _, _ => v
       | None, None, Some v, _ => v
       | None, None, None, Some v => v
       | None, None, None, None => PNone
       end).
  { destruct text as [|c t]; [vm_compute; reflexivity|].
    unfold extract_json_block.
    destruct (attempt_fenced_json (c :: t)); [reflexivity|].
    destruct (attempt_fenced (c :: t)); [reflexivity|].
    destruct (attempt_scan (c :: t)); [reflexivity|].
    destruct (attempt_direct (c :: t)); reflexivity. }
  split; [|split; [exact HE|]].
  - intros v [H|[H|H]]; eauto.
  - rewrite HE.
    destruct (attempt_fenced_json text) as [v1|] eqn:E1.
    { split; [intros ->; specialize (H1 _ eq_refl); discriminate H1
             | intros [H _]; discriminate H]. }
    destruct (attempt_fenced text) as [v2|] eqn:E2.
    { split; [intros ->; specialize (H2 _ eq_refl); discriminate H2
             | intros (_ & H & _); discriminate H]. }
    destruct (attempt_scan text) as [v3|] eqn:E3.
    { split; [intros ->; specialize (H3 _ eq_refl); discriminate H3
             | intros (_ & _ & H & _); discriminate H]. }
    destruct (attempt_direct text) as [v4|] eqn:E4.
    + split; [intros ->; auto | intros (_ & _ & _ & [H|H]); congruence].
    + split; auto.
Qed.

Lemma extract_json_block_attempts_witness :
  attempt_scan (u "{}") = Some (PDict [])
  /\ is_record (PDict []) = true
  /\ extract_json_block (u "null") = PNone.
Proof.
  assert (Hs : attempt_scan (u "{}") = Some (PDict [])) by (vm_compute; reflexivity).
  split; [exact Hs | split].
  - destruct (extract_json_block_attempts (u "{}")) as [H _].
    apply H. right. right. exact Hs.
  - destruct (extract_json_block_attempts (u "null")) as (_ & _ & H).
    apply H. repeat split; try (vm_compute; reflexivity).
    right. vm_compute. reflexivity.
Defined.

(** ** Generation *)

Lemma is_space_bound c : is_space c = true -> c <= 32 \/ 133 <= c.
Proof.
  unfold is_space, in_range, mem_ch, ch_eqb. cbn [existsb].
  rewrite !orb_true_iff, !andb_true_iff, !N.leb_le, !N.eqb_eq. lia.
Qed.

Lemma no_blank_head s : no_blank s = true -> at_space s = false.
Proof.
  destruct s as [|c t]; [reflexivity|]. unfold no_blank. cbn [forallb at_space].
  intros H. apply andb_true_iff in H. destruct H as [H _]. apply negb_true_iff, H.
Qed.

Lemma at_space_app a b : a <> [] -> at_space (a ++ b) = at_space a.
Proof. destruct a; [congruence | reflexivity]. Qed.

Lemma title_head c t : is_space c = false -> at_space (title (c :: t)) = false.
Proof.
  intros Hc. unfold title. cbn [title_go].
  destruct (to_title_full_shape c) as [Hne Hb].
  rewrite at_space_app by exact Hne. apply no_blank_head, Hb, Hc.
Qed.

Lemma lstrip_snoc_not_space p l c :
  p c = false -> lstrip_by p (l ++ [c]) <> [].
Proof.
  intros Hc. induction l as [|x l IH]; simpl.
  - rewrite Hc. discriminate.
  - destruct (p x); [exact IH | discriminate].
Qed.

Lemma strip_nonempty s : at_space s = false -> s <> [] -> strip s <> [].
Proof.
  intros Ha Hne. unfold strip, strip_by. rewrite lstrip_not_at_space by exact Ha.
  destruct s as [|c t]; [congruence|]. unfold rstrip_by. cbn [rev].
  intros H. apply (f_equal (@rev N)) in H. rewrite rev_involutive in H.
  exact (lstrip_snoc_not_space is_space (rev t) c Ha H).
Qed.

Lemma idea_title_strips idea : strip (idea_title idea) <> [].
Proof.
  unfold idea_title. destruct (strip idea) as [|c t] eqn:E; [vm_compute; discriminate|].
  apply strip_nonempty; [|apply title_nonempty].
  pose proof (strip_stripped idea) as [Ha _]. rewrite E in Ha.
  apply title_head, Ha.
Qed.

(** The fields of a finalised record. *)
Lemma sanitize_recipe_data_fields data idea out :
  sanitize_recipe_data data idea = Some out ->
  exists t d sv tm ing steps,
    dict_lookup (key "title") out = Some (PStr t)
    /\ dict_get (key "description") out = PStr d
    /\ dict_get (key "servings") out = PInt sv
    /\ dict_get (key "time_minutes") out = PInt tm
    /\ dict_get (key "ingredients") out = str_list ing
    /\ dict_get (key "steps") out = str_list steps
    /\ t <> [] /\ strip t <> [] /\ d <> [] /\ ing <> [] /\ steps <> [].
Proof.
  intros H. apply sanitize_recipe_data_shape in H.
  destruct H as (out0 & t & d & sv & tm & ing & steps & _ & Ht & Hd & Hi & Hs & Hor & ->).
  exists t, d, sv, tm, ing, steps. unfold key.
  repeat split; try assumption;
    try (rewrite ?dict_get_set_same, ?dict_get_set_other by reflexivity;
         try rewrite dict_get_set_same; reflexivity).
  - rewrite !dict_lookup_set_other by reflexivity. apply dict_lookup_set_same.
  - destruct Hor as [->|(raw & _ & -> & _)]; [apply idea_title_strips|].
    rewrite (stripped_strip _ (strip_stripped raw)). exact Ht.
Qed.

Lemma is_text_list_str_list l : l <> [] -> is_text_list (str_list l) = true.
Proof.
  destruct l as [|x l]; [congruence|]. intros _. unfold str_list. cbn [List.map is_text_list].
  cbn [forallb is_str andb]. induction l; [reflexivity | exact IHl].
Qed.

Lemma unique_title_nonempty seen t :
  t <> [] -> strip t <> [] -> fst (_unique_title seen t) <> [].
Proof.
  intros Hne Hs. unfold _unique_title. destruct t as [|c t']; [congruence|].
  destruct (default 0 (seen !! lower (strip (c :: t'))) =? 0); cbn [fst]; [exact Hs|].
  destruct (strip (c :: t')); [congruence | discriminate].
Qed.

(** Re-titling a finalised record keeps it well-formed. *)
Lemma retitle_valid seen data idea t :
  sanitize_recipe_data data idea = Some t ->
  forall v, (v = py_or (dict_get (key "title") t) (PStr default_title)
             \/ dict_lookup (key "title") t = Some v) ->
  exists d seen', retitle seen t v = Some (d, seen') /\ valid_recipe d = true.
Proof.
  intros H v Hv. apply sanitize_recipe_data_fields in H.
  destruct H as (tt & ds & sv & tm & ing & steps & H1 & H2 & H3 & H4 & H5 & H6
                 & Ht & Hst & Hd & Hi & Hs).
  assert (Ev : v = PStr tt).
  { destruct Hv as [->| Hv]; [|congruence].
    unfold dict_get. rewrite H1. destruct tt; [congruence | reflexivity]. }
  subst v. cbn [retitle].
  destruct (_unique_title seen tt) as [s' seen'] eqn:E.
  eexists _, _. split; [reflexivity|].
  pose proof (unique_title_nonempty seen tt Ht Hst) as Hn. rewrite E in Hn. cbn [fst] in Hn.
  unfold valid_recipe, key in *.
  rewrite dict_get_set_same, !dict_get_set_other by reflexivity.
  rewrite H2, H3, H4, H5, H6, !is_text_list_str_list by assumption.
  destruct s'; [congruence|]. destruct ds; [congruence | reflexivity].
Qed.

Lemma plainify_all_total f l :
  (forall x, f x <> None) -> plainify_all f l <> None.
Proof.
  intros Hf. induction l as [|x l IH]; cbn [plainify_all]; [discriminate|].
  destruct (nonempty (strip (py_str x))); [|exact IH].
  destruct (f x) eqn:E; [|destruct (Hf x E)].
  destruct (plainify_all f l); [discriminate | exact IH].
Qed.

Lemma plainify_all_texts l :
  plainify_all _plainify_ingredient (List.map PStr l) <> None.
Proof.
  induction l as [|x l IH]; cbn [plainify_all List.map]; [discriminate|].
  destruct (nonempty (strip (py_str (PStr x)))); [|exact IH].
  cbn [_plainify_ingredient].
  destruct (plainify_all _plainify_ingredient (List.map PStr l)); [discriminate | exact IH].
Qed.

(** Finalising what the prose extractor returns never raises. *)
Lemma sanitize_heuristic_total text idea :
  sanitize_recipe_data (PDict (heuristic_from_text text idea)) idea <> None.
Proof.
  unfold sanitize_recipe_data.
  change (truthy (PDict (heuristic_from_text text idea))) with true. cbv iota.
  cbn [py_dict].
  change (dict_get (key "title") (heuristic_from_text text idea))
    with (PStr (idea_title idea)).
  change (dict_get (key "description") (heuristic_from_text text idea))
    with (PStr (idea_description idea)).
  change (dict_get (key "ingredients") (heuristic_from_text text idea))
    with (str_list (or_default (collect_ingredients (replace_ch 8226 45 text))
                      default_ingredients)).
  change (dict_get (key "steps") (heuristic_from_text text idea))
    with (str_list (or_default (collect_steps (replace_ch 8226 45 text)) default_steps)).
  assert (Hc : forall s, clean_value (PStr s) = Some (_clean_text s))
    by (intros [|c s]; reflexivity).
  rewrite !Hc. cbn [_coerce_list str_list].
  destruct (plainify_all _plainify_ingredient _) eqn:E1;
    [|destruct (plainify_all_texts _ E1)].
  destruct (plainify_all (fun x => Some (_plainify_step x)) _) eqn:E2;
    [discriminate|].
  refine (match plainify_all_total _ _ _ E2 with end).
  intros x. discriminate.
Qed.

(** *** Case mapping keeps blanks *)

Lemma at_space_map s : at_space s = hd false (List.map is_space s).
Proof. destruct s; reflexivity. Qed.

Lemma rstrip_fix_iff x : rstrip_by is_space x = x <-> at_space (rev x) = false.
Proof.
  unfold rstrip_by. split; intros H.
  - apply (f_equal (@rev N)) in H. rewrite rev_involutive in H.
    rewrite <- H. apply at_space_lstrip.
  - rewrite lstrip_not_at_space by exact H. apply rev_involutive.
Qed.

Lemma no_blank_rev s : no_blank (rev s) = no_blank s.
Proof.
  unfold no_blank. induction s as [|c t IH]; [reflexivity|].
  cbn [rev forallb]. rewrite forallb_app, IH. cbn [forallb].
  rewrite andb_true_r. apply andb_comm.
Qed.

Lemma title_stripped s : stripped s -> stripped (title s).
Proof.
  intros [H1 H2]. apply rstrip_fix_iff in H2. split.
  - destruct s as [|c t]; [reflexivity|]. apply title_head, H1.
  - apply rstrip_fix_iff. destruct (rev s) as [|c r] eqn:E.
    + apply (f_equal (@rev N)) in E. rewrite rev_involutive in E. subst s. reflexivity.
    + assert (Es : s = rev r ++ [c])
        by (rewrite <- (rev_involutive s), E; reflexivity).
      cbn [at_space] in H2. unfold title. rewrite Es.
      destruct (title_go_snoc (rev r) c false []) as (x & piece & -> & Hne & Hb).
      rewrite rev_app_distr, at_space_app.
      * apply no_blank_head. rewrite no_blank_rev. apply Hb, H2.
      * intros H. apply Hne. apply (f_equal (@rev N)) in H.
        rewrite rev_involutive in H. exact H.
Qed.

Lemma idea_title_stripped idea : strip (idea_title idea) = idea_title idea.
Proof.
  unfold idea_title. destruct (strip idea) as [|c t] eqn:E; [vm_compute; reflexivity|].
  apply stripped_strip, title_stripped. rewrite <- E. apply strip_stripped.
Qed.

(** *** Titles and descriptions that are no placeholder *)

Lemma suffixed_not_weak base n :
  weak title_placeholders (base ++ version_suffix n) = false.
Proof.
  unfold version_suffix. change (u ")") with [41].
  rewrite !List.app_assoc.
  set (x := (base ++ u " (v") ++ N_to_str n).
  unfold weak. apply orb_false_iff. split.
  - destruct x; reflexivity.
  - unfold lower. destruct (lower_go_snoc x 41 []) as (y & b & ->).
    change (lower_at b 41 []) with [41].
    cbn [title_placeholders existsb]. rewrite orb_false_r. apply orb_false_iff.
    split; (destruct (str_eqb _ _) eqn:E; [|reflexivity]);
      apply str_eqb_eq in E;
      apply (f_equal (@rev N)) in E; rewrite rev_app_distr in E;
      vm_compute in E; discriminate E.
Qed.

Lemma idea_description_not_weak idea :
  weak description_placeholders (idea_description idea) = false.
Proof.
  unfold idea_description.
  destruct (strip idea) as [|c t]; [vm_compute; reflexivity|].
  set (x := capitalize (c :: t)).
  unfold weak. apply orb_false_iff. split.
  - destruct x; reflexivity.
  - cbn [description_placeholders existsb]. rewrite orb_false_r. apply orb_false_iff.
    split; (destruct (str_eqb _ _) eqn:E; [|reflexivity]);
      apply str_eqb_eq in E; apply (f_equal (@length N)) in E;
      pose proof (length_lower_go (x ++ u " turned into a balanced, easy-to-cook recipe.") [])
        as L;
      unfold lower in E; rewrite E, length_app in L; clearbody x;
      repeat match type of L with
             | context [length (u ?lit)] =>
                 let n := eval vm_compute in (length (u lit)) in
                 change (length (u lit)) with n in L
             end;
      lia.
Qed.

Lemma sanitize_recipe_data_texts data idea out :
  sanitize_recipe_data data idea = Some out ->
  exists t d,
    dict_lookup (key "title") out = Some (PStr t)
    /\ dict_get (key "description") out = PStr d
    /\ strip t = t
    /\ (weak title_placeholders t = false \/ t = idea_title idea)
    /\ weak description_placeholders d = false.
Proof.
  unfold sanitize_recipe_data.
  destruct (if truthy data then py_dict data else Some []) as [out0|]; [|discriminate].
  destruct (clean_value (dict_get (key "title") out0)) as [t|]; [|discriminate].
  destruct (clean_value (dict_get (key "description") out0)) as [d|]; [|discriminate].
  destruct (plainify_all _plainify_ingredient _) as [ing|]; [|discriminate].
  destruct (plainify_all _ (_coerce_list (dict_get (key "steps") out0))) as [steps|];
    [|discriminate].
  intros H. injection H as <-. unfold key.
  eexists _, _.
  split; [rewrite !dict_lookup_set_other by reflexivity; apply dict_lookup_set_same|].
  split; [rewrite !dict_get_set_other by reflexivity; apply dict_get_set_same|].
  split; [|split].
  - destruct (weak title_placeholders (strip t));
      [apply idea_title_stripped | apply stripped_strip, strip_stripped].
  - destruct (weak title_placeholders (strip t)) eqn:W; [right | left]; auto.
  - destruct (weak description_placeholders (strip d)) eqn:W;
      [apply idea_description_not_weak | exact W].
Qed.

Lemma unique_title_shape seen t :
  t <> [] ->
  fst (_unique_title seen t) = strip t
  \/ exists n, fst (_unique_title seen t) = strip t ++ version_suffix n.
Proof.
  intros Hne. unfold _unique_title. destruct t as [|c t']; [congruence|].
  destruct (default 0 (seen !! lower (strip (c :: t'))) =? 0); cbn [fst];
    [left; reflexivity | right; eexists; reflexivity].
Qed.

(** Re-titling a finalised record keeps it well-formed and free of
    placeholder phrases, except for a title that the idea itself makes
    one. *)
Lemma retitle_sound seen data idea t :
  sanitize_recipe_data data idea = Some t ->
  forall v, (v = py_or (dict_get (key "title") t) (PStr default_title)
             \/ dict_lookup (key "title") t = Some v) ->
  exists d seen',
    retitle seen t v = Some (d, seen')
    /\ valid_recipe d = true
    /\ description_ok d = true
    /\ (title_ok d = true \/ weak title_placeholders (idea_title idea) = true).
Proof.
  intros H v Hv.
  destruct (retitle_valid seen data idea t H v Hv) as (d & seen' & Hr & Hvalid).
  exists d, seen'. split; [exact Hr | split; [exact Hvalid|]].
  pose proof (sanitize_recipe_data_fields _ _ _ H)
    as (tt & ? & ? & ? & ? & ? & H1 & _ & _ & _ & _ & _ & Hne & _).
  destruct (sanitize_recipe_data_texts _ _ _ H) as (t2 & ds & H1' & H2 & Hs & Ht & Hd).
  assert (t2 = tt) by congruence. subst t2.
  assert (Ev : v = PStr tt).
  { destruct Hv as [->| Hv]; [|congruence].
    unfold dict_get. rewrite H1. destruct tt; [congruence | reflexivity]. }
  subst v. cbn [retitle] in Hr.
  pose proof (unique_title_shape seen tt Hne) as Hsh.
  destruct (_unique_title seen tt) as [s' seen''] eqn:E. cbn [fst] in Hsh.
  injection Hr as <- <-. unfold title_ok, description_ok, key in *.
  rewrite dict_get_set_same, dict_get_set_other by reflexivity. rewrite H2, Hd.
  split; [reflexivity|]. rewrite Hs in Hsh.
  destruct Hsh as [->|[n ->]]; [|left; rewrite suffixed_not_weak; reflexivity].
  destruct Ht as [Ht| ->]; [left; rewrite Ht; reflexivity|].
  destruct (weak title_placeholders (idea_title idea)); [right | left]; reflexivity.
Qed.

Lemma recover_sound seen idea :
  exists d seen',
    recover seen idea = Some (d, seen')
    /\ valid_recipe d = true
    /\ description_ok d = true
    /\ (title_ok d = true \/ weak title_placeholders (idea_title idea) = true).
Proof.
  unfold recover.
  destruct (sanitize_recipe_data (PDict (heuristic_from_text [] idea)) idea) as [data|] eqn:E;
    [|destruct (sanitize_heuristic_total _ _ E)].
  destruct (sanitize_recipe_data_fields _ _ _ E) as (tt & ? & ? & ? & ? & ? & H1 & _).
  rewrite H1. apply (retitle_sound seen _ idea data E). right. exact H1.
Qed.

(** C4, amended.  Whatever the idea and whatever the transport does on
    each request, generation hands the display layer a record and no
    exception leaves it; the record has a non-empty text title and
    description, integer servings and time, and non-empty lists of text
    for ingredients and steps; its description is no placeholder phrase,
    and its title is one only when the title made from the idea itself
    is one. *)
Theorem generate_total :
  forall (net : transport) (seen : registry) (idea : str),
    exists d seen',
      _generate_and_render net seen idea = Some (d, seen')
      /\ valid_recipe d = true
      /\ description_ok d = true
      /\ (title_ok d = true \/ weak title_placeholders (idea_title idea) = true).
Proof.
  intros net seen idea. unfold _generate_and_render.
  destruct (sanitize_recipe_data (_call_model net idea) idea) as [data|] eqn:E;
    [|apply recover_sound].
  destruct (retitle_sound seen _ idea data E _ (or_introl eq_refl))
    as (d & seen' & -> & Hv).
  exists d, seen'. split; [reflexivity | exact Hv].
Qed.

(** C4, as stated, fails: when the idea itself is a placeholder phrase,
    the title made from it is one too. *)
Lemma generate_can_show_placeholder :
  ~ (forall (net : transport) (seen : registry) (idea : str),
       exists d seen',
         _generate_and_render net seen idea = Some (d, seen')
         /\ valid_recipe d = true /\ no_placeholders d = true).
Proof.
  intros H. destruct (H (fun _ _ => None) ∅ (u "recipe")) as (d & seen' & E & _ & Hp).
  vm_compute in E. injection E as <- _. vm_compute in Hp. discriminate Hp.
Qed.

(** * Properties of the single functions *)

(** ** Inversion of the matching relation *)

Lemma match_here_split r prev rest m :
  match_here r prev rest = Some m ->
  exists x r', rest = x ++ r' /\ matches r prev x r' [] (m_caps m).
Proof.
  unfold match_here. intros H.
  destruct (rmatch r prev rest [] ret) as [[[p' r'] cs]|] eqn:E; [|discriminate].
  injection H as <-. cbn [m_caps].
  destruct (rmatch_sound _ _ _ _ _ _ E) as (x & r1 & cs1 & Hx & M & Hk).
  unfold ret in Hk. injection Hk as _ _ <-. eauto.
Qed.

Lemma matches_Seq_inv a b prev x rest cs cs' :
  matches (Seq a b) prev x rest cs cs' ->
  exists x1 x2 c2,
    x = x1 ++ x2 /\ matches a prev x1 (x2 ++ rest) cs c2
    /\ matches b (rev x1 ++ prev) x2 rest c2 cs'.
Proof. intros H. inversion H; subst. eauto 7. Qed.

Lemma matches_Cls_inv p prev x rest cs cs' :
  matches (Cls p) prev x rest cs cs' -> exists c, x = [c] /\ p c = true.
Proof. intros H. inversion H; subst. eauto. Qed.

Lemma matches_Star_inv p prev x rest cs cs' :
  matches (Star p) prev x rest cs cs' -> forallb p x = true.
Proof. intros H. inversion H; subst. assumption. Qed.

Lemma matches_Grp_inv n a prev x rest cs cs' :
  matches (Grp n a) prev x rest cs cs' -> exists c1, matches a prev x rest cs c1.
Proof. intros H. inversion H; subst. eauto. Qed.

Lemma matches_Alt_inv a b prev x rest cs cs' :
  matches (Alt a b) prev x rest cs cs' ->
  matches a prev x rest cs cs' \/ matches b prev x rest cs cs'.
Proof. intros H. inversion H; subst; auto. Qed.

Lemma matches_Bol_inv prev x rest cs cs' :
  matches Bol prev x rest cs cs' -> prev = [] /\ x = [].
Proof. intros H. inversion H; subst. auto. Qed.

(** ** Substitutions that find nothing *)

Lemma sub_go_unmatched r repl (P : char -> Prop) :
  (forall prev rest, Forall P rest -> match_here r prev rest = None) ->
  forall s prev, Forall P s -> sub_go r repl 0 prev s = s.
Proof.
  intros Hno. induction s as [|c t IH]; intros prev Hs; cbn [sub_go];
    rewrite (Hno _ _ Hs); [reflexivity|].
  rewrite IH; [reflexivity|]. inversion Hs; assumption.
Qed.

Lemma sub_go_anchored r repl :
  (forall prev rest, prev <> [] -> match_here r prev rest = None) ->
  forall s prev, prev <> [] -> sub_go r repl 0 prev s = s.
Proof.
  intros Hno. induction s as [|c t IH]; intros prev Hp; cbn [sub_go];
    rewrite (Hno _ _ Hp); [reflexivity|].
  rewrite IH; [reflexivity | discriminate].
Qed.

(** The label pattern needs a colon. *)
Lemma match_here_label_colon prev rest :
  Forall (fun c => c <> 58) rest -> match_here LABEL_RE prev rest = None.
Proof.
  intros Hs. destruct (match_here LABEL_RE prev rest) as [m|] eqn:E; [|reflexivity].
  exfalso. apply match_here_split in E. destruct E as (x & r' & -> & M).
  unfold LABEL_RE in M. cbn [seqs] in M.
  apply matches_Seq_inv in M. destruct M as (x0 & y0 & c0 & -> & _ & M).
  apply matches_Seq_inv in M. destruct M as (x1 & y1 & c1 & -> & _ & M).
  apply matches_Seq_inv in M. destruct M as (x2 & y2 & c2 & -> & _ & M).
  apply matches_Seq_inv in M. destruct M as (x3 & y3 & c3 & -> & M & _).
  apply matches_Cls_inv in M. destruct M as (c & -> & Hc).
  unfold ch_eqb in Hc. apply N.eqb_eq in Hc. subst c.
  rewrite List.Forall_forall in Hs. apply (Hs 58); [|reflexivity].
  rewrite !in_app_iff. left. right. right. right. left. left. reflexivity.
Qed.

(** The marker pattern matches at the start of the text only. *)
Lemma match_here_marker_anchored prev rest :
  prev <> [] -> match_here MARKER_RE prev rest = None.
Proof.
  intros Hp. destruct (match_here MARKER_RE prev rest) as [m|] eqn:E; [|reflexivity].
  exfalso. apply match_here_split in E. destruct E as (x & r' & _ & M).
  unfold MARKER_RE in M. cbn [seqs] in M.
  apply matches_Seq_inv in M. destruct M as (x0 & y0 & c0 & _ & M & _).
  apply matches_Bol_inv in M. destruct M as [-> _]. congruence.
Qed.

(** The first character of a marker: a blank, a digit or a bullet sign. *)
Lemma match_here_marker_head c t m :
  match_here MARKER_RE [] (c :: t) = Some m ->
  is_space c = true \/ is_digit c = true \/ mem_ch c [45; 42; 8226] = true.
Proof.
  intros E. apply match_here_split in E. destruct E as (x & r' & Hx & M).
  unfold MARKER_RE in M. cbn [seqs] in M.
  apply matches_Seq_inv in M. destruct M as (x0 & y0 & c0 & -> & M0 & M).
  apply matches_Bol_inv in M0. destruct M0 as [_ ->].
  apply matches_Seq_inv in M. destruct M as (x1 & y1 & c1 & -> & M1 & M).
  apply matches_Star_inv in M1.
  apply matches_Seq_inv in M. destruct M as (x2 & y2 & c2 & -> & M2 & _).
  apply matches_Grp_inv in M2. destruct M2 as [c3 M2].
  cbn [app] in Hx.
  destruct x1 as [|a x1].
  - cbn [app] in Hx. right.
    apply matches_Alt_inv in M2. destruct M2 as [M2|M2].
    + apply matches_Seq_inv in M2. destruct M2 as (d & e & c4 & -> & Md & _).
      unfold Plus in Md.
      apply matches_Seq_inv in Md. destruct Md as (d1 & d2 & c5 & -> & Md & _).
      apply matches_Cls_inv in Md. destruct Md as (c' & -> & Hc).
      cbn [app] in Hx. injection Hx as -> _. left. exact Hc.
    + apply matches_Cls_inv in M2. destruct M2 as (c' & -> & Hc).
      cbn [app] in Hx. injection Hx as -> _. right. exact Hc.
  - cbn [app] in Hx. injection Hx as -> _. left.
    cbn [forallb] in M1. apply andb_true_iff in M1. tauto.
Qed.

Lemma sub_marker_unchanged s :
  match s with
  | c :: _ => is_space c = false /\ is_digit c = false /\ mem_ch c [45; 42; 8226] = false
  | [] => True
  end ->
  re_sub_const MARKER_RE [] s = s.
Proof.
  unfold re_sub_const, re_sub. destruct s as [|c t]; intros H.
  - vm_compute. reflexivity.
  - destruct H as (H1 & H2 & H3).
    destruct (match_here MARKER_RE [] (c :: t)) as [m|] eqn:E.
    + apply match_here_marker_head in E. rewrite H1, H2, H3 in E.
      destruct E as [E|[E|E]]; discriminate E.
    + rewrite sub_go_nomatch by exact E.
      rewrite (sub_go_anchored _ _ match_here_marker_anchored) by discriminate.
      reflexivity.
Qed.

(** X1.  The text [_clean_text] returns is in normal form: it has no
    blank at either end; every blank in it is a single space that no
    other blank follows; every comma is followed by one space unless it
    ends the text, and a space stands before a comma only when it follows
    another comma. *)
Theorem clean_text_normal_form :
  forall s : str,
    stripped (_clean_text s)
    /\ w_ok (_clean_text s) = true
    /\ c_ok (_clean_text s) = true.
Proof.
  intros s. destruct (clean_text_shape s) as [Hc Hs].
  split; [exact Hs | split; [|exact Hc]].
  exact (c_ok_go_w_ok _ _ Hc).
Qed.

(** X2.  A text in normal form that has no JSON sign and no colon, and
    does not start with a digit, a dash, an asterisk or a bullet, is
    returned as it is. *)
Theorem clean_text_plain_unchanged :
  forall s : str,
    stripped s ->
    c_ok s = true ->
    Forall (fun c => is_json_sign c = false /\ c <> 58) s ->
    match s with
    | c :: _ => is_digit c = false /\ mem_ch c [45; 42; 8226] = false
    | [] => True
    end ->
    _clean_text s = s.
Proof.
  intros s Hs Hc Hall Hhead. unfold _clean_text.
  rewrite (stripped_strip s Hs).
  assert (HS : re_sub_const _JSON_SIGNS [] s = s).
  { unfold re_sub_const, re_sub. rewrite sub_json_signs_filter.
    apply filter_sign_free. eapply List.Forall_impl; [|exact Hall].
    intros c [H _]. exact H. }
  assert (HL : re_sub_const LABEL_RE [] s = s).
  { unfold re_sub_const, re_sub.
    apply (sub_go_unmatched _ _ (fun c => c <> 58) match_here_label_colon).
    eapply List.Forall_impl; [|exact Hall]. intros c [_ H]. exact H. }
  assert (HM : re_sub_const MARKER_RE [] s = s).
  { apply sub_marker_unchanged. destruct s as [|c t]; [exact I|].
    destruct Hs as [Hs _]. cbn [at_space] in Hs. tauto. }
  rewrite HS, HL, HM. apply tail_passes_fix; assumption.
Qed.

Lemma clean_text_plain_unchanged_witness :
  _clean_text (u "Olive oil, extra virgin") = u "Olive oil, extra virgin".
Proof.
  apply clean_text_plain_unchanged.
  - split; vm_compute; reflexivity.
  - vm_compute. reflexivity.
  - repeat (constructor; [split; [vm_compute; reflexivity | discriminate]|]).
    constructor.
  - split; vm_compute; reflexivity.
Defined.

(** ** Coercion of a field to a list *)

Lemma strip_idem s : strip (strip s) = strip s.
Proof. apply stripped_strip, strip_stripped. Qed.

Lemma strip_leading_space s : stripped s -> strip (32 :: s) = s.
Proof.
  intros Hs. unfold strip, strip_by. cbn [lstrip_by].
  change (is_space 32) with true. cbv iota.
  destruct Hs as [H1 H2]. rewrite (lstrip_not_at_space s H1). exact H2.
Qed.

Lemma split_go_piece sep p :
  Forall (fun c => c <> sep) p ->
  forall cur rest,
    split_go sep cur (p ++ sep :: rest) = (rev cur ++ p) :: split_go sep [] rest.
Proof.
  induction 1 as [|c t Hc Ht IH]; intros cur rest; cbn [app split_go].
  - unfold ch_eqb. rewrite N.eqb_refl, app_nil_r. reflexivity.
  - unfold ch_eqb. destruct (N.eqb_spec c sep) as [E|_]; [congruence|].
    rewrite IH. cbn [rev]. rewrite <- List.app_assoc. reflexivity.
Qed.

Lemma split_go_last sep p :
  Forall (fun c => c <> sep) p ->
  forall cur, split_go sep cur p = [rev cur ++ p].
Proof.
  induction 1 as [|c t Hc Ht IH]; intros cur; cbn [split_go].
  - rewrite app_nil_r. reflexivity.
  - unfold ch_eqb. destruct (N.eqb_spec c sep) as [E|_]; [congruence|].
    rewrite IH. cbn [rev]. rewrite <- List.app_assoc. reflexivity.
Qed.

Lemma splitlines_go_piece p :
  Forall (fun c => is_linebreak c = false) p ->
  forall cur rest,
    splitlines_go cur (p ++ 10 :: rest) = (rev cur ++ p) :: splitlines_go [] rest.
Proof.
  induction 1 as [|c t Hc Ht IH]; intros cur rest; cbn [app splitlines_go].
  - change (ch_eqb 10 13) with false. change (is_linebreak 10) with true. cbv iota.
    rewrite app_nil_r. reflexivity.
  - unfold ch_eqb. destruct (N.eqb_spec c 13) as [->|_]; [discriminate Hc|].
    rewrite Hc, IH. cbn [rev]. rewrite <- List.app_assoc. reflexivity.
Qed.

Lemma splitlines_go_last p :
  Forall (fun c => is_linebreak c = false) p ->
  forall cur, rev cur ++ p <> [] -> splitlines_go cur p = [rev cur ++ p].
Proof.
  induction 1 as [|c t Hc Ht IH]; intros cur Hne; cbn [splitlines_go].
  - rewrite app_nil_r in *. destruct cur; [exfalso; apply Hne; reflexivity|].
    reflexivity.
  - unfold ch_eqb. destruct (N.eqb_spec c 13) as [->|_]; [discriminate Hc|].
    rewrite Hc, IH; cbn [rev]; rewrite <- List.app_assoc; [reflexivity|].
    intros E. destruct (rev cur); discriminate E.
Qed.


Lemma field_part_no_comma p : field_part p -> Forall (fun c => c <> 44) p.
Proof. intros (_ & _ & H). eapply List.Forall_impl; [|exact H]. intros c [? _]. assumption. Qed.

Lemma field_part_no_break p : field_part p -> Forall (fun c => is_linebreak c = false) p.
Proof. intros (_ & _ & H). eapply List.Forall_impl; [|exact H]. intros c [_ ?]. assumption. Qed.

Lemma field_part_no_newline p : field_part p -> contains_ch 10 p = false.
Proof.
  intros H. apply field_part_no_break in H. unfold contains_ch, mem_ch.
  induction H as [|c t Hc Ht IH]; [reflexivity|]. cbn [existsb]. rewrite IH.
  unfold ch_eqb. destruct (N.eqb_spec 10 c) as [<-|_]; [discriminate Hc | reflexivity].
Qed.

Lemma contains_ch_app a x y : contains_ch a (x ++ y) = contains_ch a x || contains_ch a y.
Proof. unfold contains_ch, mem_ch. apply existsb_app. Qed.

Lemma split_join_comma parts :
  Forall field_part parts ->
  forall p cur, field_part p ->
    split_go 44 cur (join (u ", ") (p :: parts))
    = (rev cur ++ p) :: List.map (cons 32) parts.
Proof.
  induction 1 as [|q r Hq Hr IH]; intros p cur Hp.
  - cbn [join List.map]. apply split_go_last, field_part_no_comma, Hp.
  - change (join (u ", ") (p :: q :: r)) with (p ++ 44 :: 32 :: join (u ", ") (q :: r)).
    rewrite (split_go_piece 44 p (field_part_no_comma p Hp)).
    change (split_go 44 [] (32 :: join (u ", ") (q :: r)))
      with (split_go 44 [32] (join (u ", ") (q :: r))).
    rewrite (IH q [32] Hq). reflexivity.
Qed.

Lemma splitlines_join parts :
  Forall field_part parts ->
  forall p cur, field_part p ->
    splitlines_go cur (join [10] (p :: parts)) = (rev cur ++ p) :: parts.
Proof.
  induction 1 as [|q r Hq Hr IH]; intros p cur Hp.
  - cbn [join]. apply splitlines_go_last; [apply field_part_no_break, Hp|].
    destruct Hp as [Hne _]. intros E. apply app_eq_nil in E. tauto.
  - change (join [10] (p :: q :: r)) with (p ++ 10 :: join [10] (q :: r)).
    rewrite (splitlines_go_piece p (field_part_no_break p Hp)).
    rewrite (IH q [] Hq). reflexivity.
Qed.

Lemma join_comma_no_newline parts :
  Forall field_part parts -> contains_ch 10 (join (u ", ") parts) = false.
Proof.
  induction 1 as [|p r Hp Hr IH]; [reflexivity|].
  destruct r as [|q r]; [exact (field_part_no_newline p Hp)|].
  change (join (u ", ") (p :: q :: r)) with (p ++ 44 :: 32 :: join (u ", ") (q :: r)).
  rewrite contains_ch_app, (field_part_no_newline p Hp).
  change (contains_ch 10 (44 :: 32 :: join (u ", ") (q :: r)))
    with (contains_ch 10 (join (u ", ") (q :: r))).
  exact IH.
Qed.

Lemma keep_parts parts :
  Forall field_part parts ->
  List.map (fun p => PStr (strip p)) (List.filter (fun p => nonempty (strip p)) parts)
  = List.map PStr parts.
Proof.
  induction 1 as [|p r Hp Hr IH]; [reflexivity|].
  destruct Hp as (Hne & Hs & _). cbn [List.filter].
  rewrite (stripped_strip p Hs). destruct p; [congruence|].
  cbn [nonempty List.map]. rewrite IH, (stripped_strip _ Hs). reflexivity.
Qed.

Lemma keep_spaced_parts parts :
  Forall field_part parts ->
  List.map (fun p => PStr (strip p))
    (List.filter (fun p => nonempty (strip p)) (List.map (cons 32) parts))
  = List.map PStr parts.
Proof.
  induction 1 as [|p r Hp Hr IH]; [reflexivity|].
  destruct Hp as (Hne & Hs & _). cbn [List.filter List.map].
  rewrite (strip_leading_space p Hs). destruct p; [congruence|].
  cbn [nonempty List.map]. rewrite (strip_leading_space _ Hs), IH. reflexivity.
Qed.

(** X3.  Every entry [_coerce_list] makes from a text value is a text
    that is not empty and has no blank at either end. *)
Theorem coerce_list_text_entries :
  forall s : str,
    Forall (fun v => exists p, v = PStr p /\ p <> [] /\ strip p = p)
      (_coerce_list (PStr s)).
Proof.
  intros s. cbn [_coerce_list].
  apply List.Forall_forall. intros v Hv.
  apply in_map_iff in Hv. destruct Hv as (p & <- & Hp).
  apply filter_In in Hp. destruct Hp as [_ Hp].
  exists (strip p). split; [reflexivity|]. split; [|apply strip_idem].
  destruct (strip p); [discriminate Hp | discriminate].
Qed.

(** X4.  Parts that are joined with a comma and a space, or with
    newlines, are given back by [_coerce_list], provided each part is
    not empty, has no blank at either end and holds no comma and no line
    boundary. *)
Theorem coerce_list_join :
  forall parts : list str,
    Forall field_part parts ->
    _coerce_list (PStr (join (u ", ") parts)) = List.map PStr parts
    /\ _coerce_list (PStr (join [10] parts)) = List.map PStr parts.
Proof.
  intros parts H. split.
  - cbn [_coerce_list]. rewrite (join_comma_no_newline parts H).
    destruct H as [|p r Hp Hr]; [reflexivity|].
    unfold split_ch. rewrite (split_join_comma r Hr p [] Hp).
    cbn [rev app List.filter].
    destruct Hp as (Hne & Hs & Hc). rewrite (stripped_strip p Hs).
    destruct p as [|c t]; [congruence|]. cbn [nonempty List.map].
    rewrite (stripped_strip _ Hs), (keep_spaced_parts r Hr). reflexivity.
  - cbn [_coerce_list]. destruct H as [|p r Hp Hr]; [reflexivity|].
    destruct r as [|q r].
    + cbn [join]. rewrite (field_part_no_newline p Hp).
      unfold split_ch. rewrite (split_go_last 44 p (field_part_no_comma p Hp)).
      apply keep_parts. constructor; [exact Hp | constructor].
    + change (join [10] (p :: q :: r)) with (p ++ 10 :: join [10] (q :: r)).
      rewrite contains_ch_app.
      change (contains_ch 10 (10 :: join [10] (q :: r))) with true.
      rewrite orb_true_r. unfold splitlines.
      change (p ++ 10 :: join [10] (q :: r)) with (join [10] (p :: q :: r)).
      rewrite (splitlines_join (q :: r) Hr p [] Hp).
      apply keep_parts. constructor; [exact Hp | exact Hr].
Qed.

Lemma coerce_list_join_witness :
  _coerce_list (PStr (join (u ", ") [u "salt"; u "black pepper"]))
  = List.map PStr [u "salt"; u "black pepper"]
  /\ _coerce_list (PStr (join [10] [u "salt"; u "black pepper"]))
     = List.map PStr [u "salt"; u "black pepper"].
Proof.
  apply coerce_list_join.
  repeat (constructor;
          [split; [discriminate|];
           split; [split; vm_compute; reflexivity|];
           repeat (constructor; [split; [discriminate | reflexivity]|]); constructor|]).
  constructor.
Defined.

(** ** Integers written as decimal text *)



Lemma u_string_of_uint d : u (NilEmpty.string_of_uint d) = digit_chars d.
Proof.
  unfold u. induction d; cbn [NilEmpty.string_of_uint list_ascii_of_string List.map digit_chars];
    [reflexivity | rewrite IHd; reflexivity ..].
Qed.

Lemma int_digits_value d :
  forall acc count,
    int_digits true acc count (digit_chars d)
    = Some (uint_value acc d, (count + length (digit_chars d))%nat).
Proof.
  induction d; intros acc count; cbn [digit_chars int_digits length uint_value];
    [rewrite Nat.add_0_r; reflexivity | ..];
    (match goal with
     | |- context [is_digit ?c] => change (is_digit c) with true
     end; cbv iota; rewrite IHd; rewrite Nat.add_succ_r; reflexivity).
Qed.

Lemma of_uint_acc_value d :
  forall p, Npos (Pos.of_uint_acc d p) = uint_value (Npos p) d.
Proof.
  induction d; intros p; cbn [Pos.of_uint_acc uint_value];
    [reflexivity | rewrite IHd; f_equal; lia ..].
Qed.

Lemma of_uint_value d : N.of_uint d = uint_value 0 d.
Proof.
  unfold N.of_uint.
  induction d; cbn [Pos.of_uint uint_value];
    [reflexivity | exact IHd | rewrite of_uint_acc_value; reflexivity ..].
Qed.

Lemma digit_chars_digits d : Forall (fun c => is_digit c = true) (digit_chars d).
Proof. induction d; cbn [digit_chars]; constructor; (reflexivity || assumption). Qed.

Lemma N_to_str_digits n : N_to_str n = digit_chars (N.to_uint n).
Proof. apply u_string_of_uint. Qed.

Lemma to_uint_nonnil n : digit_chars (N.to_uint n) <> [].
Proof.
  destruct n as [|p]; [discriminate|]. cbn [N.to_uint].
  intros E. pose proof (DecimalPos.Unsigned.to_uint_nonnil p) as H.
  destruct (Pos.to_uint p); [congruence | discriminate E ..].
Qed.

Lemma strip_no_space s : Forall (fun c => is_space c = false) s -> strip s = s.
Proof.
  intros H. apply stripped_strip. split.
  - destruct H as [|c t Hc _]; [reflexivity | exact Hc].
  - apply rstrip_fix_iff. apply Forall_rev in H.
    destruct H as [|c t Hc _]; [reflexivity | exact Hc].
Qed.

Lemma digit_not_space c : is_digit c = true -> is_space c = false.
Proof.
  unfold is_digit, in_range. rewrite andb_true_iff, !N.leb_le. intros H.
  destruct (is_space c) eqn:E; [|reflexivity].
  apply is_space_bound in E. lia.
Qed.

Lemma digits_ascii s : Forall (fun c => is_digit c = true) s -> is_ascii s = true.
Proof.
  unfold is_ascii, is_digit, in_range. induction 1 as [|c t Hc _ IH]; [reflexivity|].
  cbn [forallb]. rewrite IH, andb_true_r.
  apply andb_true_iff in Hc. rewrite !N.leb_le in Hc. apply N.ltb_lt. lia.
Qed.

Lemma digit_not_c_space c : is_digit c = true -> is_c_space c = false.
Proof.
  unfold is_digit, is_c_space, in_range. rewrite andb_true_iff, !N.leb_le. intros H.
  destruct (N.leb_spec 9 c), (N.leb_spec c 13), (N.eqb_spec c 32); cbn;
    (reflexivity || lia).
Qed.

Lemma digits_not_c_space s :
  Forall (fun c => is_digit c = true) s -> Forall (fun c => is_c_space c = false) s.
Proof. apply List.Forall_impl. exact digit_not_c_space. Qed.

Lemma lstrip_by_none p s : Forall (fun c => p c = false) s -> lstrip_by p s = s.
Proof. intros [|c t Hc _]; [reflexivity|]. cbn [lstrip_by]. rewrite Hc. reflexivity. Qed.

Lemma strip_by_none p s : Forall (fun c => p c = false) s -> strip_by p s = s.
Proof.
  intros H. unfold strip_by, rstrip_by.
  rewrite (lstrip_by_none p s H), (lstrip_by_none p (rev s))
    by (apply List.Forall_rev, H).
  apply rev_involutive.
Qed.

Lemma parse_int_digits n :
  (length (N_to_str n) <= int_max_str_digits)%nat ->
  parse_int (N_to_str n) = Some (Z.of_N n).
Proof.
  intros Hlen. unfold parse_int.
  assert (Hd := digit_chars_digits (N.to_uint n)).
  rewrite N_to_str_digits in *.
  rewrite (digits_ascii _ Hd), (strip_by_none _ _ (digits_not_c_space _ Hd)).
  destruct (digit_chars (N.to_uint n)) as [|c t] eqn:E; [destruct (to_uint_nonnil n E)|].
  assert (Hc : is_digit c = true) by (inversion Hd; assumption).
  assert (H45 : c <> 45) by (intros ->; discriminate Hc).
  assert (H43 : c <> 43) by (intros ->; discriminate Hc).
  assert (Hbody : (let '(neg, body) :=
                     match c :: t with
                     | 45 :: t0 => (true, t0)
                     | 43 :: t0 => (false, t0)
                     | _ => (false, c :: t)
                     end in
                   match int_digits false 0 0 body with
                   | Some (n0, count) =>
                       if Nat.ltb int_max_str_digits count then None
                       else Some (if neg then (- Z.of_N n0)%Z else Z.of_N n0)
                   | None => None
                   end)
                  = match int_digits false 0 0 (c :: t) with
                    | Some (n0, count) =>
                        if Nat.ltb int_max_str_digits count then None
                        else Some (Z.of_N n0)
                    | None => None
                    end).
  { destruct c as [|p]; [reflexivity|].
    do 6 (destruct p as [p|p|]; try reflexivity); congruence. }
  rewrite Hbody. clear Hbody.
  assert (Hi : int_digits false 0 0 (c :: t) = int_digits true 0 0 (c :: t)).
  { cbn [int_digits]. rewrite Hc. reflexivity. }
  rewrite Hi, <- E, int_digits_value, <- of_uint_value, DecimalN.Unsigned.of_to.
  cbn [Nat.add]. rewrite E.
  destruct (Nat.ltb_spec int_max_str_digits (length (c :: t))); [lia | reflexivity].
Qed.

(** X5.  An integer written out in decimal is read back as that integer,
    whatever the default, when its numeral has at most 4300 digits (the
    longest numeral [int] accepts). *)
Theorem as_int_of_decimal_text :
  forall (z default : Z),
    (length (N_to_str (Z.abs_N z)) <= int_max_str_digits)%nat ->
    _as_int (PStr (py_str (PInt z))) default = z.
Proof.
  intros z default Hlen. unfold _as_int. cbn [py_str py_repr py_int].
  destruct z as [|p|p]; cbn [Z_to_str Z.to_N Z.abs_N] in *.
  - rewrite (parse_int_digits 0 Hlen). reflexivity.
  - rewrite (parse_int_digits (Npos p) Hlen). reflexivity.
  - pose proof (parse_int_digits (Npos p) Hlen) as H.
    unfold parse_int in *.
    assert (Hd := digit_chars_digits (N.to_uint (Npos p))).
    rewrite <- N_to_str_digits in Hd.
    rewrite (digits_ascii _ Hd), (strip_by_none _ _ (digits_not_c_space _ Hd)) in H.
    assert (Ha : is_ascii (45 :: N_to_str (Npos p)) = true)
      by (unfold is_ascii; cbn [forallb]; apply (digits_ascii _ Hd)).
    rewrite Ha, (strip_by_none is_c_space (45 :: N_to_str (Npos p)))
      by (constructor; [reflexivity | exact (digits_not_c_space _ Hd)]).
    destruct (N_to_str (Npos p)) as [|c t] eqn:E.
    + rewrite N_to_str_digits in E. destruct (to_uint_nonnil _ E).
    + assert (Hc : is_digit c = true) by (inversion Hd; assumption).
      assert (Hplain : (match c :: t with
                        | 45 :: t0 => (true, t0)
                        | 43 :: t0 => (false, t0)
                        | _ => (false, c :: t)
                        end) = (false, c :: t)).
      { destruct c as [|q]; [reflexivity|].
        do 6 (destruct q as [q|q|]; try reflexivity); discriminate Hc. }
      rewrite Hplain in H.
      destruct (int_digits false 0 0 (c :: t)) as [[n0 count]|]; [|discriminate H].
      destruct (Nat.ltb int_max_str_digits count); [discriminate H|].
      injection H as H. rewrite H. reflexivity.
Qed.

Lemma as_int_of_decimal_text_witness :
  _as_int (PStr (py_str (PInt (-12)))) 2 = (-12)%Z.
Proof. apply as_int_of_decimal_text. vm_compute. lia. Defined.

(** ** The registry counts requests *)

Lemma str_eqb_refl s : str_eqb s s = true.
Proof. apply str_eqb_eq. reflexivity. Qed.

Lemma str_eqb_neq a b : a <> b -> str_eqb a b = false.
Proof.
  intros H. destruct (str_eqb a b) eqn:E; [|reflexivity].
  apply str_eqb_eq in E. congruence.
Qed.

Lemma unique_title_registry seen t :
  snd (_unique_title seen t)
  = <[title_key t := default 0 (seen !! title_key t) + 1]> seen.
Proof.
  unfold _unique_title, title_key.
  set (k := lower (strip match t with [] => default_title | _ :: _ => t end)).
  destruct (N.eqb_spec (default 0 (seen !! k)) 0) as [E|E]; cbn [snd];
    [rewrite E|]; reflexivity.
Qed.

Lemma unique_title_shown seen t :
  fst (_unique_title seen t)
  = let base := strip (match t with [] => default_title | _ => t end) in
    let n := default 0 (seen !! title_key t) in
    if n =? 0 then base else base ++ version_suffix (n + 1).
Proof.
  unfold _unique_title, title_key. cbv zeta.
  destruct (default 0 (seen !! _) =? 0); reflexivity.
Qed.

Lemma seen_after_counts titles :
  forall seen k,
    default 0 (seen_after seen titles !! k)
    = default 0 (seen !! k) + requests k titles.
Proof.
  unfold requests.
  induction titles as [|t ts IH]; intros seen k; cbn [seen_after List.filter length].
  - cbn. lia.
  - rewrite IH, unique_title_registry.
    destruct (decide (title_key t = k)) as [<-|Hne].
    + rewrite lookup_insert_eq, str_eqb_refl. cbn [from_option id length]. lia.
    + rewrite lookup_insert_ne by exact Hne.
      rewrite (str_eqb_neq _ _ Hne). reflexivity.
Qed.

Lemma unique_titles_nth pre :
  forall seen t post,
    nth_error (unique_titles seen (pre ++ t :: post)) (length pre)
    = Some (fst (_unique_title (seen_after seen pre) t)).
Proof.
  induction pre as [|p pre IH]; intros seen t post; cbn [app unique_titles seen_after length].
  - destruct (_unique_title seen t). reflexivity.
  - destruct (_unique_title seen p) as [shown seen'] eqn:E. cbn [nth_error snd].
    apply IH.
Qed.

Lemma title_key_ascii t :
  is_ascii t = true ->
  title_key t = List.map lower_ch (strip (match t with [] => default_title | _ => t end)).
Proof.
  intros H. unfold title_key. apply lower_ascii, is_ascii_strip.
  destruct t; [reflexivity | exact H].
Qed.

(** X6.  The registry counts: after any sequence of titles has gone
    through a registry that started empty, the number stored for a key is
    the number of titles of the sequence recorded under that key (their
    trimmed, lower-cased text), and a key none of them has is absent or
    zero.  The key of an ASCII title is the trimmed title with the letters
    A to Z replaced by a to z; letters outside ASCII are lower-cased as
    well, so that two spellings of one accented title are counted
    together. *)
Theorem registry_counts_requests :
  (forall (titles : list str) (k : str),
     default 0 (seen_after ∅ titles !! k) = requests k titles)
  /\ (forall t : str,
        is_ascii t = true ->
        title_key t
        = List.map lower_ch (strip (match t with [] => default_title | _ => t end)))
  /\ seen_after ∅ [Eclair; u " Soup"; eclair; u "SOUP "; Eclair] !! eclair = Some 3
  /\ seen_after ∅ [Eclair; u " Soup"; eclair; u "SOUP "; Eclair] !! u "soup" = Some 2
  /\ seen_after ∅ [Eclair; u " Soup"; eclair; u "SOUP "; Eclair] !! Eclair = None.
Proof.
  split; [|split; [exact title_key_ascii | split; [|split]]].
  - intros titles k. rewrite seen_after_counts, lookup_empty. reflexivity.
  - vm_compute. reflexivity.
  - vm_compute. reflexivity.
  - vm_compute. reflexivity.
Qed.

Lemma registry_counts_requests_witness :
  title_key (u " Garlic Bread") = u "garlic bread"
  /\ default 0 (seen_after ∅ [u " Garlic Bread"; u "GARLIC BREAD"] !! u "garlic bread") = 2.
Proof.
  destruct registry_counts_requests as (H1 & H2 & _). split.
  - rewrite (H2 (u " Garlic Bread")) by reflexivity. vm_compute. reflexivity.
  - rewrite H1. vm_compute. reflexivity.
Defined.

(** X7.  What a session shows for each title: the first title recorded
    under a key is shown as it is (trimmed), and the title that follows
    [n] earlier ones with the same key is shown with the suffix for
    [n + 1].  Titles that differ in the case of their letters, in ASCII or
    outside it, have the same key. *)
Theorem unique_titles_numbered :
  (forall (pre : list str) (t : str) (post : list str),
     nth_error (unique_titles ∅ (pre ++ t :: post)) (length pre)
     = Some (let base := strip (match t with [] => default_title | _ => t end) in
             let n := requests (title_key t) pre in
             if n =? 0 then base else base ++ version_suffix (n + 1)))
  /\ requests (title_key creme_brulee) [Creme_Brulee; u "Soup"; CREME_BRULEE] = 2
  /\ requests (title_key (u "soup")) [Creme_Brulee; u "Soup"; CREME_BRULEE] = 1
  /\ unique_titles ∅ [Creme_Brulee; u "Soup"; CREME_BRULEE; creme_brulee; u "soup"]
     = [Creme_Brulee; u "Soup"; CREME_BRULEE ++ u " (v2)"; creme_brulee ++ u " (v3)";
        u "soup (v2)"].
Proof.
  split; [|split; [|split]].
  - intros pre t post.
    rewrite unique_titles_nth, unique_title_shown, seen_after_counts, lookup_empty.
    reflexivity.
  - vm_compute. reflexivity.
  - vm_compute. reflexivity.
  - vm_compute. reflexivity.
Qed.

(** ** The extractor on texts without fences or without braces *)

Lemma search_go_position r :
  forall rest prev m,
    search_go r prev rest = Some m ->
    exists a b, rest = a ++ b /\ match_here r (rev a ++ prev) b = Some m.
Proof.
  induction rest as [|c t IH]; intros prev m H; cbn [search_go] in H.
  - destruct (match_here r prev []) eqn:E; [|discriminate]. injection H as <-.
    exists [], []. auto.
  - destruct (match_here r prev (c :: t)) eqn:E.
    + injection H as <-. exists [], (c :: t). auto.
    + apply IH in H. destruct H as (a & b & -> & H).
      exists (c :: a), b. cbn [rev app]. rewrite <- List.app_assoc. auto.
Qed.

(** A match of a pattern that starts with three backticks starts with a
    backtick. *)
Lemma matches_backticks_head post prev x rest cs cs' :
  matches (Seq backticks post) prev x rest cs cs' -> exists y, x = 96 :: y.
Proof.
  intros M. apply matches_Seq_inv in M. destruct M as (x0 & y0 & c0 & -> & M & _).
  unfold backticks, Lit in M. cbn [u list_ascii_of_string List.map seqs] in M.
  apply matches_Seq_inv in M. destruct M as (x1 & y1 & c1 & -> & M & _).
  apply matches_Cls_inv in M. destruct M as (c & -> & Hc).
  unfold Chr, ch_eqb in Hc. apply N.eqb_eq in Hc. subst c.
  eexists. reflexivity.
Qed.

Lemma search_needs_backtick post text :
  Forall (fun c => c <> 96) text -> re_search (Seq backticks post) text = None.
Proof.
  intros Hs. destruct (re_search (Seq backticks post) text) as [m|] eqn:E; [|reflexivity].
  exfalso. apply search_go_position in E. destruct E as (a & b & -> & E).
  apply match_here_split in E. destruct E as (x & r' & -> & M).
  apply matches_backticks_head in M. destruct M as [y ->].
  rewrite List.Forall_forall in Hs. apply (Hs 96); [|reflexivity].
  rewrite !in_app_iff. right. left. left. reflexivity.
Qed.

(** A match of the braced group holds an opening brace. *)
Lemma matches_braced_brace prev x rest cs cs' :
  matches braced prev x rest cs cs' -> In 123 x.
Proof.
  intros M. unfold braced in M. apply matches_Grp_inv in M. destruct M as [c1 M].
  cbn [seqs] in M.
  apply matches_Seq_inv in M. destruct M as (x1 & y1 & c2 & -> & M & _).
  apply matches_Cls_inv in M. destruct M as (c & -> & Hc).
  unfold ch_eqb in Hc. apply N.eqb_eq in Hc. subst c. left. reflexivity.
Qed.

Lemma search_fenced_json_brace text :
  Forall (fun c => c <> 123) text -> re_search FENCED_JSON_RE text = None.
Proof.
  intros Hs. destruct (re_search FENCED_JSON_RE text) as [m|] eqn:E; [|reflexivity].
  exfalso. apply search_go_position in E. destruct E as (a & b & -> & E).
  apply match_here_split in E. destruct E as (x & r' & -> & M).
  unfold FENCED_JSON_RE in M. cbn [seqs] in M.
  apply matches_Seq_inv in M. destruct M as (x0 & y0 & c0 & -> & _ & M).
  apply matches_Seq_inv in M. destruct M as (x1 & y1 & c1 & -> & _ & M).
  apply matches_Seq_inv in M. destruct M as (x2 & y2 & c2 & -> & _ & M).
  apply matches_Seq_inv in M. destruct M as (x3 & y3 & c3 & -> & M & _).
  apply matches_braced_brace in M.
  rewrite List.Forall_forall in Hs. apply (Hs 123); [|reflexivity].
  rewrite !in_app_iff. tauto.
Qed.

Lemma search_fenced_brace text :
  Forall (fun c => c <> 123) text -> re_search FENCED_RE text = None.
Proof.
  intros Hs. destruct (re_search FENCED_RE text) as [m|] eqn:E; [|reflexivity].
  exfalso. apply search_go_position in E. destruct E as (a & b & -> & E).
  apply match_here_split in E. destruct E as (x & r' & -> & M).
  unfold FENCED_RE in M. cbn [seqs] in M.
  apply matches_Seq_inv in M. destruct M as (x0 & y0 & c0 & -> & _ & M).
  apply matches_Seq_inv in M. destruct M as (x1 & y1 & c1 & -> & _ & M).
  apply matches_Seq_inv in M. destruct M as (x2 & y2 & c2 & -> & M & _).
  apply matches_braced_brace in M.
  rewrite List.Forall_forall in Hs. apply (Hs 123); [|reflexivity].
  rewrite !in_app_iff. tauto.
Qed.

Lemma scan_braces_none text :
  Forall (fun c => c <> 123) text -> scan_braces text = None.
Proof.
  induction 1 as [|c t Hc Ht IH]; cbn [scan_braces]; [reflexivity|].
  destruct (N.eqb_spec c 123); [congruence | exact IH].
Qed.

Lemma scan_braces_skip pre :
  Forall (fun c => c <> 123) pre ->
  forall rest, scan_braces (pre ++ rest) = scan_braces rest.
Proof.
  induction 1 as [|c t Hc Ht IH]; intros rest; cbn [app scan_braces]; [reflexivity|].
  destruct (N.eqb_spec c 123); [congruence | apply IH].
Qed.

(** X8.  On a text without an opening brace, the extractor returns what
    decoding the whole text gives, and null when that fails. *)
Theorem extract_json_block_without_brace :
  forall text : str,
    Forall (fun c => c <> 123) text ->
    extract_json_block text
    = match json_loads text with Some v => v | None => PNone end.
Proof.
  intros text H. unfold extract_json_block.
  destruct text as [|c t]; [reflexivity|].
  unfold attempt_fenced_json, attempt_fenced, attempt_scan, attempt_direct.
  rewrite (search_fenced_json_brace _ H), (search_fenced_brace _ H),
    (scan_braces_none _ H).
  reflexivity.
Qed.

Lemma extract_json_block_without_brace_witness :
  extract_json_block (u "[1, 2]")
  = match json_loads (u "[1, 2]") with Some v => v | None => PNone end.
Proof.
  apply extract_json_block_without_brace.
  repeat (constructor; [discriminate|]). constructor.
Defined.

Lemma extract_trailing_object lead t v :
  Forall (fun c => c <> 123 /\ c <> 96) lead ->
  Forall (fun c => c <> 96) t ->
  json_loads (123 :: t) = Some v ->
  extract_json_block (lead ++ 123 :: t) = v.
Proof.
  intros Hlead Ht Hv.
  assert (Hb : Forall (fun c => c <> 96) (lead ++ 123 :: t)).
  { apply Forall_app. split.
    - eapply List.Forall_impl; [|exact Hlead]. intros c [_ H]. exact H.
    - constructor; [discriminate | exact Ht]. }
  assert (Hsc : scan_braces (lead ++ 123 :: t) = Some v).
  { rewrite scan_braces_skip
      by (eapply List.Forall_impl; [|exact Hlead]; intros c [H _]; exact H).
    cbn [scan_braces]. change (123 =? 123) with true. cbv iota.
    cbn [try_chunks length]. rewrite firstn_all2 by (cbn [length]; lia).
    rewrite Hv. reflexivity. }
  unfold extract_json_block.
  destruct (lead ++ 123 :: t) as [|c s] eqn:E; [destruct lead; discriminate E|].
  unfold attempt_fenced_json, attempt_fenced, attempt_scan, attempt_direct.
  unfold FENCED_JSON_RE, FENCED_RE. cbn [seqs].
  rewrite !(search_needs_backtick _ _ Hb). cbn [loads_group].
  rewrite Hsc. reflexivity.
Qed.

(** X9.  A JSON object that ends the text, after a lead-in without
    braces, is what the extractor returns when the text has no
    backtick. *)
Theorem extract_json_block_trailing_object :
  forall (lead t : str) (v : pyval),
    Forall (fun c => c <> 123 /\ c <> 96) lead ->
    Forall (fun c => c <> 96) t ->
    json_loads (123 :: t) = Some v ->
    extract_json_block (lead ++ 123 :: t) = v.
Proof. exact extract_trailing_object. Qed.

Lemma extract_json_block_trailing_object_witness :
  extract_json_block (u "Here you go: " ++ 123 :: quoted "servings" ++ u ": 4}")
  = PDict [(key "servings", PInt 4)].
Proof.
  apply extract_json_block_trailing_object.
  - repeat (constructor; [split; discriminate|]). constructor.
  - repeat (constructor; [discriminate|]). constructor.
  - vm_compute. reflexivity.
Defined.

(** ** What the decoder returns *)

Lemma dict_set_text_keys k v d :
  text_keys v = true ->
  forallb (fun kv => is_str (fst kv) && text_keys (snd kv)) d = true ->
  forallb (fun kv => is_str (fst kv) && text_keys (snd kv)) (dict_set (PStr k) v d) = true.
Proof.
  intros Hv. induction d as [|[k' v'] t IH]; cbn [dict_set forallb fst snd].
  - rewrite Hv. reflexivity.
  - intros H. apply andb_true_iff in H. destruct H as [H1 H2].
    apply andb_true_iff in H1. destruct H1 as [Hk Hv'].
    destruct (key_eqb k' (PStr k)); cbn [forallb fst snd].
    + rewrite Hk, Hv, H2. reflexivity.
    + rewrite Hk, Hv', (IH H2). reflexivity.
Qed.

Lemma array_items_text_keys (scan : scanner) :
  (forall s v r, scan s = Some (v, r) -> text_keys v = true) ->
  forall n acc s l r,
    forallb text_keys acc = true ->
    array_items scan n acc s = Some (l, r) -> forallb text_keys l = true.
Proof.
  intros Hscan. induction n as [|n IH]; intros acc s l r Hacc H; cbn [array_items] in H;
    [discriminate|].
  destruct (scan s) as [[v r0]|] eqn:E; [|discriminate].
  assert (Hacc' : forallb text_keys (v :: acc) = true)
    by (cbn [forallb]; rewrite (Hscan _ _ _ E), Hacc; reflexivity).
  destruct (skip_ws r0) as [|c r']; [discriminate|].
  destruct (c =? 93).
  - injection H as <- _. rewrite forallb_forall in *. intros x Hx.
    apply Hacc'. apply in_rev. exact Hx.
  - destruct (c =? 44); [|discriminate]. exact (IH _ _ _ _ Hacc' H).
Qed.

Lemma object_items_text_keys (scan : scanner) :
  (forall s v r, scan s = Some (v, r) -> text_keys v = true) ->
  forall n acc s d r,
    text_keys (PDict acc) = true ->
    object_items scan n acc s = Some (d, r) -> text_keys (PDict d) = true.
Proof.
  intros Hscan. induction n as [|n IH]; intros acc s d r Hacc H; cbn [object_items] in H;
    [discriminate|].
  destruct s as [|c t]; [discriminate|].
  destruct c as [|p]; [discriminate|].
  do 6 (destruct p as [p|p|]; try discriminate).
  destruct (scanstring (S (length t)) [] t) as [[k r0]|]; [|discriminate].
  destruct (skip_ws r0) as [|c1 r1]; [discriminate|].
  destruct c1 as [|p]; [discriminate|].
  do 6 (destruct p as [p|p|]; try discriminate).
  destruct (scan (skip_ws r1)) as [[v r2]|] eqn:E; [|discriminate].
  cbv zeta in H.
  assert (Hacc' : text_keys (PDict (dict_set (PStr k) v acc)) = true)
    by (apply dict_set_text_keys; [exact (Hscan _ _ _ E) | exact Hacc]).
  destruct (skip_ws r2) as [|c2 r3]; [discriminate|].
  destruct (c2 =? 125).
  - injection H as <- _. exact Hacc'.
  - destruct (c2 =? 44); [|discriminate]. exact (IH _ _ _ _ Hacc' H).
Qed.

Lemma scan_number_text_keys s v r : scan_number s = Some (v, r) -> text_keys v = true.
Proof.
  unfold scan_number. intros H.
  repeat match type of H with
         | context [match ?x with _ => _ end] => destruct x
         | context [if ?x then _ else _] => destruct x
         | (let '(_, _) := ?x in _) = _ => destruct x
         end;
    try discriminate H; injection H as <- _; reflexivity.
Qed.

Lemma scan_constant_value lit w s v r : scan_constant lit w s = Some (v, r) -> v = w.
Proof.
  unfold scan_constant. destruct (strip_prefix (u lit) s); [|discriminate].
  intros H. injection H as <- _. reflexivity.
Qed.

Lemma scan_once_text_keys fuel :
  forall s v r, scan_once fuel s = Some (v, r) -> text_keys v = true.
Proof.
  induction fuel as [|f IH]; intros s v r H; cbn [scan_once] in H; [discriminate|].
  destruct s as [|c t]; [discriminate|].
  destruct (c =? 34).
  { destruct (scanstring _ _ _) as [[x r0]|]; [|discriminate].
    injection H as <- _. reflexivity. }
  destruct (c =? 123).
  { unfold scan_object in H.
    destruct (skip_ws t) as [|c' t']; [discriminate|].
    destruct (c' =? 125); [injection H as <- _; reflexivity|].
    destruct (object_items _ _ _ _) as [[d r0]|] eqn:E; [|discriminate].
    injection H as <- _.
    exact (object_items_text_keys _ IH _ [] _ _ _ eq_refl E). }
  destruct (c =? 91).
  { unfold scan_array in H.
    destruct (skip_ws t) as [|c' t']; [discriminate|].
    destruct (c' =? 93); [injection H as <- _; reflexivity|].
    destruct (array_items _ _ _ _) as [[l r0]|] eqn:E; [|discriminate].
    injection H as <- _.
    exact (array_items_text_keys _ IH _ [] _ _ _ eq_refl E). }
  destruct (c =? 110); [apply scan_constant_value in H; subst v; reflexivity|].
  destruct (c =? 116); [apply scan_constant_value in H; subst v; reflexivity|].
  destruct (c =? 102); [apply scan_constant_value in H; subst v; reflexivity|].
  destruct (c =? 78); [apply scan_constant_value in H; subst v; reflexivity|].
  destruct (c =? 73); [apply scan_constant_value in H; subst v; reflexivity|].
  destruct (scan_constant "-Infinity" _ _) as [[v' r']|] eqn:E.
  - injection H as <- _. apply scan_constant_value in E. subst v'. reflexivity.
  - exact (scan_number_text_keys _ _ _ H).
Qed.

Lemma json_loads_keys s v : json_loads s = Some v -> text_keys v = true.
Proof.
  unfold json_loads.
  destruct (scan_once _ _) as [[w r]|] eqn:E; [|discriminate].
  destruct (skip_ws r); [|discriminate].
  intros H. injection H as <-. exact (scan_once_text_keys _ _ _ _ E).
Qed.

Lemma try_chunks_text_keys n t v : try_chunks n t = Some v -> text_keys v = true.
Proof.
  induction n as [|n IH]; cbn [try_chunks]; [discriminate|].
  destruct (json_loads (firstn (S n) t)) as [w|] eqn:E; [|exact IH].
  intros H. injection H as <-. exact (json_loads_keys _ _ E).
Qed.

Lemma scan_braces_text_keys text v : scan_braces text = Some v -> text_keys v = true.
Proof.
  induction text as [|c t IH]; cbn [scan_braces]; [discriminate|].
  destruct (c =? 123); [|exact IH].
  destruct (try_chunks (length (c :: t)) (c :: t)) as [w|] eqn:E; [|exact IH].
  intros H. injection H as <-. exact (try_chunks_text_keys _ _ _ E).
Qed.

Lemma loads_group_text_keys m v : loads_group m = Some v -> text_keys v = true.
Proof. destruct m as [m|]; [apply json_loads_keys | discriminate]. Qed.

Lemma extract_json_block_keys text : text_keys (extract_json_block text) = true.
Proof.
  unfold extract_json_block. destruct text as [|c t]; [reflexivity|].
  destruct (attempt_fenced_json _) as [v|] eqn:E1; [exact (loads_group_text_keys _ _ E1)|].
  destruct (attempt_fenced _) as [v|] eqn:E2; [exact (loads_group_text_keys _ _ E2)|].
  destruct (attempt_scan _) as [v|] eqn:E3; [exact (scan_braces_text_keys _ _ E3)|].
  destruct (attempt_direct _) as [v|] eqn:E4; [exact (json_loads_keys _ _ E4) | reflexivity].
Qed.

Lemma repair_json_like_keys text : text_keys (repair_json_like text) = true.
Proof.
  unfold repair_json_like. destruct text as [|c t]; [reflexivity|]. cbv zeta.
  destruct (json_loads _) as [v|] eqn:E; [exact (json_loads_keys _ _ E) | reflexivity].
Qed.

Lemma str_list_text_keys l : text_keys (str_list l) = true.
Proof. unfold str_list. cbn [text_keys]. induction l; [reflexivity | exact IHl]. Qed.

Lemma try_prompt_text_keys net i p last d last' :
  try_prompt net i p last = (Some d, last') -> text_keys d = true.
Proof.
  unfold try_prompt. destruct (net i p) as [text|]; [|discriminate].
  destruct (truthy (extract_json_block text)).
  - intros H. injection H as <- _. apply extract_json_block_keys.
  - destruct (truthy (repair_json_like text)); [|discriminate].
    intros H. injection H as <- _. apply repair_json_like_keys.
Qed.

Lemma call_model_keys net idea : text_keys (_call_model net idea) = true.
Proof.
  unfold _call_model.
  destruct (try_prompt net 0 _ _) as [[d|] last] eqn:E1;
    [exact (try_prompt_text_keys _ _ _ _ _ _ E1)|].
  destruct (try_prompt net 1 _ _) as [[d|] last'] eqn:E2;
    [exact (try_prompt_text_keys _ _ _ _ _ _ E2)|].
  unfold heuristic_from_text. cbn [text_keys forallb fst snd key is_str andb].
  rewrite !str_list_text_keys. reflexivity.
Qed.

(** X10.  In every value the extractor or the repairer returns, and so
    in whatever [_call_model] returns, all keys of all records are
    texts. *)
Theorem call_model_text_keys :
  (forall text, text_keys (extract_json_block text) = true)
  /\ (forall text, text_keys (repair_json_like text) = true)
  /\ (forall (net : transport) (idea : str), text_keys (_call_model net idea) = true).
Proof.
  split; [exact extract_json_block_keys | split; [exact repair_json_like_keys|]].
  exact call_model_keys.
Qed.

(** ** The integers the decoder returns *)

Lemma digits_as_numeral s :
  Forall (fun c => is_digit c = true) s -> exists d, s = digit_chars d.
Proof.
  induction 1 as [|c t Hc _ [d ->]]; [exists Decimal.Nil; reflexivity|].
  unfold is_digit, in_range in Hc. rewrite andb_true_iff, !N.leb_le in Hc.
  assert (E : c = 48 \/ c = 49 \/ c = 50 \/ c = 51 \/ c = 52 \/ c = 53 \/ c = 54
              \/ c = 55 \/ c = 56 \/ c = 57) by lia.
  destruct E as [->|[->|[->|[->|[->|[->|[->|[->|[->| ->]]]]]]]]];
    [exists (Decimal.D0 d) | exists (Decimal.D1 d) | exists (Decimal.D2 d)
    | exists (Decimal.D3 d) | exists (Decimal.D4 d) | exists (Decimal.D5 d)
    | exists (Decimal.D6 d) | exists (Decimal.D7 d) | exists (Decimal.D8 d)
    | exists (Decimal.D9 d)]; reflexivity.
Qed.

Lemma fold_digits_value d :
  forall acc,
    fold_left (fun a c => a * 10 + (c - 48)) (digit_chars d) acc = uint_value acc d.
Proof.
  induction d; intros acc; cbn [digit_chars fold_left uint_value];
    [reflexivity | rewrite IHd; f_equal; lia ..].
Qed.

Lemma length_digit_chars d : length (digit_chars d) = Decimal.nb_digits d.
Proof. induction d; cbn [digit_chars length Decimal.nb_digits]; congruence. Qed.

Lemma numeral_length s :
  Forall (fun c => is_digit c = true) s -> s <> [] ->
  (length (N_to_str (digits_to_N s)) <= length s)%nat.
Proof.
  intros Hd Hne. destruct (digits_as_numeral s Hd) as [d ->].
  unfold digits_to_N. rewrite fold_digits_value, <- of_uint_value.
  rewrite N_to_str_digits, DecimalN.Unsigned.to_of, !length_digit_chars.
  apply DecimalFacts.nb_digits_unorm. intros ->. apply Hne. reflexivity.
Qed.

Lemma small_int_digits s (neg : bool) :
  Forall (fun c => is_digit c = true) s -> s <> [] ->
  Nat.ltb int_max_str_digits (length s) = false ->
  small_ints (PInt (if neg then (- Z.of_N (digits_to_N s))%Z else Z.of_N (digits_to_N s)))
  = true.
Proof.
  intros Hd Hne Hl. cbn [small_ints]. apply Nat.leb_le. apply Nat.ltb_ge in Hl.
  pose proof (numeral_length s Hd Hne) as H.
  assert (E : Z.abs_N (if neg then (- Z.of_N (digits_to_N s))%Z else Z.of_N (digits_to_N s))
              = digits_to_N s) by (destruct neg; lia).
  rewrite E. lia.
Qed.

Lemma span_digits_digits s :
  forall acc ds r,
    span_digits acc s = (ds, r) ->
    Forall (fun c => is_digit c = true) acc ->
    Forall (fun c => is_digit c = true) ds /\ (acc <> [] -> ds <> []).
Proof.
  induction s as [|c t IH]; intros acc ds r H Hacc; cbn [span_digits] in H.
  - injection H as <- _. split; [apply List.Forall_rev, Hacc|].
    intros Hne E. apply Hne. apply (f_equal (@rev N)) in E.
    rewrite rev_involutive in E. exact E.
  - destruct (is_digit c) eqn:Hc.
    + assert (Hacc' : Forall (fun c => is_digit c = true) (c :: acc))
        by (constructor; assumption).
      destruct (IH _ _ _ H Hacc') as [H1 H2].
      split; [exact H1|]. intros _. apply H2. discriminate.
    + injection H as <- _. split; [apply List.Forall_rev, Hacc|].
      intros Hne E. apply Hne. apply (f_equal (@rev N)) in E.
      rewrite rev_involutive in E. exact E.
Qed.

Lemma span_digits_head c t ds r :
  span_digits [] (c :: t) = (ds, r) -> is_digit c = true ->
  Forall (fun c => is_digit c = true) ds /\ ds <> [].
Proof.
  intros H Hc. cbn [span_digits] in H. rewrite Hc in H.
  assert (Hacc : Forall (fun c => is_digit c = true) [c])
    by (constructor; [assumption | constructor]).
  destruct (span_digits_digits _ _ _ _ H Hacc) as [H1 H2].
  split; [exact H1 | apply H2; discriminate].
Qed.

Lemma int_part_digits (l ip rest : str) :
  match l with
  | [] => None
  | c :: t => if c =? 48 then Some ([48], t)
              else if is_digit c then Some (span_digits [] l) else None
  end = Some (ip, rest) ->
  Forall (fun c => is_digit c = true) ip /\ ip <> [].
Proof.
  destruct l as [|c t]; [discriminate|].
  destruct (c =? 48).
  - intros H. injection H as <- _. split; [repeat constructor | discriminate].
  - destruct (is_digit c) eqn:Hc; [|discriminate].
    destruct (span_digits [] (c :: t)) as [ds r] eqn:E.
    intros H. injection H as <- _. exact (span_digits_head _ _ _ _ E Hc).
Qed.

Lemma scan_number_small_ints s v r : scan_number s = Some (v, r) -> small_ints v = true.
Proof.
  unfold scan_number. intros H.
  repeat match type of H with
         | context [match ?x with _ => _ end] => destruct x eqn:?
         | context [if ?x then _ else _] => destruct x eqn:?
         | (let '(_, _) := ?x in _) = _ => destruct x eqn:?
         end;
    try discriminate H; injection H as <- _; try reflexivity;
    match goal with
    | Hi : _ = Some (?ip, _), Hl : Nat.ltb _ (length ?ip) = false |- _ =>
        destruct (int_part_digits _ _ _ Hi) as [Hd Hne];
        first [ exact (small_int_digits ip true Hd Hne Hl)
              | exact (small_int_digits ip false Hd Hne Hl) ]
    end.
Qed.

Lemma dict_set_small_ints k v d :
  small_ints v = true ->
  small_ints (PDict d) = true -> small_ints (PDict (dict_set (PStr k) v d)) = true.
Proof.
  intros Hv. cbn [small_ints].
  induction d as [|[k' v'] t IH]; cbn [dict_set forallb fst snd].
  - rewrite Hv. reflexivity.
  - intros H. apply andb_true_iff in H. destruct H as [H1 H2].
    apply andb_true_iff in H1. destruct H1 as [Hk Hv'].
    destruct (key_eqb k' (PStr k)); cbn [forallb fst snd].
    + rewrite Hk, Hv, H2. reflexivity.
    + rewrite Hk, Hv', (IH H2). reflexivity.
Qed.

Lemma array_items_small_ints (scan : scanner) :
  (forall s v r, scan s = Some (v, r) -> small_ints v = true) ->
  forall n acc s l r,
    forallb small_ints acc = true ->
    array_items scan n acc s = Some (l, r) -> forallb small_ints l = true.
Proof.
  intros Hscan. induction n as [|n IH]; intros acc s l r Hacc H; cbn [array_items] in H;
    [discriminate|].
  destruct (scan s) as [[v r0]|] eqn:E; [|discriminate].
  assert (Hacc' : forallb small_ints (v :: acc) = true)
    by (cbn [forallb]; rewrite (Hscan _ _ _ E), Hacc; reflexivity).
  destruct (skip_ws r0) as [|c r']; [discriminate|].
  destruct (c =? 93).
  - injection H as <- _. rewrite forallb_forall in *. intros x Hx.
    apply Hacc'. apply in_rev. exact Hx.
  - destruct (c =? 44); [|discriminate]. exact (IH _ _ _ _ Hacc' H).
Qed.

Lemma object_items_small_ints (scan : scanner) :
  (forall s v r, scan s = Some (v, r) -> small_ints v = true) ->
  forall n acc s d r,
    small_ints (PDict acc) = true ->
    object_items scan n acc s = Some (d, r) -> small_ints (PDict d) = true.
Proof.
  intros Hscan. induction n as [|n IH]; intros acc s d r Hacc H; cbn [object_items] in H;
    [discriminate|].
  destruct s as [|c t]; [discriminate|].
  destruct c as [|p]; [discriminate|].
  do 6 (destruct p as [p|p|]; try discriminate).
  destruct (scanstring (S (length t)) [] t) as [[k r0]|]; [|discriminate].
  destruct (skip_ws r0) as [|c1 r1]; [discriminate|].
  destruct c1 as [|p]; [discriminate|].
  do 6 (destruct p as [p|p|]; try discriminate).
  destruct (scan (skip_ws r1)) as [[v r2]|] eqn:E; [|discriminate].
  cbv zeta in H.
  assert (Hacc' : small_ints (PDict (dict_set (PStr k) v acc)) = true)
    by (apply dict_set_small_ints; [exact (Hscan _ _ _ E) | exact Hacc]).
  destruct (skip_ws r2) as [|c2 r3]; [discriminate|].
  destruct (c2 =? 125).
  - injection H as <- _. exact Hacc'.
  - destruct (c2 =? 44); [|discriminate]. exact (IH _ _ _ _ Hacc' H).
Qed.

Lemma scan_once_small_ints fuel :
  forall s v r, scan_once fuel s = Some (v, r) -> small_ints v = true.
Proof.
  induction fuel as [|f IH]; intros s v r H; cbn [scan_once] in H; [discriminate|].
  destruct s as [|c t]; [discriminate|].
  destruct (c =? 34).
  { destruct (scanstring _ _ _) as [[x r0]|]; [|discriminate].
    injection H as <- _. reflexivity. }
  destruct (c =? 123).
  { unfold scan_object in H.
    destruct (skip_ws t) as [|c' t']; [discriminate|].
    destruct (c' =? 125); [injection H as <- _; reflexivity|].
    destruct (object_items _ _ _ _) as [[d r0]|] eqn:E; [|discriminate].
    injection H as <- _.
    exact (object_items_small_ints _ IH _ [] _ _ _ eq_refl E). }
  destruct (c =? 91).
  { unfold scan_array in H.
    destruct (skip_ws t) as [|c' t']; [discriminate|].
    destruct (c' =? 93); [injection H as <- _; reflexivity|].
    destruct (array_items _ _ _ _) as [[l r0]|] eqn:E; [|discriminate].
    injection H as <- _.
    exact (array_items_small_ints _ IH _ [] _ _ _ eq_refl E). }
  destruct (c =? 110); [apply scan_constant_value in H; subst v; reflexivity|].
  destruct (c =? 116); [apply scan_constant_value in H; subst v; reflexivity|].
  destruct (c =? 102); [apply scan_constant_value in H; subst v; reflexivity|].
  destruct (c =? 78); [apply scan_constant_value in H; subst v; reflexivity|].
  destruct (c =? 73); [apply scan_constant_value in H; subst v; reflexivity|].
  destruct (scan_constant "-Infinity" _ _) as [[v' r']|] eqn:E.
  - injection H as <- _. apply scan_constant_value in E. subst v'. reflexivity.
  - exact (scan_number_small_ints _ _ _ H).
Qed.

Lemma json_loads_small_ints s v : json_loads s = Some v -> small_ints v = true.
Proof.
  unfold json_loads.
  destruct (scan_once _ _) as [[w r]|] eqn:E; [|discriminate].
  destruct (skip_ws r); [|discriminate].
  intros H. injection H as <-. exact (scan_once_small_ints _ _ _ _ E).
Qed.

Lemma try_chunks_small_ints n t v : try_chunks n t = Some v -> small_ints v = true.
Proof.
  induction n as [|n IH]; cbn [try_chunks]; [discriminate|].
  destruct (json_loads (firstn (S n) t)) as [w|] eqn:E; [|exact IH].
  intros H. injection H as <-. exact (json_loads_small_ints _ _ E).
Qed.

Lemma scan_braces_small_ints text v : scan_braces text = Some v -> small_ints v = true.
Proof.
  induction text as [|c t IH]; cbn [scan_braces]; [discriminate|].
  destruct (c =? 123); [|exact IH].
  destruct (try_chunks (length (c :: t)) (c :: t)) as [w|] eqn:E; [|exact IH].
  intros H. injection H as <-. exact (try_chunks_small_ints _ _ _ E).
Qed.

Lemma loads_group_small_ints m v : loads_group m = Some v -> small_ints v = true.
Proof. destruct m as [m|]; [apply json_loads_small_ints | discriminate]. Qed.

Lemma extract_json_block_small_ints text : small_ints (extract_json_block text) = true.
Proof.
  unfold extract_json_block. destruct text as [|c t]; [reflexivity|].
  destruct (attempt_fenced_json _) as [v|] eqn:E1; [exact (loads_group_small_ints _ _ E1)|].
  destruct (attempt_fenced _) as [v|] eqn:E2; [exact (loads_group_small_ints _ _ E2)|].
  destruct (attempt_scan _) as [v|] eqn:E3; [exact (scan_braces_small_ints _ _ E3)|].
  destruct (attempt_direct _) as [v|] eqn:E4;
    [exact (json_loads_small_ints _ _ E4) | reflexivity].
Qed.

Lemma repair_json_like_small_ints text : small_ints (repair_json_like text) = true.
Proof.
  unfold repair_json_like. destruct text as [|c t]; [reflexivity|]. cbv zeta.
  destruct (json_loads _) as [v|] eqn:E; [exact (json_loads_small_ints _ _ E) | reflexivity].
Qed.

Lemma str_list_small_ints l : small_ints (str_list l) = true.
Proof. unfold str_list. cbn [small_ints]. induction l; [reflexivity | exact IHl]. Qed.

Lemma try_prompt_small_ints net i p last d last' :
  try_prompt net i p last = (Some d, last') -> small_ints d = true.
Proof.
  unfold try_prompt. destruct (net i p) as [text|]; [|discriminate].
  destruct (truthy (extract_json_block text)).
  - intros H. injection H as <- _. apply extract_json_block_small_ints.
  - destruct (truthy (repair_json_like text)); [|discriminate].
    intros H. injection H as <- _. apply repair_json_like_small_ints.
Qed.

Lemma call_model_small_ints net idea : small_ints (_call_model net idea) = true.
Proof.
  unfold _call_model.
  destruct (try_prompt net 0 _ _) as [[d|] last] eqn:E1;
    [exact (try_prompt_small_ints _ _ _ _ _ _ E1)|].
  destruct (try_prompt net 1 _ _) as [[d|] last'] eqn:E2;
    [exact (try_prompt_small_ints _ _ _ _ _ _ E2)|].
  unfold heuristic_from_text. cbn [small_ints forallb fst snd key andb].
  rewrite !str_list_small_ints. reflexivity.
Qed.

(** ** When finalisation raises *)

Lemma clean_value_none v : clean_value v = None <-> wrong_text v = true.
Proof.
  unfold clean_value, wrong_text, py_or.
  destruct v as [|b|z|f|s|l|d]; cbn [truthy is_str negb].
  - split; discriminate.
  - destruct b; cbn; split; (discriminate || reflexivity || auto).
  - destruct (negb (z =? 0)%Z); cbn; split; (discriminate || reflexivity || auto).
  - destruct f as [neg m e| |neg]; [destruct (negb (m =? 0))|..]; cbn;
      split; (discriminate || reflexivity || auto).
  - destruct s; cbn; split; discriminate.
  - destruct l; cbn; split; (discriminate || reflexivity || auto).
  - destruct d; cbn; split; (discriminate || reflexivity || auto).
Qed.

Lemma ingredient_pieces_total d :
  forallb (fun kv => is_str (fst kv) && text_keys (snd kv)) d = true ->
  ingredient_pieces d <> None.
Proof.
  induction d as [|[k v] t IH]; cbn [forallb ingredient_pieces fst snd]; [discriminate|].
  intros H. apply andb_true_iff in H. destruct H as [H1 H2].
  apply andb_true_iff in H1. destruct H1 as [Hk _].
  destruct k; try discriminate Hk.
  destruct (ingredient_pieces t); [discriminate | exact (IH H2)].
Qed.

Lemma plainify_ingredient_total x :
  text_keys x = true -> _plainify_ingredient x <> None.
Proof.
  destruct x as [|b|z|f|s|l|d]; cbn [_plainify_ingredient]; try discriminate.
  cbn [text_keys]. intros H.
  destruct (truthy _ && truthy _); [discriminate|].
  destruct (truthy _); [discriminate|].
  destruct (ingredient_pieces d) as [[|p ps]|] eqn:E; try discriminate.
  destruct (ingredient_pieces_total d H E).
Qed.

Lemma plainify_all_some f l :
  Forall (fun x => f x <> None) l -> plainify_all f l <> None.
Proof.
  induction 1 as [|x l Hx Hl IH]; cbn [plainify_all]; [discriminate|].
  destruct (nonempty (strip (py_str x))); [|exact IH].
  destruct (f x) eqn:E; [|destruct (Hx eq_refl)].
  destruct (plainify_all f l); [discriminate | exact IH].
Qed.

Lemma dict_get_text_keys k d :
  text_keys (PDict d) = true -> text_keys (dict_get k d) = true.
Proof.
  unfold dict_get. cbn [text_keys].
  induction d as [|[k' v] t IH]; cbn [forallb dict_lookup fst snd]; [reflexivity|].
  intros H. apply andb_true_iff in H. destruct H as [H1 H2].
  apply andb_true_iff in H1. destruct H1 as [_ Hv].
  destruct (key_eqb k' k); [exact Hv | exact (IH H2)].
Qed.

Lemma coerce_list_text_keys v :
  text_keys v = true -> Forall (fun x => text_keys x = true) (_coerce_list v).
Proof.
  intros H. destruct v as [|b|z|f|s|l|d]; cbn [_coerce_list];
    try (constructor; [exact H | constructor]).
  - constructor.
  - apply List.Forall_forall. intros x Hx. apply in_map_iff in Hx.
    destruct Hx as (p & <- & _). reflexivity.
  - cbn [text_keys] in H. rewrite forallb_forall in H.
    apply List.Forall_forall. exact H.
Qed.

(** X11.  Every value the model call returns has texts for keys and no
    integer beyond the 4300 digits that [str] writes.  Finalising such a
    record raises exactly when its title or its description is a value
    that is true and not a text (a number other than zero, [True], a list
    or record that is not empty). *)
Theorem sanitize_raises_iff :
  (forall (net : transport) (idea : str),
     text_keys (_call_model net idea) = true
     /\ small_ints (_call_model net idea) = true)
  /\ (forall (d : dict) (idea : str),
        text_keys (PDict d) = true ->
        small_ints (PDict d) = true ->
        (sanitize_recipe_data (PDict d) idea = None
         <-> wrong_text (dict_get (key "title") d) = true
             \/ wrong_text (dict_get (key "description") d) = true)).
Proof.
  split; [intros net idea; split; [apply call_model_keys | apply call_model_small_ints]|].
  intros d idea Hk _. unfold sanitize_recipe_data. rewrite py_dict_of_record.
  destruct (clean_value (dict_get (key "title") d)) as [t|] eqn:Et.
  2:{ apply clean_value_none in Et. split; [auto | reflexivity]. }
  destruct (clean_value (dict_get (key "description") d)) as [ds|] eqn:Ed.
  2:{ apply clean_value_none in Ed. split; [auto | reflexivity]. }
  destruct (plainify_all _plainify_ingredient _) as [ing|] eqn:E1.
  2:{ exfalso. revert E1. apply plainify_all_some.
      eapply List.Forall_impl; [|apply coerce_list_text_keys, dict_get_text_keys, Hk].
      intros x. apply plainify_ingredient_total. }
  destruct (plainify_all (fun x => Some (_plainify_step x)) _) as [steps|] eqn:E2.
  2:{ exfalso. revert E2. apply plainify_all_some.
      apply List.Forall_forall. intros x _. discriminate. }
  split; [discriminate|].
  intros [H|H]; apply clean_value_none in H; congruence.
Qed.

Lemma sanitize_raises_iff_witness :
  sanitize_recipe_data (PDict [(key "title", PInt 5)]) (u "soup") = None
  /\ sanitize_recipe_data
       (PDict [(key "title", PFloat (FFin false 0 0));
               (key "ingredients", PList [PInt 12; PStr (u "salt")])])
       (u "soup") <> None.
Proof.
  destruct sanitize_raises_iff as [_ H]. split.
  - apply H; [reflexivity | reflexivity | left; reflexivity].
  - intros E. apply H in E; [|reflexivity | reflexivity].
    destruct E as [E|E]; discriminate E.
Defined.

(** ** Entries of a finalised record *)

Lemma clean_text_entry s : clean_entry (_clean_text s).
Proof.
  destruct (clean_text_shape s) as [Hc Hs].
  split; [apply clean_text_sign_free | split; assumption].
Qed.

Ltac clean_constant :=
  split; [repeat (constructor; [reflexivity|]); constructor
         | split; [split; vm_compute; reflexivity | vm_compute; reflexivity]].

Lemma plainify_ingredient_entry x s : _plainify_ingredient x = Some s -> clean_entry s.
Proof.
  destruct x as [|b|z|f|t|l|d]; cbn [_plainify_ingredient]; intros H;
    try (injection H as <-; apply clean_text_entry).
  destruct (truthy _ && truthy _); [injection H as <-; apply clean_text_entry|].
  destruct (truthy _); [injection H as <-; apply clean_text_entry|].
  destruct (ingredient_pieces d) as [[|p ps]|]; [| |discriminate];
    injection H as <-; [clean_constant | apply clean_text_entry].
Qed.

Lemma plainify_all_entries f (P : str -> Prop) :
  (forall x s, f x = Some s -> P s) ->
  forall raw l, plainify_all f raw = Some l -> Forall P l.
Proof.
  intros Hf. induction raw as [|x raw IH]; intros l H; cbn [plainify_all] in H.
  - injection H as <-. constructor.
  - destruct (nonempty (strip (py_str x))); [|exact (IH _ H)].
    destruct (f x) as [s|] eqn:E; [|discriminate].
    destruct (plainify_all f raw) as [r|]; [|discriminate].
    injection H as <-. constructor; [exact (Hf _ _ E) | exact (IH _ eq_refl)].
Qed.

Lemma or_default_entries (P : str -> Prop) l dflt :
  Forall P l -> Forall P dflt -> Forall P (or_default l dflt).
Proof. intros Hl Hd. destruct l; [exact Hd | exact Hl]. Qed.

Lemma default_ingredients_entries : Forall clean_entry default_ingredients.
Proof. repeat (constructor; [clean_constant|]). constructor. Qed.

Lemma default_steps_entries : Forall clean_entry default_steps.
Proof. repeat (constructor; [clean_constant|]). constructor. Qed.

(** X12.  In a finalised record every ingredient and every step is a
    text without braces, brackets, backticks or double quotes, without a
    blank at either end, and with blanks and commas in normal form. *)
Theorem sanitize_entries_clean :
  forall (data : pyval) (idea : str) (out : dict),
    sanitize_recipe_data data idea = Some out ->
    exists ing steps,
      dict_get (key "ingredients") out = str_list ing
      /\ dict_get (key "steps") out = str_list steps
      /\ Forall clean_entry ing /\ Forall clean_entry steps.
Proof.
  intros data idea out. unfold sanitize_recipe_data.
  destruct (if truthy data then py_dict data else Some []) as [out0|]; [|discriminate].
  destruct (clean_value (dict_get (key "title") out0)) as [t|]; [|discriminate].
  destruct (clean_value (dict_get (key "description") out0)) as [d|]; [|discriminate].
  destruct (plainify_all _plainify_ingredient _) as [ing|] eqn:E1; [|discriminate].
  destruct (plainify_all _ (_coerce_list (dict_get (key "steps") out0))) as [steps|] eqn:E2;
    [|discriminate].
  intros H. injection H as <-. unfold key.
  eexists _, _.
  split; [rewrite dict_get_set_other by reflexivity; apply dict_get_set_same|].
  split; [apply dict_get_set_same|].
  split; apply or_default_entries.
  - exact (plainify_all_entries _ _ plainify_ingredient_entry _ _ E1).
  - exact default_ingredients_entries.
  - refine (plainify_all_entries _ _ _ _ _ E2).
    intros x s Hs. injection Hs as <-.
    destruct x as [|b|z|f|s|l|dd]; cbn [_plainify_step]; try apply clean_text_entry.
    destruct (first_step_field step_keys dd); apply clean_text_entry.
  - exact default_steps_entries.
Qed.

Lemma sanitize_entries_clean_witness :
  exists ing steps,
    dict_get (key "ingredients")
      [(key "title", PStr (u "Soup")); (key "description", PStr (u "Warm."));
       (key "servings", PInt 2); (key "time_minutes", PInt 20);
       (key "ingredients", str_list default_ingredients);
       (key "steps", str_list default_steps)] = str_list ing
    /\ dict_get (key "steps")
         [(key "title", PStr (u "Soup")); (key "description", PStr (u "Warm."));
          (key "servings", PInt 2); (key "time_minutes", PInt 20);
          (key "ingredients", str_list default_ingredients);
          (key "steps", str_list default_steps)] = str_list steps
    /\ Forall clean_entry ing /\ Forall clean_entry steps.
Proof.
  apply (sanitize_entries_clean
           (PDict [(key "title", PStr (u "Soup")); (key "description", PStr (u "Warm."))])
           (u "soup")).
  vm_compute. reflexivity.
Defined.

(** ** The model call *)

Lemma try_prompt_truthy net i p last d last' :
  try_prompt net i p last = (Some d, last') -> truthy d = true.
Proof.
  unfold try_prompt. destruct (net i p) as [text|]; [|discriminate].
  destruct (truthy (extract_json_block text)) eqn:E1.
  - intros H. injection H as <- _. exact E1.
  - destruct (truthy (repair_json_like text)) eqn:E2; [|discriminate].
    intros H. injection H as <- _. exact E2.
Qed.

(** X13.  What [_call_model] returns is never null, false or empty,
    whatever the transport does, so that the [or] of the finaliser
    never replaces it. *)
Theorem call_model_truthy :
  forall (net : transport) (idea : str), truthy (_call_model net idea) = true.
Proof.
  intros net idea. unfold _call_model.
  destruct (try_prompt net 0 _ _) as [[d|] last] eqn:E1;
    [exact (try_prompt_truthy _ _ _ _ _ _ E1)|].
  destruct (try_prompt net 1 _ _) as [[d|] last'] eqn:E2;
    [exact (try_prompt_truthy _ _ _ _ _ _ E2) | reflexivity].
Qed.

(** X14.  A reply that ends in a JSON object which is not empty, after a
    lead-in without braces and with no backtick anywhere, makes
    [_call_model] return that object from the first request; what a
    second request would give plays no part. *)
Theorem call_model_first_reply :
  forall (net : transport) (idea lead t : str) (v : pyval),
    net 0%nat (build_prompt idea) = Some (lead ++ 123 :: t) ->
    Forall (fun c => c <> 123 /\ c <> 96) lead ->
    Forall (fun c => c <> 96) t ->
    json_loads (123 :: t) = Some v ->
    truthy v = true ->
    _call_model net idea = v.
Proof.
  intros net idea lead t v Hnet Hlead Ht Hv Htr.
  unfold _call_model, try_prompt. rewrite Hnet.
  rewrite (extract_trailing_object lead t v Hlead Ht Hv), Htr.
  reflexivity.
Qed.

Lemma call_model_first_reply_witness :
  _call_model (answers_title "Soup") (u "soup") = PDict [(key "title", PStr (u "Soup"))].
Proof.
  apply (call_model_first_reply _ _ [] (quoted "title" ++ u ": " ++ quoted "Soup" ++ u "}")).
  - reflexivity.
  - constructor.
  - repeat (constructor; [discriminate|]). constructor.
  - vm_compute. reflexivity.
  - reflexivity.
Defined.

(** ** Generation without a usable reply *)

Lemma try_prompt_silent net i p last :
  silent net -> try_prompt net i p last = (None, last).
Proof.
  intros H. unfold try_prompt. destruct (H i p) as [E|E]; rewrite E; reflexivity.
Qed.

Lemma call_model_silent net idea :
  silent net -> _call_model net idea = PDict (heuristic_from_text [] idea).
Proof.
  intros H. unfold _call_model. rewrite !(try_prompt_silent _ _ _ _ H). reflexivity.
Qed.

(** The record made from the idea alone. *)
Lemma sanitize_stock_record idea :
  let t0 := strip (_clean_text (idea_title idea)) in
  let t := if weak title_placeholders t0 then idea_title idea else t0 in
  let d0 := strip (_clean_text (idea_description idea)) in
  let ds := if weak description_placeholders d0 then idea_description idea else d0 in
  t <> []
  /\ sanitize_recipe_data (PDict (heuristic_from_text [] idea)) idea
     = Some [ (key "title", PStr t); (key "description", PStr ds);
              (key "servings", PInt 2); (key "time_minutes", PInt 20);
              (key "ingredients", str_list default_ingredients);
              (key "steps", str_list default_steps) ].
Proof.
  intros t0 t d0 ds.
  destruct (sanitize_recipe_data (PDict (heuristic_from_text [] idea)) idea) as [out|] eqn:E;
    [|destruct (sanitize_heuristic_total _ _ E)].
  pose proof (sanitize_recipe_data_fields _ _ _ E)
    as (t1 & d1 & _ & _ & _ & _ & Ht1 & _ & _ & _ & _ & _ & Hne & _).
  revert E. unfold sanitize_recipe_data.
  change (truthy (PDict (heuristic_from_text [] idea))) with true. cbv iota.
  cbn [py_dict].
  change (dict_get (key "title") (heuristic_from_text [] idea))
    with (PStr (idea_title idea)).
  change (dict_get (key "description") (heuristic_from_text [] idea))
    with (PStr (idea_description idea)).
  change (dict_get (key "ingredients") (heuristic_from_text [] idea))
    with (str_list default_ingredients).
  change (dict_get (key "steps") (heuristic_from_text [] idea))
    with (str_list default_steps).
  change (dict_get (key "servings") (heuristic_from_text [] idea)) with (PInt 2).
  change (dict_get (key "time_minutes") (heuristic_from_text [] idea)) with (PInt 20).
  assert (Hc : forall s, clean_value (PStr s) = Some (_clean_text s))
    by (intros [|c s]; reflexivity).
  rewrite !Hc.
  change (plainify_all _plainify_ingredient (_coerce_list (str_list default_ingredients)))
    with (Some default_ingredients).
  change (plainify_all (fun x => Some (_plainify_step x))
            (_coerce_list (str_list default_steps)))
    with (Some default_steps).
  cbv zeta. cbv iota. fold t0 d0. fold t ds.
  change (_as_int (PInt 2) 2) with 2%Z. change (_as_int (PInt 20) 20) with 20%Z.
  change (or_default default_ingredients default_ingredients) with default_ingredients.
  change (or_default default_steps default_steps) with default_steps.
  intros E. split.
  - injection E as <-. clearbody t ds.
    change (dict_lookup (key "title") _) with (Some (PStr t)) in Ht1.
    congruence.
  - clearbody t ds. rewrite <- E. reflexivity.
Qed.

(** X15.  When every request raises or is answered with nothing, the
    recipe shown is the stock one: the three default ingredients, the
    default step, two servings and twenty minutes.  Its description is the
    sentence made from the idea, sanitised, or the sentence itself where
    sanitising leaves a placeholder; its title is the title made from the
    idea, treated likewise and then passed through the registry, which is
    left as that call leaves it. *)
Theorem generate_stock_recipe :
  forall (net : transport) (seen : registry) (idea : str),
    silent net ->
    let t0 := strip (_clean_text (idea_title idea)) in
    let t := if weak title_placeholders t0 then idea_title idea else t0 in
    let d0 := strip (_clean_text (idea_description idea)) in
    let ds := if weak description_placeholders d0 then idea_description idea else d0 in
    _generate_and_render net seen idea
    = Some ([ (key "title", PStr (fst (_unique_title seen t)));
              (key "description", PStr ds);
              (key "servings", PInt 2); (key "time_minutes", PInt 20);
              (key "ingredients", str_list default_ingredients);
              (key "steps", str_list default_steps) ],
            snd (_unique_title seen t)).
Proof.
  intros net seen idea H t0 t d0 ds. unfold _generate_and_render.
  rewrite (call_model_silent _ _ H).
  pose proof (sanitize_stock_record idea) as HS. cbv zeta in HS.
  fold t0 d0 in HS. fold t ds in HS. destruct HS as [Hne E].
  clearbody t ds. clear t0 d0. rewrite E.
  change (dict_get (key "title") _) with (PStr t).
  assert (Ht : py_or (PStr t) (PStr default_title) = PStr t)
    by (destruct t; [congruence | reflexivity]).
  rewrite Ht. cbn [retitle].
  destruct (_unique_title seen t) as [s' seen']. reflexivity.
Qed.

Lemma generate_stock_recipe_witness :
  _generate_and_render (fun _ _ => None) (<[u "garlic bread" := 1]> ∅) (u " garlic bread")
  = Some ([ (key "title", PStr (u "Garlic Bread (v2)"));
            (key "description",
             PStr (u "Garlic bread turned into a balanced, easy-to-cook recipe."));
            (key "servings", PInt 2); (key "time_minutes", PInt 20);
            (key "ingredients", str_list default_ingredients);
            (key "steps", str_list default_steps) ],
          <[u "garlic bread" := 2]> ∅).
Proof.
  rewrite (generate_stock_recipe (fun _ _ => None) (<[u "garlic bread" := 1]> ∅)
             (u " garlic bread"))
    by (intros i p; left; reflexivity).
  vm_compute. reflexivity.
Defined.

(** * Properties of the page *)

(** ** The ingredient columns *)

Lemma half_split n :
  (8 < n)%nat ->
  ((n + 1) / 2 <= n)%nat
  /\ ((n + 1) / 2 = n - (n + 1) / 2 \/ (n + 1) / 2 = S (n - (n + 1) / 2))%nat.
Proof.
  intros Hn. pose proof (Nat.div_mod_eq (n + 1) 2) as E.
  pose proof (Nat.mod_upper_bound (n + 1) 2 ltac:(lia)) as B.
  set (h := ((n + 1) / 2)%nat) in *. set (r := ((n + 1) mod 2)%nat) in *.
  lia.
Qed.

(** X16.  The ingredient view loses nothing and keeps the order: up to
    eight ingredients stand in one column; more are split over two
    columns that, read one after the other, hold every ingredient once,
    in order, the first column as long as the second or one longer. *)
Theorem ingredients_view_columns :
  forall l : list pyval,
    ((length l <= 8)%nat
     /\ _ingredients_view (PList l) = Some (Column (List.map bullet_text l)))
    \/ (exists c1 c2,
          (8 < length l)%nat
          /\ _ingredients_view (PList l) = Some (Row [Column c1; Column c2])
          /\ c1 ++ c2 = List.map bullet_text l
          /\ (length c1 = length c2 \/ length c1 = S (length c2))).
Proof.
  intros l. unfold _ingredients_view. cbn [py_iter].
  destruct (Nat.leb_spec (length l) 8) as [H|H]; [left; auto|].
  right. eexists _, _. split; [exact H|]. split; [reflexivity|].
  destruct (half_split _ H) as [Hle Hhalf].
  split.
  - rewrite <- List.map_app, firstn_skipn. reflexivity.
  - rewrite !length_map, length_firstn, length_skipn.
    rewrite Nat.min_l by exact Hle. exact Hhalf.
Qed.

(** ** The recipe as Markdown *)

Lemma last_control_shows a shown : shows a shown -> last_control (recipe_card a) = Some shown.
Proof.
  intros [cs ->]. cbn [last_control]. rewrite List.map_app. cbn [List.map].
  apply last_last.
Qed.

Lemma set_last_control_shows a shown x :
  shows a shown ->
  exists cs, recipe_card a = Container (Some (Column (cs ++ [shown])))
             /\ set_last_control x (recipe_card a)
                = Some (Container (Some (Column (cs ++ [x])))).
Proof.
  intros [cs E]. exists cs. split; [exact E|]. rewrite E. cbn [set_last_control].
  destruct (cs ++ [shown]) as [|c r] eqn:Ecs; [destruct cs; discriminate Ecs|].
  rewrite <- Ecs, removelast_last. reflexivity.
Qed.

Lemma replace_go_absent a b s :
  (match a with c :: _ => Forall (fun x => x <> c) s | [] => False end) ->
  replace_go a b 0 s = s.
Proof.
  destruct a as [|c a']; [intros []|]. intros H.
  induction H as [|x t Hx Ht IH]; [reflexivity|].
  cbn [replace_go strip_prefix]. unfold ch_eqb.
  destruct (N.eqb_spec c x) as [E|_]; [congruence|]. rewrite IH. reflexivity.
Qed.

Lemma unbullet s :
  Forall (fun c => c <> 8226) s -> replace_str bullet_prefix [] (bullet_prefix ++ s) = s.
Proof.
  intros H. unfold replace_str, bullet_prefix. cbn [app replace_go strip_prefix length].
  change (ch_eqb 8226 8226) with true. change (ch_eqb 32 32) with true. cbv iota.
  cbn [Nat.sub app]. apply replace_go_absent. exact H.
Qed.

Lemma item_lines_app x y :
  item_lines (x ++ y)
  = match item_lines x, item_lines y with
    | Some a, Some b => Some (a ++ b)
    | _, _ => None
    end.
Proof.
  induction x as [|i x IH]; cbn [app item_lines].
  - destruct (item_lines y); reflexivity.
  - rewrite IH. destruct (item_line i); [|reflexivity].
    destruct (item_lines x); [|reflexivity].
    destruct (item_lines y); [rewrite List.app_assoc|]; reflexivity.
Qed.

Lemma item_lines_bullets ing :
  Forall (Forall (fun c => c <> 8226)) ing ->
  item_lines (List.map bullet_text (List.map PStr ing))
  = Some (List.map PStr (List.map (app (u "- ")) ing)).
Proof.
  induction 1 as [|s t Hs Ht IH]; [reflexivity|].
  cbn [List.map item_lines]. rewrite IH.
  unfold bullet_text at 1. cbn [py_str item_line]. rewrite (unbullet s Hs). reflexivity.
Qed.

Lemma step_values_numbered steps :
  forall i, step_values (numbered_from i (List.map PStr steps))
            = List.map PStr (numbered_lines i steps).
Proof.
  induction steps as [|s t IH]; intros i; [reflexivity|].
  cbn [List.map numbered_from numbered_lines]. unfold step_values in *.
  cbn [flat_map app py_str]. rewrite IH. reflexivity.
Qed.

Lemma texts_of_texts l : texts_of (List.map PStr l) = Some l.
Proof. induction l as [|s t IH]; [reflexivity|]. cbn [List.map texts_of]. rewrite IH. reflexivity. Qed.

(** The ingredient section of the view, as lines. *)
Lemma ingredient_parts_view ing :
  Forall (Forall (fun c => c <> 8226)) ing ->
  exists iv,
    _ingredients_view (str_list ing) = Some iv
    /\ forall title icon,
         ingredient_parts (Some (_section_card title icon iv))
         = Some (PStr (10 :: u "## Ingredients")
                 :: List.map PStr (List.map (app (u "- ")) ing)).
Proof.
  intros H. unfold str_list, _ingredients_view. cbn [py_iter].
  destruct (length (List.map PStr ing) <=? 8)%nat; eexists; (split; [reflexivity|]);
    intros title icon; unfold _section_card; cbn [ingredient_parts section_body nth_error].
  - rewrite (item_lines_bullets ing H). reflexivity.
  - cbn [column_lines].
    pose proof (item_lines_bullets ing H) as Hl.
    rewrite <- (firstn_skipn ((length (List.map PStr ing) + 1) / 2) (List.map PStr ing)),
      List.map_app, item_lines_app in Hl.
    destruct (item_lines (List.map bullet_text (firstn _ _))) as [l1|]; [|discriminate Hl].
    destruct (item_lines (List.map bullet_text (skipn _ _))) as [l2|]; [|discriminate Hl].
    injection Hl as Hl. rewrite app_nil_r, Hl. reflexivity.
Qed.

Lemma dict_get_or_found k dflt d v :
  dict_lookup k d = Some v -> dict_get_or k dflt d = v.
Proof. unfold dict_get_or. intros ->. reflexivity. Qed.

Lemma strip_heading x : strip (10 :: 35 :: x) <> [].
Proof.
  assert (E : strip (10 :: 35 :: x) = strip (35 :: x)) by reflexivity.
  rewrite E. apply strip_nonempty; [reflexivity | discriminate].
Qed.

(** X17.  What the copy handler takes from a rendered recipe: the
    ingredient lines without their bullets, each behind a dash, and the
    numbered steps, under their two headings.  The title, the servings
    and time line and the description are not part of it: the view puts
    the header block in a row, and the handler looks for a column. *)
Theorem copied_markdown :
  forall (d : dict) (ing steps : list str),
    dict_lookup (key "ingredients") d = Some (str_list ing) ->
    dict_lookup (key "steps") d = Some (str_list steps) ->
    Forall (Forall (fun c => c <> 8226)) ing ->
    exists view,
      _recipe_view d = Some view
      /\ forall a : state,
           shows a view ->
           let md := strip (join [10; 10]
                              ((10 :: u "## Ingredients") :: List.map (app (u "- ")) ing
                               ++ (10 :: u "## Steps") :: numbered_lines 0 steps)) in
           _current_recipe_markdown a = Some md
           /\ clipboard (on_copy a) = Some md
           /\ snack_bar (on_copy a) = Some (u "Copied to clipboard.").
Proof.
  intros d ing steps Hi Hs Hb.
  destruct (ingredient_parts_view ing Hb) as (iv & Eiv & Hparts).
  unfold _recipe_view.
  rewrite (dict_get_or_found _ _ _ _ Hi), (dict_get_or_found _ _ _ _ Hs), Eiv.
  unfold _steps_view, str_list at 1. cbn [py_iter].
  eexists. split; [reflexivity|]. intros a Ha. set (md := strip (join _ _)).
  assert (E : _current_recipe_markdown a = Some md).
  { unfold _current_recipe_markdown. rewrite (last_control_shows _ _ Ha).
    cbn [nth_error]. rewrite Hparts.
    unfold _section_card at 1. cbn [step_parts section_body nth_error header_parts].
    rewrite step_values_numbered. cbn [app].
    change (PStr (10 :: u "## Ingredients")
            :: List.map PStr (List.map (app (u "- ")) ing)
               ++ PStr (10 :: u "## Steps") :: List.map PStr (numbered_lines 0 steps))
      with (List.map PStr ((10 :: u "## Ingredients") :: List.map (app (u "- ")) ing)
            ++ List.map PStr ((10 :: u "## Steps") :: numbered_lines 0 steps)).
    rewrite <- List.map_app, texts_of_texts. cbn [app]. fold md.
    destruct md as [|c t] eqn:Emd; [|reflexivity].
    exfalso. revert Emd. subst md.
    destruct (List.map (app (u "- ")) ing ++ (10 :: u "## Steps") :: numbered_lines 0 steps)
      as [|p r] eqn:Er; [destruct (List.map (app (u "- ")) ing); discriminate Er|].
    change (join [10; 10] ((10 :: u "## Ingredients") :: p :: r))
      with (10 :: 35 :: (u "# Ingredients" ++ [10; 10] ++ join [10; 10] (p :: r))).
    apply strip_heading. }
  split; [exact E|]. unfold on_copy. rewrite E. split; reflexivity.
Qed.

Lemma copied_markdown_witness :
  exists view,
    _recipe_view [(key "title", PStr (u "Soup"));
                  (key "ingredients", str_list [u "salt"]);
                  (key "steps", str_list [u "Boil."])] = Some view
    /\ forall a : state,
         shows a view ->
         let md := strip (join [10; 10]
                            ((10 :: u "## Ingredients") :: List.map (app (u "- ")) [u "salt"]
                             ++ (10 :: u "## Steps") :: numbered_lines 0 [u "Boil."])) in
         _current_recipe_markdown a = Some md
         /\ clipboard (on_copy a) = Some md
         /\ snack_bar (on_copy a) = Some (u "Copied to clipboard.").
Proof.
  apply copied_markdown.
  - reflexivity.
  - reflexivity.
  - repeat constructor; discriminate.
Defined.

(** ** Reset *)

(** X18.  After a reset the card shows the empty state again, the idea
    field is empty, the copy and reset buttons are hidden, and there is
    nothing to copy: the copy handler leaves the clipboard as it is and
    says so. *)
Theorem reset_leaves_nothing_to_copy :
  forall (a : state) (shown : control),
    shows a shown ->
    exists a',
      on_reset a = Some a'
      /\ shows a' empty_state
      /\ idea_input a' = []
      /\ copy_visible a' = false /\ reset_visible a' = false
      /\ generate_disabled a' = false
      /\ _seen_titles a' = _seen_titles a
      /\ _current_recipe_markdown a' = None
      /\ clipboard (on_copy a') = clipboard a
      /\ snack_bar (on_copy a') = Some (u "No recipe to copy.").
Proof.
  intros a shown Ha. unfold on_reset. cbn [recipe_card set_copy_visible set_reset_visible
    set_generate_disabled set_idea_input].
  destruct (set_last_control_shows a shown empty_state Ha) as (cs & _ & ->).
  eexists. split; [reflexivity|].
  assert (Hs : shows
                 (set_recipe_card (Container (Some (Column (cs ++ [empty_state]))))
                    (set_copy_visible false
                       (set_reset_visible false
                          (set_generate_disabled false (set_idea_input [] a)))))
                 empty_state) by (exists cs; reflexivity).
  split; [exact Hs|].
  assert (E : _current_recipe_markdown
                (set_recipe_card (Container (Some (Column (cs ++ [empty_state]))))
                   (set_copy_visible false
                      (set_reset_visible false
                         (set_generate_disabled false (set_idea_input [] a))))) = None).
  { unfold _current_recipe_markdown. rewrite (last_control_shows _ _ Hs). reflexivity. }
  repeat (split; [reflexivity|]). split; [exact E|].
  unfold on_copy. rewrite E. split; reflexivity.
Qed.

Lemma reset_leaves_nothing_to_copy_witness :
  exists a',
    on_reset fresh_page = Some a'
    /\ shows a' empty_state
    /\ idea_input a' = []
    /\ copy_visible a' = false /\ reset_visible a' = false
    /\ generate_disabled a' = false
    /\ _seen_titles a' = _seen_titles fresh_page
    /\ _current_recipe_markdown a' = None
    /\ clipboard (on_copy a') = clipboard fresh_page
    /\ snack_bar (on_copy a') = Some (u "No recipe to copy.").
Proof.
  apply (reset_leaves_nothing_to_copy fresh_page empty_state).
  exists [Row [Text (PStr (u "Recipe")); Container None; Button "Copy"]]. reflexivity.
Defined.

(** ** The overlay *)

Lemma anim_token_after events :
  forall a,
    _anim_token (fold_left overlay_step events a)
    = (_anim_token a + Z.of_nat (length events))%Z.
Proof.
  induction events as [|e es IH]; intros a; cbn [fold_left length].
  - lia.
  - rewrite IH. destruct e; cbn; lia.
Qed.

(** X19.  The animation started with an overlay runs while nothing else
    happens, and ends for good at the next stop or start of the
    overlay: every stop and every start moves the token on, so the loop
    of an earlier start never runs again, not even when a later start has
    set [loading] anew. *)
Theorem stale_animation_ends :
  forall (a : state) (i : nat),
    _animate_generating (snd (_start_overlay a)) i (fst (_start_overlay a)) <> None
    /\ forall events : list overlay_event,
         events <> [] ->
         _animate_generating (snd (_start_overlay a)) i
           (fold_left overlay_step events (fst (_start_overlay a))) = None.
Proof.
  intros a i. split.
  - unfold _animate_generating. cbn [_start_overlay fst snd]. cbn.
    rewrite Z.eqb_refl. discriminate.
  - intros events Hne. unfold _animate_generating.
    rewrite anim_token_after. cbn [_start_overlay fst snd]. cbn [_anim_token
      set_overlay_visible set_anim_token set_loading].
    destruct events as [|e es]; [congruence|]. cbn [length].
    destruct (Z.eqb_spec (_anim_token a + 1)
                (_anim_token a + 1 + Z.of_nat (S (length es)))) as [E|_]; [lia|].
    rewrite andb_false_r. reflexivity.
Qed.

Lemma stale_animation_ends_witness :
  _animate_generating (snd (_start_overlay fresh_page)) 0
    (fold_left overlay_step [Stopped; Started] (fst (_start_overlay fresh_page)))
  = None.
Proof. apply (stale_animation_ends fresh_page 0). discriminate. Defined.

(** ** Generation on the page *)

Lemma dict_get_or_list k dflt d l : dict_get k d = PList l -> dict_get_or k dflt d = PList l.
Proof.
  unfold dict_get, dict_get_or. destruct (dict_lookup k d); [auto | discriminate].
Qed.

Lemma recipe_view_some d ing steps :
  dict_get (key "ingredients") d = str_list ing ->
  dict_get (key "steps") d = str_list steps ->
  exists view, _recipe_view d = Some view.
Proof.
  intros Hi Hs. unfold _recipe_view.
  rewrite (dict_get_or_list _ _ _ _ Hi), (dict_get_or_list _ _ _ _ Hs).
  unfold _ingredients_view, _steps_view. cbn [py_iter].
  destruct (length (List.map PStr ing) <=? 8)%nat; eexists; reflexivity.
Qed.

Lemma unique_title_of_text seen t :
  t <> [] -> unique_title_of seen (PStr t) = Some (_unique_title seen t).
Proof. intros H. destruct t; [congruence | reflexivity]. Qed.

(** Rendering a finalised record under a new title on a page that has
    its card. *)
Lemma render_finalised data idea out shown_title a shown :
  sanitize_recipe_data data idea = Some out ->
  shows a shown ->
  exists view cs,
    _recipe_view (dict_set (key "title") (PStr shown_title) out) = Some view
    /\ recipe_card a = Container (Some (Column (cs ++ [shown])))
    /\ _render_recipe (dict_set (key "title") (PStr shown_title) out) a
       = Some (set_recipe_card (Container (Some (Column (cs ++ [view])))) a).
Proof.
  intros E Ha.
  pose proof (sanitize_recipe_data_fields _ _ _ E)
    as (tt & ds & sv & tm & ing & steps & _ & _ & _ & _ & H5 & H6 & _).
  destruct (recipe_view_some (dict_set (key "title") (PStr shown_title) out) ing steps)
    as [view Ev].
  { unfold key in *. rewrite dict_get_set_other by reflexivity. exact H5. }
  { unfold key in *. rewrite dict_get_set_other by reflexivity. exact H6. }
  destruct (set_last_control_shows a shown view Ha) as (cs & Ec & Es).
  exists view, cs. split; [exact Ev|]. split; [exact Ec|].
  unfold _render_recipe. rewrite Ev, Es. reflexivity.
Qed.

(** X20.  A generation on a page that has its card never raises and
    leaves the page showing the view of the very record that
    [_generate_and_render] computes, with the registry that goes with it,
    the overlay stopped and the generate button enabled.  When the try
    block went through, the copy and reset buttons are visible and no
    notice is shown; when it raised and the handler recovered, the notice
    is shown and the two buttons stay as they were.  A reply that reads as
    the float zero, as [1e-400] does, is no answer: the record is made
    from the reply as prose and the try block goes through.  A reply that
    reads as another number, as [1e400] reads as infinity, is returned by
    the model call and makes the try block raise. *)
Theorem page_after_generation :
  (forall (net : transport) (idea : str) (a : state) (shown : control),
    shows a shown ->
    exists d seen' view a',
      _generate_and_render net (_seen_titles a) idea = Some (d, seen')
      /\ _recipe_view d = Some view
      /\ generate_and_render_page net idea a = Some a'
      /\ shows a' view
      /\ _seen_titles a' = seen'
      /\ loading a' = false /\ overlay_visible a' = false
      /\ generate_disabled a' = false
      /\ _anim_token a' = (_anim_token a + 1)%Z
      /\ match sanitize_recipe_data (_call_model net idea) idea with
         | Some _ =>
             copy_visible a' = true /\ reset_visible a' = true
             /\ snack_bar a' = snack_bar a
         | None =>
             copy_visible a' = copy_visible a /\ reset_visible a' = reset_visible a
             /\ snack_bar a'
                = Some (u "Recovered from an error; showing a stable recipe.")
         end)
  /\ (exists a',
        generate_and_render_page (answers "1e-400") (u "soup") fresh_page = Some a'
        /\ _call_model (answers "1e-400") (u "soup")
           = PDict (heuristic_from_text (u "1e-400") (u "soup"))
        /\ copy_visible a' = true /\ reset_visible a' = true
        /\ snack_bar a' = None)
  /\ (exists a',
        generate_and_render_page (answers "1e400") (u "soup") fresh_page = Some a'
        /\ _call_model (answers "1e400") (u "soup") = PFloat (FInf false)
        /\ copy_visible a' = false /\ reset_visible a' = false
        /\ snack_bar a'
           = Some (u "Recovered from an error; showing a stable recipe.")).
Proof.
  split; [|split].
  - intros net idea a shown Ha.
    unfold generate_and_render_page, try_generate, _generate_and_render.
    destruct (sanitize_recipe_data (_call_model net idea) idea) as [data|] eqn:E.
    + pose proof (sanitize_recipe_data_fields _ _ _ E)
        as (tt & ds & sv & tm & ing & steps & H1 & _ & _ & _ & _ & _ & Ht & _).
      assert (Hg : py_or (dict_get (key "title") data) (PStr default_title) = PStr tt).
      { unfold dict_get. rewrite H1. destruct tt; [congruence | reflexivity]. }
      rewrite Hg, (unique_title_of_text _ _ Ht). cbn [retitle].
      destruct (_unique_title (_seen_titles a) tt) as [s' seen'].
      assert (Ha' : shows (set_seen_titles seen' a) shown) by exact Ha.
      destruct (render_finalised _ _ _ s' _ _ E Ha') as (view & cs & Ev & _ & ->).
      exists (dict_set (key "title") (PStr s') data), seen', view. eexists.
      split; [reflexivity|]. split; [exact Ev|]. split; [reflexivity|].
      split; [exists cs; reflexivity|].
      repeat (split; [reflexivity|]). reflexivity.
    + unfold recover_page, recover.
      destruct (sanitize_recipe_data (PDict (heuristic_from_text [] idea)) idea)
        as [data|] eqn:E2; [|destruct (sanitize_heuristic_total _ _ E2)].
      pose proof (sanitize_recipe_data_fields _ _ _ E2)
        as (tt & ds & sv & tm & ing & steps & H1 & _ & _ & _ & _ & _ & Ht & _).
      rewrite H1, (unique_title_of_text _ _ Ht). cbn [retitle].
      destruct (_unique_title (_seen_titles a) tt) as [s' seen'].
      assert (Ha' : shows (set_seen_titles seen' a) shown) by exact Ha.
      destruct (render_finalised _ _ _ s' _ _ E2 Ha') as (view & cs & Ev & _ & ->).
      exists (dict_set (key "title") (PStr s') data), seen', view. eexists.
      split; [reflexivity|]. split; [exact Ev|]. split; [reflexivity|].
      split; [exists cs; reflexivity|].
      repeat (split; [reflexivity|]). reflexivity.
  - eexists. split; [vm_compute; reflexivity|].
    split; [vm_compute; reflexivity|]. split; [reflexivity|]. split; reflexivity.
  - eexists. split; [vm_compute; reflexivity|].
    split; [vm_compute; reflexivity|]. split; [reflexivity|]. split; reflexivity.
Qed.

Lemma page_after_generation_witness :
  exists d seen' view a',
    _generate_and_render (answers_title "Soup") (_seen_titles fresh_page) (u "soup")
    = Some (d, seen')
    /\ _recipe_view d = Some view
    /\ generate_and_render_page (answers_title "Soup") (u "soup") fresh_page = Some a'
    /\ shows a' view
    /\ _seen_titles a' = seen'
    /\ loading a' = false /\ overlay_visible a' = false
    /\ generate_disabled a' = false
    /\ _anim_token a' = (_anim_token fresh_page + 1)%Z
    /\ match sanitize_recipe_data (_call_model (answers_title "Soup") (u "soup")) (u "soup") with
       | Some _ =>
           copy_visible a' = true /\ reset_visible a' = true
           /\ snack_bar a' = snack_bar fresh_page
       | None =>
           copy_visible a' = copy_visible fresh_page
           /\ reset_visible a' = reset_visible fresh_page
           /\ snack_bar a'
              = Some (u "Recovered from an error; showing a stable recipe.")
       end.
Proof.
  destruct page_after_generation as [H _].
  apply (H (answers_title "Soup") (u "soup") fresh_page empty_state).
  exists [Row [Text (PStr (u "Recipe")); Container None; Button "Copy"]]. reflexivity.
Defined.

(** * The prose extractor on plain lists *)

(** A greedy repetition takes its whole run when what follows succeeds
    there. *)
Lemma star_greedy_first p k m :
  forall rest prev cs,
    k (rev (run_of p rest) ++ prev) (lstrip_by p rest) cs = Some m ->
    star_greedy p prev rest cs k = Some m.
Proof.
  induction rest as [|c t IH]; intros prev cs H; simpl in *.
  - exact H.
  - destruct (p c) eqn:Hc; simpl in H; [|exact H].
    rewrite <- List.app_assoc in H. simpl in H. rewrite (IH _ _ H). reflexivity.
Qed.

Lemma run_of_stop p a c t :
  Forall (fun x => p x = true) a -> p c = false ->
  run_of p (a ++ c :: t) = a /\ lstrip_by p (a ++ c :: t) = c :: t.
Proof.
  intros Ha Hc. induction Ha as [|x a Hx Ha IH]; cbn [app run_of lstrip_by].
  - rewrite Hc. auto.
  - rewrite Hx. destruct IH as [-> ->]. auto.
Qed.

Lemma sub_go_match_at r repl prev a b m :
  a <> [] ->
  match_here r prev (a ++ b) = Some m ->
  m_text m = a ->
  sub_go r repl 0 prev (a ++ b) = repl m ++ sub_go r repl 0 (rev a ++ prev) b.
Proof.
  intros Hne Hm Ht. destruct a as [|x a]; [congruence|].
  cbn [app sub_go]. cbn [app] in Hm. rewrite Hm, Ht. cbn [length].
  rewrite sub_go_skip. cbn [rev]. rewrite <- List.app_assoc. reflexivity.
Qed.

Lemma digit_not_bullet c : is_digit c = true -> mem_ch c [45; 42] = false.
Proof.
  unfold is_digit, in_range, mem_ch, ch_eqb. cbn [existsb].
  rewrite andb_true_iff, !N.leb_le. intros H.
  destruct (N.eqb_spec c 45); [lia|]. destruct (N.eqb_spec c 42); [lia | reflexivity].
Qed.

Lemma digit_not_punct c : is_digit c = true -> num_punct c = false.
Proof.
  intros H. unfold num_punct. rewrite (digit_not_space c H), orb_false_r.
  unfold is_digit, in_range in H. rewrite andb_true_iff, !N.leb_le in H.
  unfold mem_ch, ch_eqb. cbn [existsb].
  destruct (N.eqb_spec c 41); [lia|]. destruct (N.eqb_spec c 46); [lia|].
  destruct (N.eqb_spec c 45); [lia | reflexivity].
Qed.

Lemma digit_not_linebreak c : is_digit c = true -> is_linebreak c = false.
Proof.
  unfold is_digit, is_linebreak, in_range, mem_ch, ch_eqb. cbn [existsb].
  rewrite andb_true_iff, !N.leb_le. intros H.
  destruct (N.leb_spec 10 c), (N.leb_spec c 13), (N.leb_spec 28 c), (N.leb_spec c 30),
    (N.eqb_spec c 133), (N.eqb_spec c 8232), (N.eqb_spec c 8233);
    cbn; try reflexivity; lia.
Qed.

Lemma space_is_punct c : num_punct c = false -> is_space c = false.
Proof. unfold num_punct. intros H. apply orb_false_iff in H. tauto. Qed.

Lemma N_to_str_head n :
  exists d ds,
    N_to_str n = d :: ds /\ is_digit d = true /\ Forall (fun c => is_digit c = true) ds.
Proof.
  pose proof (digit_chars_digits (N.to_uint n)) as H.
  rewrite N_to_str_digits.
  destruct (digit_chars (N.to_uint n)) as [|d ds] eqn:E; [destruct (to_uint_nonnil n E)|].
  exists d, ds. inversion H; subst. auto.
Qed.

(** *** A dashed line *)

Lemma bullet_matches_dash item : is_some (re_match BULLET_RE (45 :: 32 :: item)) = true.
Proof.
  unfold re_match, match_here, BULLET_RE, Plus. cbn [seqs rmatch star_greedy].
  change (is_space 45) with false. cbv iota beta.
  change (mem_ch 45 [45; 42]) with true. change (is_space 32) with true. cbv iota.
  rewrite star_greedy_ret. reflexivity.
Qed.

Lemma bullet_refuses_digit d rest :
  is_digit d = true -> is_some (re_match BULLET_RE (d :: rest)) = false.
Proof.
  intros H. unfold re_match, match_here, BULLET_RE, Plus. cbn [seqs rmatch star_greedy].
  rewrite (digit_not_space d H). cbv beta. rewrite (digit_not_bullet d H). reflexivity.
Qed.

Lemma numbered_refuses_dash item :
  is_some (re_match NUMBERED_RE (45 :: 32 :: item)) = false.
Proof.
  unfold re_match, match_here, NUMBERED_RE, Plus. cbn [seqs rmatch star_greedy].
  change (is_space 45) with false. cbv iota beta. reflexivity.
Qed.

Lemma strip_chars_dash item :
  list_item item -> strip_chars bullet_chars (45 :: 32 :: item) = item.
Proof.
  intros (Hne & _ & Hhead & Hlast). unfold strip_chars, strip_by. cbn [lstrip_by].
  change (mem_ch 45 bullet_chars) with true. change (mem_ch 32 bullet_chars) with true.
  cbv iota.
  assert (E : lstrip_by (fun c => mem_ch c bullet_chars) item = item).
  { destruct item as [|c t]; [reflexivity|]. cbn [lstrip_by]. rewrite Hhead. reflexivity. }
  rewrite E. unfold rstrip_by.
  assert (E' : lstrip_by (fun c => mem_ch c bullet_chars) (rev item) = rev item).
  { destruct (rev item) as [|c t]; [reflexivity|]. cbn [lstrip_by]. rewrite Hlast. reflexivity. }
  rewrite E'. apply rev_involutive.
Qed.

(** *** A numbered line *)

Lemma digit_decimal c : is_digit c = true -> is_decimal c = true.
Proof.
  unfold is_digit, in_range, is_decimal, decimal_ranges.
  rewrite andb_true_iff, !N.leb_le. intros H. cbn [in_ranges].
  destruct (N.ltb_spec c 48); [lia|]. destruct (N.leb_spec c 57); [reflexivity | lia].
Qed.

Lemma numbered_rmatch k d ds h s' :
  is_digit d = true ->
  Forall (fun c => is_digit c = true) ds ->
  num_punct h = false ->
  (forall prev, k prev (h :: s') [] <> None) ->
  exists prev,
    rmatch NUMBERED_RE [] (d :: ds ++ 46 :: 32 :: h :: s') [] k = k prev (h :: s') [].
Proof.
  intros Hd Hds Hh Hk.
  assert (Hds' : Forall (fun c => is_decimal c = true) ds)
    by (eapply List.Forall_impl; [|exact Hds]; exact digit_decimal).
  destruct (run_of_stop is_decimal ds 46 (32 :: h :: s') Hds' eq_refl) as [Er El].
  set (prev := 32 :: 46 :: rev ds ++ [d]).
  exists prev. destruct (k prev (h :: s') []) as [m|] eqn:Ek; [|destruct (Hk prev Ek)].
  unfold NUMBERED_RE, Plus. cbn [seqs rmatch star_greedy].
  rewrite (digit_not_space d Hd), (digit_decimal d Hd). cbv beta.
  apply star_greedy_first. rewrite Er, El. cbn [rmatch].
  change (num_punct 46) with true. cbv iota.
  apply star_greedy_first. cbn [run_of lstrip_by].
  change (num_punct 32) with true. cbv iota. rewrite Hh. cbn [rev app]. exact Ek.
Qed.

Lemma numbered_matches_line d ds h s' :
  is_digit d = true ->
  Forall (fun c => is_digit c = true) ds ->
  num_punct h = false ->
  is_some (re_match NUMBERED_RE (d :: ds ++ 46 :: 32 :: h :: s')) = true.
Proof.
  intros Hd Hds Hh. unfold re_match, match_here.
  destruct (numbered_rmatch ret d ds h s' Hd Hds Hh) as [prev ->]; [discriminate|].
  reflexivity.
Qed.

Lemma match_here_numbering_anchored prev rest :
  prev <> [] -> match_here NUMBERING_RE prev rest = None.
Proof.
  intros Hp. destruct (match_here NUMBERING_RE prev rest) as [m|] eqn:E; [|reflexivity].
  exfalso. apply match_here_split in E. destruct E as (x & r' & _ & M).
  unfold NUMBERING_RE, NUMBERED_RE in M. cbn [seqs] in M.
  apply matches_Seq_inv in M. destruct M as (x0 & y0 & c0 & _ & M & _).
  apply matches_Seq_inv in M. destruct M as (x1 & y1 & c1 & _ & M & _).
  apply matches_Bol_inv in M. destruct M as [-> _]. congruence.
Qed.

Lemma strip_numbering_line d ds h s' :
  is_digit d = true ->
  Forall (fun c => is_digit c = true) ds ->
  num_punct h = false ->
  strip_numbering (d :: ds ++ 46 :: 32 :: h :: s') = h :: s'.
Proof.
  intros Hd Hds Hh. unfold strip_numbering, re_sub_const, re_sub.
  assert (Hm : match_here NUMBERING_RE [] ((d :: ds ++ [46; 32]) ++ h :: s')
               = Some {| m_before := []; m_text := d :: ds ++ [46; 32];
                         m_after := h :: s'; m_caps := [] |}).
  { unfold match_here, NUMBERING_RE. cbn [rmatch].
    cbn [app]. rewrite <- List.app_assoc. cbn [app].
    destruct (numbered_rmatch (fun (p r : str) (c : caps) => star_greedy is_space p r c ret)
                d ds h s' Hd Hds Hh) as [prev ->].
    { intros prev. cbn [star_greedy]. rewrite (space_is_punct h Hh). discriminate. }
    cbn [star_greedy]. rewrite (space_is_punct h Hh). unfold ret.
    change (d :: ds ++ 46 :: 32 :: h :: s') with (d :: (ds ++ 46 :: 32 :: h :: s')).
    replace (d :: (ds ++ 46 :: 32 :: h :: s')) with ((d :: ds ++ [46; 32]) ++ h :: s')
      by (cbn [app]; rewrite <- List.app_assoc; reflexivity).
    rewrite firstn_app_len. reflexivity. }
  replace (d :: ds ++ 46 :: 32 :: h :: s') with ((d :: ds ++ [46; 32]) ++ h :: s')
    by (cbn [app]; rewrite <- List.app_assoc; reflexivity).
  assert (Hne : d :: ds ++ [46; 32] <> []) by discriminate.
  rewrite (sub_go_match_at _ _ _ _ _ _ Hne Hm eq_refl).
  rewrite (sub_go_anchored _ _ match_here_numbering_anchored)
    by (cbn [rev]; intros E; apply app_eq_nil in E; destruct E as [E _];
        apply app_eq_nil in E; destruct E as [_ E]; discriminate E).
  reflexivity.
Qed.

(** *** The lines of a text *)

Lemma splitlines_go_join lines :
  Forall (fun p => p <> [] /\ Forall (fun c => is_linebreak c = false) p) lines ->
  forall p cur,
    p <> [] -> Forall (fun c => is_linebreak c = false) p ->
    splitlines_go cur (join [10] (p :: lines)) = (rev cur ++ p) :: lines.
Proof.
  induction 1 as [|q r [Hq1 Hq2] Hr IH]; intros p cur Hne Hp.
  - cbn [join]. apply splitlines_go_last; [exact Hp|].
    intros E. apply app_eq_nil in E. tauto.
  - change (join [10] (p :: q :: r)) with (p ++ 10 :: join [10] (q :: r)).
    rewrite (splitlines_go_piece p Hp). rewrite (IH q [] Hq1 Hq2). reflexivity.
Qed.

Lemma splitlines_join_lines lines :
  Forall (fun p => p <> [] /\ Forall (fun c => is_linebreak c = false) p) lines ->
  splitlines (join [10] lines) = lines.
Proof.
  unfold splitlines. intros H. destruct H as [|p r [Hne Hp] Hr]; [reflexivity|].
  exact (splitlines_go_join r Hr p [] Hne Hp).
Qed.

Lemma replace_ch_absent a b s : Forall (fun c => c <> a) s -> replace_ch a b s = s.
Proof.
  unfold replace_ch. induction 1 as [|c t Hc Ht IH]; [reflexivity|].
  cbn [List.map]. rewrite IH. unfold ch_eqb.
  destruct (N.eqb_spec c a); [congruence | reflexivity].
Qed.

Lemma Forall_join (P : char -> Prop) sep lines :
  Forall P sep -> Forall (Forall P) lines -> Forall P (join sep lines).
Proof.
  intros Hsep H. induction H as [|p r Hp Hr IH]; [constructor|].
  destruct r as [|q r]; [exact Hp|].
  change (join sep (p :: q :: r)) with (p ++ sep ++ join sep (q :: r)).
  apply Forall_app. split; [exact Hp|]. apply Forall_app. split; [exact Hsep | exact IH].
Qed.

(** What a line of the list is made of. *)
Lemma dash_line_chars item :
  list_item item ->
  Forall (fun c => is_linebreak c = false /\ c <> 8226) (u "- " ++ item).
Proof.
  intros (_ & H & _). constructor; [split; [reflexivity | discriminate]|].
  constructor; [split; [reflexivity | discriminate] | exact H].
Qed.

Lemma numbered_line_chars n s :
  step_item s ->
  Forall (fun c => is_linebreak c = false /\ c <> 8226) (N_to_str n ++ u ". " ++ s).
Proof.
  intros (_ & H & _). apply Forall_app. split.
  - rewrite N_to_str_digits. eapply List.Forall_impl; [|apply digit_chars_digits].
    intros c Hc. split; [exact (digit_not_linebreak c Hc)|].
    intros ->. discriminate Hc.
  - constructor; [split; [reflexivity | discriminate]|].
    constructor; [split; [reflexivity | discriminate] | exact H].
Qed.

Lemma numbered_lines_chars steps :
  Forall step_item steps ->
  forall i,
    Forall (fun p => p <> [] /\ Forall (fun c => is_linebreak c = false /\ c <> 8226) p)
      (numbered_lines i steps).
Proof.
  induction 1 as [|s t Hs Ht IH]; intros i; cbn [numbered_lines]; constructor.
  - split; [|exact (numbered_line_chars _ s Hs)].
    destruct (N_to_str_head (i + 1)) as (d & ds & -> & _). discriminate.
  - apply IH.
Qed.

Lemma dash_lines_chars items :
  Forall list_item items ->
  Forall (fun p => p <> [] /\ Forall (fun c => is_linebreak c = false /\ c <> 8226) p)
    (List.map (app (u "- ")) items).
Proof.
  induction 1 as [|s t Hs Ht IH]; cbn [List.map]; constructor; [|exact IH].
  split; [discriminate | exact (dash_line_chars s Hs)].
Qed.

(** *** Filtering the lines *)

Lemma numbered_lines_no_bullet steps :
  forall i,
    List.filter (fun line => is_some (re_match BULLET_RE line)) (numbered_lines i steps) = [].
Proof.
  induction steps as [|s t IH]; intros i; [reflexivity|].
  cbn [numbered_lines List.filter].
  destruct (N_to_str_head (i + 1)) as (d & ds & -> & Hd & _).
  cbn [app]. rewrite (bullet_refuses_digit d _ Hd). apply IH.
Qed.

Lemma collect_dash_lines items steps i :
  Forall list_item items ->
  List.map (strip_chars bullet_chars)
    (List.filter (fun line => is_some (re_match BULLET_RE line))
       (List.map (app (u "- ")) items ++ numbered_lines i steps))
  = items.
Proof.
  induction 1 as [|s t Hs Ht IH]; cbn [List.map app List.filter].
  - rewrite numbered_lines_no_bullet. reflexivity.
  - change (u "- " ++ s) with (45 :: 32 :: s).
    rewrite bullet_matches_dash. cbn [List.map].
    rewrite (strip_chars_dash s Hs), IH. reflexivity.
Qed.

Lemma collect_numbered_lines steps :
  Forall step_item steps ->
  forall i,
    List.map (fun line => strip (strip_numbering line))
      (List.filter (fun line => is_some (re_match NUMBERED_RE line)) (numbered_lines i steps))
    = steps.
Proof.
  induction 1 as [|s t Hs Ht IH]; intros i; [reflexivity|].
  cbn [numbered_lines List.filter].
  destruct (N_to_str_head (i + 1)) as (d & ds & -> & Hd & Hds).
  destruct Hs as (Hne & _ & Hst & Hh). destruct s as [|h s']; [congruence|].
  change ((d :: ds) ++ u ". " ++ h :: s') with (d :: ds ++ 46 :: 32 :: h :: s').
  rewrite (numbered_matches_line d ds h s' Hd Hds Hh). cbn [List.map].
  rewrite (strip_numbering_line d ds h s' Hd Hds Hh), (stripped_strip _ Hst), IH.
  reflexivity.
Qed.

Lemma collect_numbered_after_dashes items steps i :
  Forall step_item steps ->
  List.map (fun line => strip (strip_numbering line))
    (List.filter (fun line => is_some (re_match NUMBERED_RE line))
       (List.map (app (u "- ")) items ++ numbered_lines i steps))
  = steps.
Proof.
  intros Hs. induction items as [|s t IH]; cbn [List.map app List.filter].
  - apply collect_numbered_lines, Hs.
  - change (u "- " ++ s) with (45 :: 32 :: s).
    rewrite numbered_refuses_dash. exact IH.
Qed.

(** X21.  A reply that is a plain list is read back: from a text made
    of dashed lines followed by numbered lines, in which neither section
    pattern finds a label, the prose extractor takes the ingredients
    behind the dashes and the steps behind the numbers, each as it was
    written, and puts the default list where there are none. *)
Theorem heuristic_reads_plain_lists :
  forall (items steps : list str) (idea : str),
    Forall list_item items ->
    Forall step_item steps ->
    let text := join [10] (List.map (app (u "- ")) items ++ numbered_lines 0 steps) in
    re_search ING_SECTION_RE text = None ->
    re_search STEPS_SECTION_RE text = None ->
    dict_get (key "ingredients") (heuristic_from_text text idea)
    = str_list (or_default items default_ingredients)
    /\ dict_get (key "steps") (heuristic_from_text text idea)
       = str_list (or_default steps default_steps).
Proof.
  intros items steps idea Hi Hs text H1 H2.
  assert (Hl : Forall (fun p => p <> []
                         /\ Forall (fun c => is_linebreak c = false /\ c <> 8226) p)
                 (List.map (app (u "- ")) items ++ numbered_lines 0 steps)).
  { apply Forall_app. split; [exact (dash_lines_chars items Hi)|].
    exact (numbered_lines_chars steps Hs 0). }
  assert (Hc : replace_ch 8226 45 text = text).
  { apply replace_ch_absent. apply Forall_join; [repeat constructor; discriminate|].
    eapply List.Forall_impl; [|exact Hl]. intros p [_ Hp].
    eapply List.Forall_impl; [|exact Hp]. intros c [_ H]. exact H. }
  assert (Hsp : splitlines text = List.map (app (u "- ")) items ++ numbered_lines 0 steps).
  { apply splitlines_join_lines.
    eapply List.Forall_impl; [|exact Hl]. intros p [Hne Hp]. split; [exact Hne|].
    eapply List.Forall_impl; [|exact Hp]. intros c [H _]. exact H. }
  change (dict_get (key "ingredients") (heuristic_from_text text idea))
    with (str_list (or_default (collect_ingredients (replace_ch 8226 45 text))
                      default_ingredients)).
  change (dict_get (key "steps") (heuristic_from_text text idea))
    with (str_list (or_default (collect_steps (replace_ch 8226 45 text)) default_steps)).
  rewrite Hc. unfold collect_ingredients, collect_steps. rewrite H1, H2, Hsp.
  rewrite (collect_dash_lines items steps 0 Hi),
    (collect_numbered_after_dashes items steps 0 Hs).
  split; reflexivity.
Qed.

Lemma heuristic_reads_plain_lists_witness :
  let text := join [10] (List.map (app (u "- ")) [u "salt"; u "olive oil"]
                         ++ numbered_lines 0 [u "Boil water"; u "Serve"]) in
  dict_get (key "ingredients") (heuristic_from_text text (u "soup"))
  = str_list (or_default [u "salt"; u "olive oil"] default_ingredients)
  /\ dict_get (key "steps") (heuristic_from_text text (u "soup"))
     = str_list (or_default [u "Boil water"; u "Serve"] default_steps).
Proof.
  apply (heuristic_reads_plain_lists [u "salt"; u "olive oil"]
           [u "Boil water"; u "Serve"] (u "soup")).
  - repeat (constructor;
            [split; [discriminate|];
             split; [repeat (constructor; [split; [reflexivity | discriminate]|]);
                     constructor|];
             split; reflexivity|]).
    constructor.
  - repeat (constructor;
            [split; [discriminate|];
             split; [repeat (constructor; [split; [reflexivity | discriminate]|]);
                     constructor|];
             split; [split; vm_compute; reflexivity | reflexivity]|]).
    constructor.
  - vm_compute. reflexivity.
  - vm_compute. reflexivity.
Defined.
